(** * moco-mcp: the aggregation and time-formatting core

    A shallow embedding of the TypeScript sources
      - [utils/timeUtils.ts]       (formatHoursToHHMM, sumHours, hoursToDays, daysToHours,
                                    roundHours, createTimeFormat)
      - [tools/activitiesTools.ts] (aggregateActivities, createDailySummary)
      - [tools/userPresencesTools.ts] (aggregatePresences, createDailyPresenceSummary,
                                    calculateHoursFromTimes, formatPresencesSummary)
      - [utils/errorHandler.ts], [services/mocoApi.ts] (handleMocoApiError,
                                    createHttpErrorMessage, makeRequest,
                                    makeRequestWithHeaders, fetchAllPages, getUserHolidays)

    A JavaScript [number] is an IEEE 754 binary64 value; it is modelled by Rocq's
    primitive [float], which is the same format with the same rounding, so every
    arithmetic step below is the one the program performs.  A thrown [Error] is
    the left injection of a sum carrying the message. *)

From Stdlib Require Import ZArith QArith Qround Qpower Floats List String Ascii Bool Lia.
From Stdlib Require Import DecimalString Permutation Sorted.
From Stdlib Require Uint63.
From Stdlib Require Import Setoid Morphisms.
Import ListNotations.

Set Warnings "-inexact-float".

(* ================================================================== *)
(** ** The JavaScript runtime the sources rely on *)
(* ================================================================== *)

Module JS.

Local Open Scope Q_scope.
Local Open Scope string_scope.

Definition number := float.

(** The exact rational value of a finite binary64 number [(-1)^s * m * 2^e]. *)
Definition SFvalue (s : bool) (m : positive) (e : Z) : Q :=
  inject_Z (cond_Zopp s (Zpos m)) * Qpower 2 e.

(** The number nearest to the integer [n] (exact for [|n| < 2^53]); [szero]
    is the sign given to a zero result. *)
Definition Z2F (szero : bool) (n : Z) : number :=
  SF2Prim (binary_normalize prec emax n 0 szero).

(** [Math.floor]: the greatest integer not above [x].  NaN, the infinities
    and the zeros are returned as they are. *)
Definition Math_floor (x : number) : number :=
  match Prim2SF x with
  | S754_finite s m e => Z2F s (Qfloor (SFvalue s m e))
  | _ => x
  end.

(** [Math.round]: the integer nearest to [x], a tie going towards +infinity,
    that is [floor (x + 1/2)] computed exactly; a zero result keeps the sign
    of [x] (so [Math.round(-0.2)] is [-0]). *)
Definition Math_round (x : number) : number :=
  match Prim2SF x with
  | S754_finite s m e => Z2F s (Qfloor (SFvalue s m e + (1 # 2)))
  | _ => x
  end.

(** *** Number::toString (radix 10)

    For a finite non-zero [x = m * 2^e] the standard takes the least [k] such
    that some [k]-digit integer [s] and exponent [n] have [s * 10^(n-k)] read
    back as [x], the closest such [s] when several do, and lays the digits out
    by the size of [n]. *)

Definition digits_of_Z (z : Z) : string :=
  NilZero.string_of_uint (N.to_uint (Z.to_N z)).

Definition pow10 (n : Z) : Q := Qpower 10 n.

(** The bounds of the set of reals that round to [m * 2^e], and whether the
    bounds themselves belong to it (they do when [m] is even). *)
Definition round_lo (m : positive) (e : Z) : Q :=
  if (Pos.eqb m (2 ^ 52) && (emin <? e)%Z)%bool
  then inject_Z (4 * Zpos m - 1) * Qpower 2 (e - 2)
  else inject_Z (2 * Zpos m - 1) * Qpower 2 (e - 1).

Definition round_hi (m : positive) (e : Z) : Q :=
  inject_Z (2 * Zpos m + 1) * Qpower 2 (e - 1).

Definition reads_back (m : positive) (e : Z) (q : Q) : bool :=
  if Z.even (Zpos m)
  then (Qle_bool (round_lo m e) q && Qle_bool q (round_hi m e))%bool
  else (negb (Qle_bool q (round_lo m e)) && negb (Qle_bool (round_hi m e) q))%bool.

(** The [n] with [10^(n-1) <= v < 10^n]: an estimate from the binary size,
    then corrected. *)
Fixpoint adjust_exp10 (fuel : nat) (v : Q) (n : Z) : Z :=
  match fuel with
  | O => n
  | S fuel' =>
      if negb (Qle_bool (pow10 (n - 1)) v) then adjust_exp10 fuel' v (n - 1)
      else if Qle_bool (pow10 n) v then adjust_exp10 fuel' v (n + 1)
      else n
  end.

Definition exp10 (m : positive) (e : Z) : Z :=
  let b := (Z.log2 (Zpos m) + e)%Z in
  adjust_exp10 8 (SFvalue false m e) ((b * 30103) / 100000 + 1)%Z.

Definition Qabs_diff (a b : Q) : Q := if Qle_bool a b then b - a else a - b.

(** The [k]-digit candidate for [v], if one reads back as [m * 2^e]. *)
Definition candidate (m : positive) (e : Z) (n k : Z) : option Z :=
  let v := SFvalue false m e in
  let scale := pow10 (n - k) in
  let s := Qfloor (v / scale) in
  let ok c := reads_back m e (inject_Z c * scale) in
  let d c := Qabs_diff (inject_Z c * scale) v in
  match ok s, ok (s + 1)%Z with
  | true, true =>
      match Qcompare (d s) (d (s + 1)%Z) with
      | Lt => Some s
      | Gt => Some (s + 1)%Z
      | Eq => if Z.even s then Some s else Some (s + 1)%Z
      end
  | true, false => Some s
  | false, true => Some (s + 1)%Z
  | false, false => None
  end.

Fixpoint shortest (fuel : nat) (m : positive) (e : Z) (n k : Z) : Z * Z * Z :=
  match fuel with
  | O => (Qfloor (SFvalue false m e / pow10 (n - k)), n, k)
  | S fuel' =>
      match candidate m e n k with
      | Some c => if (c =? 10 ^ k)%Z then (1%Z, (n + 1)%Z, 1%Z) else (c, n, k)
      | None => shortest fuel' m e n (k + 1)
      end
  end.

Fixpoint zeros (n : nat) : string :=
  match n with O => EmptyString | S n' => String "0" (zeros n') end.

Definition layout (s n k : Z) : string :=
  let D := digits_of_Z s in
  if ((k <=? n) && (n <=? 21))%Z%bool then D ++ zeros (Z.to_nat (n - k))
  else if ((0 <? n) && (n <=? 21))%Z%bool then
    substring 0 (Z.to_nat n) D ++ "." ++ substring (Z.to_nat n) (Z.to_nat (k - n)) D
  else if ((-6 <? n) && (n <=? 0))%Z%bool then "0." ++ zeros (Z.to_nat (- n)) ++ D
  else
    let ex := (n - 1)%Z in
    let sg := if (ex <? 0)%Z then "-" else "+" in
    if (k =? 1)%Z then D ++ "e" ++ sg ++ digits_of_Z (Z.abs ex)
    else substring 0 1 D ++ "." ++ substring 1 (Z.to_nat (k - 1)) D
         ++ "e" ++ sg ++ digits_of_Z (Z.abs ex).

Definition Number_toString (x : number) : string :=
  match Prim2SF x with
  | S754_nan => "NaN"
  | S754_zero _ => "0"
  | S754_infinity s => if s then "-Infinity" else "Infinity"
  | S754_finite s m e =>
      let '(d, n, k) := shortest 17 m e (exp10 m e) 1 in
      (if s then "-" else "") ++ layout d n k
  end.

(** *** Strings

    A string is a sequence of ASCII characters. *)

Definition code (c : ascii) : N := N_of_ascii c.

Definition is_digit (c : ascii) : bool := ((48 <=? code c) && (code c <=? 57))%N.

(** White space and line terminators of the ASCII range. *)
Definition is_space (c : ascii) : bool :=
  (((9 <=? code c) && (code c <=? 13)) || (code c =? 32))%N.

Definition digit_value (c : ascii) : option Z :=
  let n := Z.of_N (code c) in
  if ((48 <=? n) && (n <=? 57))%Z then Some (n - 48)%Z
  else if ((97 <=? n) && (n <=? 102))%Z then Some (n - 87)%Z
  else if ((65 <=? n) && (n <=? 70))%Z then Some (n - 55)%Z
  else None.

(** The longest prefix of characters satisfying [p], and the rest. *)
Fixpoint span (p : ascii -> bool) (s : string) : string * string :=
  match s with
  | String c r =>
      if p c then let (a, b) := span p r in (String c a, b) else (EmptyString, s)
  | EmptyString => (EmptyString, EmptyString)
  end.

Fixpoint trim_start (s : string) : string :=
  match s with
  | String c r => if is_space c then trim_start r else s
  | EmptyString => EmptyString
  end.

Fixpoint trim_end (s : string) : string :=
  match s with
  | String c r =>
      match trim_end r with
      | EmptyString => if is_space c then EmptyString else String c EmptyString
      | r' => String c r'
      end
  | EmptyString => EmptyString
  end.

Definition trim (s : string) : string := trim_end (trim_start s).

(** The integer written by [s] in the given radix, when every character is a
    digit of that radix and there is at least one. *)
Fixpoint digits_value (radix : Z) (acc : Z) (s : string) : option Z :=
  match s with
  | EmptyString => Some acc
  | String c r =>
      match digit_value c with
      | Some d => if (d <? radix)%Z then digits_value radix (acc * radix + d) r else None
      | None => None
      end
  end.

Definition integer_literal (radix : Z) (s : string) : option Z :=
  match s with
  | EmptyString => None
  | _ => digits_value radix 0 s
  end.

(** The number nearest to [N * 10^E] for an integer [N >= 0], negated when
    [neg]; beyond the range of binary64 the result is an infinity or a zero. *)
Definition decimal_to_number (neg : bool) (N E : Z) : number :=
  if (N =? 0)%Z then (if neg then PrimFloat.neg_zero else PrimFloat.zero)
  else if (310 <? E)%Z then (if neg then PrimFloat.neg_infinity else PrimFloat.infinity)
  else if (E + (Z.log2 N + 1) <? -330)%Z then (if neg then PrimFloat.neg_zero else PrimFloat.zero)
  else if (0 <=? E)%Z then Z2F neg (cond_Zopp neg (N * 10 ^ E))
  else SF2Prim (SFdiv prec emax (S754_finite neg (Z.to_pos N) 0)
                                 (S754_finite false (Z.to_pos (10 ^ (- E))) 0)).

(** An optional exponent part [e±ddd]; [None] when the text is not one. *)
Definition exponent_part (s : string) : option Z :=
  match s with
  | EmptyString => Some 0%Z
  | String c r =>
      if (Ascii.eqb c "e" || Ascii.eqb c "E")%bool then
        match r with
        | String "+" ds => integer_literal 10 ds
        | String "-" ds => option_map Z.opp (integer_literal 10 ds)
        | ds => integer_literal 10 ds
        end
      else None
  end.

Definition unsigned_decimal (neg : bool) (s : string) : number :=
  if String.eqb s "Infinity" then (if neg then PrimFloat.neg_infinity else PrimFloat.infinity)
  else
    let (ip, r1) := span is_digit s in
    let '(fp, r2, dot) :=
      match r1 with
      | String "." r => let (f, r') := span is_digit r in (f, r', true)
      | _ => (EmptyString, r1, false)
      end in
    let mantissa_ok :=
      (negb (String.eqb ip "") || (dot && negb (String.eqb fp "")))%bool in
    match mantissa_ok, digits_value 10 0 (ip ++ fp), exponent_part r2 with
    | true, Some N, Some E => decimal_to_number neg N (E - Z.of_nat (String.length fp))
    | _, _, _ => nan
    end.

(** [Number(s)] for a string [s] (StringToNumber). *)
Definition Number_of_string (s : string) : number :=
  match trim s with
  | EmptyString => PrimFloat.zero
  | String "0" (String x r) as t =>
      if (Ascii.eqb x "x" || Ascii.eqb x "X")%bool then
        match integer_literal 16 r with Some n => Z2F false n | None => nan end
      else if (Ascii.eqb x "o" || Ascii.eqb x "O")%bool then
        match integer_literal 8 r with Some n => Z2F false n | None => nan end
      else if (Ascii.eqb x "b" || Ascii.eqb x "B")%bool then
        match integer_literal 2 r with Some n => Z2F false n | None => nan end
      else unsigned_decimal false t
  | String "+" r => unsigned_decimal false r
  | String "-" r => unsigned_decimal true r
  | t => unsigned_decimal false t
  end.

(** [parseInt] of a text made of decimal digits. *)
Definition parseInt (s : string) : number :=
  match integer_literal 10 s with Some n => Z2F false n | None => nan end.

(** [Math.ceil]: the least integer not below [x]; a zero result keeps the
    sign of [x]. *)
Definition Math_ceil (x : number) : number :=
  match Prim2SF x with
  | S754_finite s m e => Z2F s (Qceiling (SFvalue s m e))
  | _ => x
  end.

(** [parseInt(s, 10)]: white space is skipped, a sign is read, then the
    longest run of decimal digits; NaN when there is no digit.  The integer
    read is rounded to the nearest number (the standard lets an engine be
    less exact beyond 20 digits). *)
Definition parseInt10 (s : string) : number :=
  let t := trim_start s in
  let '(neg, r) :=
    match t with
    | String "-" r => (true, r)
    | String "+" r => (false, r)
    | _ => (false, t)
    end in
  match integer_literal 10 (fst (span is_digit r)) with
  | Some n => Z2F neg (cond_Zopp neg n)
  | None => nan
  end.

(** [s.split(sep)] for a one-character separator. *)
Fixpoint split (sep : ascii) (s : string) : list string :=
  match s with
  | EmptyString => [EmptyString]
  | String c r =>
      if Ascii.eqb c sep then EmptyString :: split sep r
      else match split sep r with
           | x :: xs => String c x :: xs
           | [] => [String c EmptyString]
           end
  end.

(** [s.includes(sub)]. *)
Fixpoint includes (sub s : string) : bool :=
  (prefix sub s ||
   match s with String _ r => includes sub r | EmptyString => false end)%bool.

(** [s.padStart(n, c)] for a one-character filler. *)
Fixpoint repeat_char (c : ascii) (n : nat) : string :=
  match n with O => EmptyString | S n' => String c (repeat_char c n') end.

Definition padStart (n : nat) (c : ascii) (s : string) : string :=
  repeat_char c (n - String.length s) ++ s.

(** [lines.join(sep)]. *)
Definition join (sep : string) (l : list string) : string := String.concat sep l.

(** [Array.prototype.sort()] on strings: ascending order of the code units. *)
Fixpoint insert_sorted (x : string) (l : list string) : list string :=
  match l with
  | [] => [x]
  | y :: r => if String.leb x y then x :: l else y :: insert_sorted x r
  end.

Definition sort (l : list string) : list string := fold_right insert_sorted [] l.

(** *** Exceptions

    [throw new Error(msg)] is the left injection; the record keeps what the
    sources test: the message, and whether the object is a [TypeError]. *)

Record Error : Type := mkError { is_TypeError : bool; message : string }.

Definition throws (A : Type) : Type := (Error + A)%type.

Definition throw {A : Type} (msg : string) : throws A := inl (mkError false msg).

Definition bind {A B : Type} (c : throws A) (k : A -> throws B) : throws B :=
  match c with
  | inl e => inl e
  | inr a => k a
  end.

(** [array.map(f)] and [array.forEach] with a body that may throw: the first
    exception ends the traversal. *)
Fixpoint mapM {A B : Type} (f : A -> throws B) (l : list A) : throws (list B) :=
  match l with
  | [] => inr []
  | x :: r =>
      match f x with
      | inl e => inl e
      | inr y => match mapM f r with inl e => inl e | inr ys => inr (y :: ys) end
      end
  end.

Fixpoint foldM {A S : Type} (f : S -> A -> throws S) (l : list A) (s : S) : throws S :=
  match l with
  | [] => inr s
  | x :: r => match f s x with inl e => inl e | inr s' => foldM f r s' end
  end.

End JS.

Notation "x <- c ;; k" := (JS.bind c (fun x => k))
  (at level 61, c at next level, right associativity).

(* ================================================================== *)
(** ** binary64: the integers it holds exactly *)
(* ================================================================== *)

Module Binary64.

Local Open Scope Z_scope.

(** A mantissa of full precision. *)
Definition full (M : positive) : Prop := Zpos (digits2_pos M) = 53.

(** The number of bits of [n]. *)
Definition width (n : Z) : Z := Z.log2 (Z.abs n) + 1.

(** The decomposition of the number that holds the integer [n]: the bits of
    [n] moved to the top of the 53-bit mantissa. *)
Definition canonM (n : Z) : positive := Z.to_pos (Z.abs n * 2 ^ (53 - width n)).

Definition canon (n : Z) : spec_float :=
  if n =? 0 then S754_zero false
  else S754_finite (n <? 0) (canonM n) (width n - 53).

(** The integers below [2^53] in magnitude. *)
Definition small (n : Z) : Prop := Z.abs n < 2 ^ 53.

(** *** Signs *)

(** A number that is not below zero: a positive number, a zero of either
    sign, or NaN. *)
Definition not_negative (x : JS.number) : Prop := (x <? 0)%float = false.

(** A decomposition whose sign bit is clear (NaN has none). *)
Definition sign_clear (r : spec_float) : Prop :=
  match r with
  | S754_zero s | S754_infinity s | S754_finite s _ _ => s = false
  | S754_nan => True
  end.

(** A decomposition that is not below zero. *)
Definition sf_not_negative (r : spec_float) : Prop :=
  SFltb r (S754_zero false) = false.

(** *** Bounds *)



End Binary64.

(* ================================================================== *)
(** ** utils/timeUtils.ts *)
(* ================================================================== *)

Module TimeUtils.
Import JS.

Local Open Scope string_scope.
Local Open Scope float_scope.

(** Converts decimal hours to H:MM. *)
Definition formatHoursToHHMM (hours : number) : throws string :=
  if hours <? 0 then throw "Hours cannot be negative"
  else
    let wholeHours := Math_floor hours in
    let minutes := Math_round ((hours - wholeHours) * 60) in
    if minutes =? 60 then inr (Number_toString (wholeHours + 1) ++ ":00")
    else inr (Number_toString wholeHours ++ ":" ++ padStart 2 "0" (Number_toString minutes)).

(** [hours.reduce((total, current) => total + current, 0)]. *)
Definition sumHours (hours : list number) : number :=
  fold_left (fun total current => total + current) hours 0.

Definition HOURS_PER_DAY : number := 8.

Definition hoursToDays (hours : number) : number := hours / HOURS_PER_DAY.

Definition daysToHours (days : number) : number := days * HOURS_PER_DAY.

Definition roundHours (hours : number) : number := Math_round (hours * 100) / 100.

Record TimeFormat : Type := mkTimeFormat { hours : number; hoursFormatted : string }.

Definition createTimeFormat (h : number) : throws TimeFormat :=
  let rounded := roundHours h in
  formatted <- formatHoursToHHMM h ;;
  inr (mkTimeFormat rounded formatted).

(** The clock rendering as the specification words it: the carry sets the
    minutes to zero and increments the whole hours, then one layout is used. *)
Definition toClockString (h : number) : string :=
  let wholeHours := Math_floor h in
  let minutes := Math_round ((h - wholeHours) * 60) in
  let '(wholeHours', minutes') :=
    if minutes =? 60 then (wholeHours + 1, 0) else (wholeHours, minutes) in
  Number_toString wholeHours' ++ ":" ++ padStart 2 "0" (Number_toString minutes').


(** Rounding to 2 decimal places, half-up at the 3rd decimal digit, as the
    specification words it: the number of hundredths is [floor (100 h + 1/2)]
    taken on the exact value of [h], and the result is that many hundredths.
    Zeros, infinities and NaN have nothing to round. *)
Definition half_up_2dec (h : number) : number :=
  match Prim2SF h with
  | S754_finite s m e => Z2F s (Qfloor (SFvalue s m e * 100 + (1 # 2))) / 100
  | _ => h
  end.



(** *** Whole hours *)

(** The number that holds the whole number [n]. *)
Definition whole (n : Z) : number := Z2F false n.

(** Whole numbers that are not negative, and their sum. *)
Definition counts (l : list Z) : Prop := Forall (fun n => (0 <= n)%Z) l.

Definition total (l : list Z) : Z := fold_left Z.add l 0%Z.

(** The error of [formatHoursToHHMM]. *)
Definition negative_hours : Error := mkError false "Hours cannot be negative".

End TimeUtils.

(* ================================================================== *)
(** ** [Map]: keyed entries in insertion order *)
(* ================================================================== *)

Module JsMap.
Section Ops.
Context {K V : Type} (eqb : K -> K -> bool).

Definition t : Type := list (K * V).

Definition empty : t := [].

Fixpoint get (k : K) (m : t) : option V :=
  match m with
  | [] => None
  | (k', v) :: r => if eqb k k' then Some v else get k r
  end.

Definition has (k : K) (m : t) : bool :=
  match get k m with Some _ => true | None => false end.

(** [map.set(k, v)]: an existing entry keeps its place, a new one goes last. *)
Fixpoint set (k : K) (v : V) (m : t) : t :=
  match m with
  | [] => [(k, v)]
  | (k', v') :: r => if eqb k k' then (k', v) :: r else (k', v') :: set k v r
  end.

(** A change made through the reference [map.get(k)] returns: the object held
    under [k] is updated where it is. *)
Fixpoint modify (k : K) (f : V -> V) (m : t) : t :=
  match m with
  | [] => []
  | (k', v') :: r => if eqb k k' then (k', f v') :: r else (k', v') :: modify k f r
  end.

Definition keys (m : t) : list K := List.map fst m.

Definition entries (m : t) : list (K * V) := m.

(** The idiom [if (!map.has(k)) map.set(k, init); update(map.get(k))]. *)
Definition upsert (k : K) (init : V) (f : V -> V) (m : t) : t :=
  modify k f (if negb (has k m) then set k init m else m).

(** A property of all the values a map holds. *)
Definition values_all (P : V -> Prop) (m : t) : Prop := Forall (fun e => P (snd e)) m.

(** The distinct elements of a list, each at its first occurrence: the order
    in which a map that is filled from the list holds its keys. *)
Definition first_occurrences (l : list K) : list K :=
  fold_left (fun seen k => if existsb (eqb k) seen then seen else (seen ++ [k])%list) l [].

(** Grouping a list: one [upsert] per element, under the element's key. *)
Section Grouping.
Context {A : Type} (key : A -> K) (init : A -> V) (upd : A -> V -> V).

Definition step (m : t) (a : A) : t := upsert (key a) (init a) (upd a) m.

Definition selected (k : K) (l : list A) : list A := filter (fun a => eqb k (key a)) l.

End Grouping.
End Ops.
End JsMap.

(* ================================================================== *)
(** ** types/mocoTypes.ts

    Each interface is a record in a module of its name; only the fields the
    aggregation reads are kept.  Identifiers are integers. *)
(* ================================================================== *)

Module Ref.
Record t : Type := mk { id : Z; name : string }.
End Ref.

Module Activity.
Record t : Type := mk {
  id : Z; date : string; hours : JS.number; project : Ref.t; task : Ref.t }.
End Activity.

Module TaskActivitySummary.
Record t : Type := mk {
  taskId : Z; taskName : string; hours : JS.number; hoursFormatted : string }.
End TaskActivitySummary.

Module ProjectActivitySummary.
Record t : Type := mk {
  projectId : Z; projectName : string;
  tasks : list TaskActivitySummary.t; projectTotal : TimeUtils.TimeFormat }.
End ProjectActivitySummary.

Module DailyActivitySummary.
Record t : Type := mk {
  date : string; projects : list ProjectActivitySummary.t;
  dailyTotal : TimeUtils.TimeFormat }.
End DailyActivitySummary.

Module TaskTotal.
Record t : Type := mk { taskId : Z; taskName : string; total : TimeUtils.TimeFormat }.
End TaskTotal.

Module ProjectTotal.
Record t : Type := mk {
  projectId : Z; projectName : string; total : TimeUtils.TimeFormat;
  tasks : list TaskTotal.t }.
End ProjectTotal.

Module ActivityRangeSummary.
Record t : Type := mk {
  startDate : string; endDate : string;
  dailySummaries : list DailyActivitySummary.t;
  projectTotals : list ProjectTotal.t;
  grandTotal : TimeUtils.TimeFormat }.
End ActivityRangeSummary.

(* ================================================================== *)
(** ** tools/activitiesTools.ts *)
(* ================================================================== *)

Module Activities.
Import JS TimeUtils.

Local Open Scope string_scope.
Local Open Scope float_scope.

(** The objects held in the maps of [createDailySummary]. *)
Record TaskData : Type := mkTaskData { taskName : string; hours : number }.
Record ProjectData : Type :=
  mkProjectData { projectName : string; tasks : JsMap.t (K := Z) (V := TaskData) }.

(** One turn of the loop [activities.forEach(activity => ...)] of
    [createDailySummary]. *)
Definition addActivity (projectsMap : JsMap.t (K := Z) (V := ProjectData))
    (activity : Activity.t) : JsMap.t (K := Z) (V := ProjectData) :=
  let pid := Ref.id (Activity.project activity) in
  let tid := Ref.id (Activity.task activity) in
  let projectsMap :=
    if negb (JsMap.has Z.eqb pid projectsMap)
    then JsMap.set Z.eqb pid
           (mkProjectData (Ref.name (Activity.project activity)) JsMap.empty) projectsMap
    else projectsMap in
  JsMap.modify Z.eqb pid (fun project =>
    let tasks :=
      if negb (JsMap.has Z.eqb tid (tasks project))
      then JsMap.set Z.eqb tid
             (mkTaskData (Ref.name (Activity.task activity)) 0) (tasks project)
      else tasks project in
    mkProjectData (projectName project)
      (JsMap.modify Z.eqb tid
         (fun t => mkTaskData (taskName t) (hours t + Activity.hours activity)) tasks))
    projectsMap.

Definition taskSummary (entry : Z * TaskData) : throws TaskActivitySummary.t :=
  let '(taskId, taskData) := entry in
  tf <- createTimeFormat (hours taskData) ;;
  inr (TaskActivitySummary.mk taskId (taskName taskData) (hours taskData)
         (hoursFormatted tf)).

Definition projectSummary (entry : Z * ProjectData) : throws ProjectActivitySummary.t :=
  let '(projectId, projectData) := entry in
  tasks <- mapM taskSummary (JsMap.entries (tasks projectData)) ;;
  let projectTotalHours := sumHours (map TaskActivitySummary.hours tasks) in
  projectTotal <- createTimeFormat projectTotalHours ;;
  inr (ProjectActivitySummary.mk projectId (projectName projectData) tasks projectTotal).

(** Creates a daily summary from the activities of a single date. *)
Definition createDailySummary (date : string) (activities : list Activity.t)
  : throws DailyActivitySummary.t :=
  let projectsMap := fold_left addActivity activities JsMap.empty in
  projects <- mapM projectSummary (JsMap.entries projectsMap) ;;
  let dailyTotalHours :=
    sumHours (map (fun project => TimeUtils.hours (ProjectActivitySummary.projectTotal project))
                projects) in
  dailyTotal <- createTimeFormat dailyTotalHours ;;
  inr (DailyActivitySummary.mk date projects dailyTotal).

(** The first loop of [aggregateActivities]: the activities of each date, in
    the order they come. *)
Definition groupByDate (activities : list Activity.t)
  : JsMap.t (K := string) (V := list Activity.t) :=
  fold_left (fun activitiesByDate activity =>
    let d := Activity.date activity in
    let activitiesByDate :=
      if negb (JsMap.has String.eqb d activitiesByDate)
      then JsMap.set String.eqb d [] activitiesByDate
      else activitiesByDate in
    JsMap.modify String.eqb d (fun l => (l ++ [activity])%list) activitiesByDate)
    activities JsMap.empty.

(** The objects held in [projectTotalsMap]. *)
Record TaskTotalData : Type := mkTaskTotalData { tt_taskName : string; tt_totalHours : number }.
Record ProjectTotalData : Type := mkProjectTotalData {
  pt_projectName : string; pt_totalHours : number;
  pt_tasks : JsMap.t (K := Z) (V := TaskTotalData) }.

(** One turn of [dailySummary.projects.forEach(project => ...)]. *)
Definition addProjectTotal (projectTotalsMap : JsMap.t (K := Z) (V := ProjectTotalData))
    (project : ProjectActivitySummary.t) : JsMap.t (K := Z) (V := ProjectTotalData) :=
  let pid := ProjectActivitySummary.projectId project in
  let projectTotalsMap :=
    if negb (JsMap.has Z.eqb pid projectTotalsMap)
    then JsMap.set Z.eqb pid
           (mkProjectTotalData (ProjectActivitySummary.projectName project) 0 JsMap.empty)
           projectTotalsMap
    else projectTotalsMap in
  JsMap.modify Z.eqb pid (fun projectTotal =>
    let totalHours :=
      pt_totalHours projectTotal
      + TimeUtils.hours (ProjectActivitySummary.projectTotal project) in
    let tasks :=
      fold_left (fun tasks task =>
        let tid := TaskActivitySummary.taskId task in
        let tasks :=
          if negb (JsMap.has Z.eqb tid tasks)
          then JsMap.set Z.eqb tid
                 (mkTaskTotalData (TaskActivitySummary.taskName task) 0) tasks
          else tasks in
        JsMap.modify Z.eqb tid
          (fun t => mkTaskTotalData (tt_taskName t)
                      (tt_totalHours t + TaskActivitySummary.hours task)) tasks)
        (ProjectActivitySummary.tasks project) (pt_tasks projectTotal) in
    mkProjectTotalData (pt_projectName projectTotal) totalHours tasks)
    projectTotalsMap.

Definition taskTotal (entry : Z * TaskTotalData) : throws TaskTotal.t :=
  let '(taskId, taskData) := entry in
  total <- createTimeFormat (tt_totalHours taskData) ;;
  inr (TaskTotal.mk taskId (tt_taskName taskData) total).

Definition projectTotal (entry : Z * ProjectTotalData) : throws ProjectTotal.t :=
  let '(projectId, data) := entry in
  total <- createTimeFormat (pt_totalHours data) ;;
  tasks <- mapM taskTotal (JsMap.entries (pt_tasks data)) ;;
  inr (ProjectTotal.mk projectId (pt_projectName data) total tasks).

(** Aggregates activities by date, project and task, with all the totals. *)
Definition aggregateActivities (activities : list Activity.t) (startDate endDate : string)
  : throws ActivityRangeSummary.t :=
  let activitiesByDate := groupByDate activities in
  let sortedDates := sort (JsMap.keys activitiesByDate) in
  st <- foldM (fun st date =>
          let '(dailySummaries, projectTotalsMap) := st in
          let dayActivities :=
            match JsMap.get String.eqb date activitiesByDate with
            | Some l => l
            | None => []
            end in
          dailySummary <- createDailySummary date dayActivities ;;
          inr ((dailySummaries ++ [dailySummary])%list,
               fold_left addProjectTotal (DailyActivitySummary.projects dailySummary)
                 projectTotalsMap))
        sortedDates ([], JsMap.empty) ;;
  let '(dailySummaries, projectTotalsMap) := st in
  projectTotals <- mapM projectTotal (JsMap.entries projectTotalsMap) ;;
  let grandTotalHours :=
    sumHours (map (fun day => TimeUtils.hours (DailyActivitySummary.dailyTotal day))
                dailySummaries) in
  grandTotal <- createTimeFormat grandTotalHours ;;
  inr (ActivityRangeSummary.mk startDate endDate dailySummaries projectTotals grandTotal).

(** *** Vocabulary for the properties of the summary *)

Definition pid (a : Activity.t) : Z := Ref.id (Activity.project a).
Definition tid (a : Activity.t) : Z := Ref.id (Activity.task a).

(** The input records of one date, project and task, in input order. *)
Definition leaf_records (activities : list Activity.t) (date : string) (p t : Z)
  : list Activity.t :=
  filter (fun a => String.eqb date (Activity.date a) && Z.eqb p (pid a) && Z.eqb t (tid a))
    activities.

Definition task_hours (p : ProjectActivitySummary.t) : list number :=
  map TaskActivitySummary.hours (ProjectActivitySummary.tasks p).

Definition project_hours (d : DailyActivitySummary.t) : list number :=
  map (fun p => TimeUtils.hours (ProjectActivitySummary.projectTotal p))
    (DailyActivitySummary.projects d).

Definition daily_hours (s : ActivityRangeSummary.t) : list number :=
  map (fun d => TimeUtils.hours (DailyActivitySummary.dailyTotal d))
    (ActivityRangeSummary.dailySummaries s).

(** *** The maps of [createDailySummary] read as groupings *)

Definition initTask (a : Activity.t) : TaskData :=
  mkTaskData (Ref.name (Activity.task a)) 0.

Definition updTask (a : Activity.t) (t : TaskData) : TaskData :=
  mkTaskData (taskName t) (hours t + Activity.hours a).

Definition initProject (a : Activity.t) : ProjectData :=
  mkProjectData (Ref.name (Activity.project a)) JsMap.empty.

Definition updProject (a : Activity.t) (project : ProjectData) : ProjectData :=
  mkProjectData (projectName project)
    (JsMap.step Z.eqb tid initTask updTask (tasks project) a).

(** The activities the loop over the sorted dates hands to
    [createDailySummary], and one turn of that loop. *)
Definition dayActivities (acts : list Activity.t) (date : string) : list Activity.t :=
  match JsMap.get String.eqb date (groupByDate acts) with
  | Some l => l
  | None => []
  end.

Definition dayStep (acts : list Activity.t)
    (st : list DailyActivitySummary.t * JsMap.t (K := Z) (V := ProjectTotalData))
    (date : string)
  : throws (list DailyActivitySummary.t * JsMap.t (K := Z) (V := ProjectTotalData)) :=
  let '(dailySummaries, projectTotalsMap) := st in
  dailySummary <- createDailySummary date (dayActivities acts date) ;;
  inr ((dailySummaries ++ [dailySummary])%list,
       fold_left addProjectTotal (DailyActivitySummary.projects dailySummary)
         projectTotalsMap).

(** Additivity as the specification states it: every total is the sum of the
    totals below it. *)
Definition additive (s : ActivityRangeSummary.t) : Prop :=
  TimeUtils.hours (ActivityRangeSummary.grandTotal s) = sumHours (daily_hours s) /\
  Forall (fun d =>
      TimeUtils.hours (DailyActivitySummary.dailyTotal d) = sumHours (project_hours d) /\
      Forall (fun p =>
          TimeUtils.hours (ProjectActivitySummary.projectTotal p) = sumHours (task_hours p))
        (DailyActivitySummary.projects d))
    (ActivityRangeSummary.dailySummaries s).

(** Additivity as the code has it: every total is the sum of the totals
    below it, rounded to 2 decimals. *)
Definition rounded_additive (s : ActivityRangeSummary.t) : Prop :=
  TimeUtils.hours (ActivityRangeSummary.grandTotal s) = roundHours (sumHours (daily_hours s)) /\
  Forall (fun d =>
      TimeUtils.hours (DailyActivitySummary.dailyTotal d)
        = roundHours (sumHours (project_hours d)) /\
      Forall (fun p =>
          TimeUtils.hours (ProjectActivitySummary.projectTotal p)
            = roundHours (sumHours (task_hours p)))
        (DailyActivitySummary.projects d))
    (ActivityRangeSummary.dailySummaries s).

(** Scenario A. *)
Definition scenarioA : list Activity.t :=
  [ Activity.mk 1 "2024-01-15" 4.5 (Ref.mk 123 "P123") (Ref.mk 456 "T456") ;
    Activity.mk 2 "2024-01-15" 3.25 (Ref.mk 123 "P123") (Ref.mk 789 "T789") ].

Definition scenarioA_summary : ActivityRangeSummary.t :=
  ActivityRangeSummary.mk "2024-01-15" "2024-01-15"
    [ DailyActivitySummary.mk "2024-01-15"
        [ ProjectActivitySummary.mk 123 "P123"
            [ TaskActivitySummary.mk 456 "T456" 4.5 "4:30" ;
              TaskActivitySummary.mk 789 "T789" 3.25 "3:15" ]
            (mkTimeFormat 7.75 "7:45") ]
        (mkTimeFormat 7.75 "7:45") ]
    [ ProjectTotal.mk 123 "P123" (mkTimeFormat 7.75 "7:45")
        [ TaskTotal.mk 456 "T456" (mkTimeFormat 4.5 "4:30") ;
          TaskTotal.mk 789 "T789" (mkTimeFormat 3.25 "3:15") ] ]
    (mkTimeFormat 7.75 "7:45").

(** One record of an eighth of an hour. *)
Definition eighth : list Activity.t :=
  [ Activity.mk 1 "2024-01-15" 0.125 (Ref.mk 1 "P") (Ref.mk 1 "T") ].

(** *** The maps of [aggregateActivities] read as groupings *)

Definition initTaskTotal (task : TaskActivitySummary.t) : TaskTotalData :=
  mkTaskTotalData (TaskActivitySummary.taskName task) 0.

Definition updTaskTotal (task : TaskActivitySummary.t) (t : TaskTotalData) : TaskTotalData :=
  mkTaskTotalData (tt_taskName t) (tt_totalHours t + TaskActivitySummary.hours task).

Definition initProjectTotal (project : ProjectActivitySummary.t) : ProjectTotalData :=
  mkProjectTotalData (ProjectActivitySummary.projectName project) 0 JsMap.empty.

Definition updProjectTotal (project : ProjectActivitySummary.t)
    (projectTotal : ProjectTotalData) : ProjectTotalData :=
  mkProjectTotalData (pt_projectName projectTotal)
    (pt_totalHours projectTotal
     + TimeUtils.hours (ProjectActivitySummary.projectTotal project))
    (fold_left (JsMap.step Z.eqb TaskActivitySummary.taskId initTaskTotal updTaskTotal)
       (ProjectActivitySummary.tasks project) (pt_tasks projectTotal)).

(** The project entries of all the days of a summary, in date order, and
    those of one project. *)
Definition all_projects (days : list DailyActivitySummary.t)
  : list ProjectActivitySummary.t :=
  List.concat (map DailyActivitySummary.projects days).



(** The hours of the input records of one date, project and task add up to
    a number that is not below zero. *)
Definition leaf_not_negative (acts : list Activity.t) (a : Activity.t) : Prop :=
  Binary64.not_negative
    (sumHours (map Activity.hours
       (leaf_records acts (Activity.date a) (pid a) (tid a)))).

(** The totals of a project entry of a day, and the hours of its tasks, are
    not below zero. *)
Definition project_not_negative (p : ProjectActivitySummary.t) : Prop :=
  Binary64.not_negative (TimeUtils.hours (ProjectActivitySummary.projectTotal p)) /\
  Forall (fun t => Binary64.not_negative (TaskActivitySummary.hours t))
    (ProjectActivitySummary.tasks p).

Definition totals_not_negative (d : ProjectTotalData) : Prop :=
  Binary64.not_negative (pt_totalHours d) /\
  JsMap.values_all (fun t => Binary64.not_negative (tt_totalHours t)) (pt_tasks d).


(** The input records of one date, and of one date and project. *)
Definition date_records (acts : list Activity.t) (date : string) : list Activity.t :=
  filter (fun a => String.eqb date (Activity.date a)) acts.

Definition project_records (acts : list Activity.t) (date : string) (p : Z)
  : list Activity.t :=
  filter (fun a => String.eqb date (Activity.date a) && Z.eqb p (pid a)) acts.

(** Records that come neither in date order nor grouped by project. *)
Definition out_of_order : list Activity.t :=
  [ Activity.mk 1 "2024-01-16" 2 (Ref.mk 7 "P7") (Ref.mk 70 "T70") ;
    Activity.mk 2 "2024-01-15" 1.5 (Ref.mk 9 "P9") (Ref.mk 90 "T90") ;
    Activity.mk 3 "2024-01-16" 0.25 (Ref.mk 3 "P3") (Ref.mk 30 "T30") ;
    Activity.mk 4 "2024-01-16" 0.5 (Ref.mk 7 "P7") (Ref.mk 71 "T71") ].

Definition out_of_order_day : DailyActivitySummary.t :=
  DailyActivitySummary.mk "2024-01-16"
    [ ProjectActivitySummary.mk 7 "P7"
        [ TaskActivitySummary.mk 70 "T70" 2 "2:00" ;
          TaskActivitySummary.mk 71 "T71" 0.5 "0:30" ]
        (mkTimeFormat 2.5 "2:30") ;
      ProjectActivitySummary.mk 3 "P3"
        [ TaskActivitySummary.mk 30 "T30" 0.25 "0:15" ]
        (mkTimeFormat 0.25 "0:15") ]
    (mkTimeFormat 2.75 "2:45").

Definition out_of_order_summary : ActivityRangeSummary.t :=
  ActivityRangeSummary.mk "2024-01-15" "2024-01-16"
    [ DailyActivitySummary.mk "2024-01-15"
        [ ProjectActivitySummary.mk 9 "P9"
            [ TaskActivitySummary.mk 90 "T90" 1.5 "1:30" ]
            (mkTimeFormat 1.5 "1:30") ]
        (mkTimeFormat 1.5 "1:30") ;
      out_of_order_day ]
    [ ProjectTotal.mk 9 "P9" (mkTimeFormat 1.5 "1:30")
        [ TaskTotal.mk 90 "T90" (mkTimeFormat 1.5 "1:30") ] ;
      ProjectTotal.mk 7 "P7" (mkTimeFormat 2.5 "2:30")
        [ TaskTotal.mk 70 "T70" (mkTimeFormat 2 "2:00") ;
          TaskTotal.mk 71 "T71" (mkTimeFormat 0.5 "0:30") ] ;
      ProjectTotal.mk 3 "P3" (mkTimeFormat 0.25 "0:15")
        [ TaskTotal.mk 30 "T30" (mkTimeFormat 0.25 "0:15") ] ]
    (mkTimeFormat 4.25 "4:15").

(** The hours of every record are a whole number that is not negative, [n]
    telling which. *)
Definition whole_hours (n : Activity.t -> Z) (acts : list Activity.t) : Prop :=
  Forall (fun a => (0 <= n a)%Z /\ Activity.hours a = whole (n a)) acts.

Definition hours_total (n : Activity.t -> Z) (acts : list Activity.t) : Z :=
  total (map n acts).

(** Three records of whole hours over two days, and their hours. *)
Definition whole_days : list Activity.t :=
  [ Activity.mk 1 "2024-01-15" 4%float (Ref.mk 1 "P1") (Ref.mk 10 "T10") ;
    Activity.mk 2 "2024-01-16" 8%float (Ref.mk 2 "P2") (Ref.mk 20 "T20") ;
    Activity.mk 3 "2024-01-15" 3%float (Ref.mk 1 "P1") (Ref.mk 11 "T11") ]%string.

Definition whole_days_hours (a : Activity.t) : Z :=
  match Activity.id a with
  | 1%Z => 4%Z
  | 2%Z => 8%Z
  | _ => 3%Z
  end.

End Activities.

Module UserPresence.
Record t : Type := mk { id : Z; date : string; from : string; to : option string }.
End UserPresence.

Module DailyPresenceSummary.
Record t : Type := mk { date : string; totalHours : JS.number; totalHoursFormatted : string }.
End DailyPresenceSummary.

Module PresenceRangeSummary.
Record t : Type := mk {
  startDate : string; endDate : string;
  dailySummaries : list DailyPresenceSummary.t;
  grandTotal : TimeUtils.TimeFormat }.
End PresenceRangeSummary.

Module UserHoliday.
Record t : Type := mk { id : Z; date : string; hours : JS.number; status : string }.
End UserHoliday.

(* ================================================================== *)
(** ** tools/userPresencesTools.ts *)
(* ================================================================== *)

Module Presences.
Import JS TimeUtils.

Local Open Scope string_scope.
Local Open Scope float_scope.

(** Hours between two time strings (HH:MM).  The two names of a destructuring
    are the elements 0 and 1 of the array; a missing element is [undefined],
    which is NaN in the arithmetic that follows.  Nothing in the body throws
    on strings, so the [catch] branch is not reached. *)
Definition calculateHoursFromTimes (fromTime toTime : string) : number :=
  let fromParts := map Number_of_string (split ":" fromTime) in
  let toParts := map Number_of_string (split ":" toTime) in
  let fromHours := nth 0 fromParts nan in
  let fromMinutes := nth 1 fromParts nan in
  let toHours := nth 0 toParts nan in
  let toMinutes := nth 1 toParts nan in
  let fromTotalMinutes := fromHours * 60 + fromMinutes in
  let toTotalMinutes := toHours * 60 + toMinutes in
  let diffMinutes :=
    if fromTotalMinutes <=? toTotalMinutes
    then toTotalMinutes - fromTotalMinutes
    else (24 * 60) - fromTotalMinutes + toTotalMinutes in
  diffMinutes / 60.

(** [presence.from && presence.to]: both present and not the empty string. *)
Definition completed (presence : UserPresence.t) : bool :=
  negb (String.eqb (UserPresence.from presence) "") &&
  match UserPresence.to presence with
  | Some t => negb (String.eqb t "")
  | None => false
  end.

(** [presence.to!] *)
Definition to_time (presence : UserPresence.t) : string :=
  match UserPresence.to presence with Some t => t | None => "" end.

(** Creates a daily presence summary from the presence records of one date. *)
Definition createDailyPresenceSummary (date : string) (presences : list UserPresence.t)
  : throws DailyPresenceSummary.t :=
  let completedPresences := filter completed presences in
  let totalHours :=
    fold_left (fun total presence =>
      let hours := calculateHoursFromTimes (UserPresence.from presence) (to_time presence) in
      total + hours) completedPresences 0 in
  let rounded := roundHours totalHours in
  tf <- createTimeFormat totalHours ;;
  inr (DailyPresenceSummary.mk date rounded (hoursFormatted tf)).

Definition groupByDate (presences : list UserPresence.t)
  : JsMap.t (K := string) (V := list UserPresence.t) :=
  fold_left (fun presencesByDate presence =>
    let d := UserPresence.date presence in
    let presencesByDate :=
      if negb (JsMap.has String.eqb d presencesByDate)
      then JsMap.set String.eqb d [] presencesByDate
      else presencesByDate in
    JsMap.modify String.eqb d (fun l => (l ++ [presence])%list) presencesByDate)
    presences JsMap.empty.

(** Aggregates presence data by date. *)
Definition aggregatePresences (presences : list UserPresence.t) (startDate endDate : string)
  : throws PresenceRangeSummary.t :=
  let presencesByDate := groupByDate presences in
  let sortedDates := sort (JsMap.keys presencesByDate) in
  dailySummaries <- mapM (fun date =>
      let dayPresences :=
        match JsMap.get String.eqb date presencesByDate with
        | Some l => l
        | None => []
        end in
      createDailyPresenceSummary date dayPresences) sortedDates ;;
  let grandTotalHours := sumHours (map DailyPresenceSummary.totalHours dailySummaries) in
  grandTotal <- createTimeFormat grandTotalHours ;;
  inr (PresenceRangeSummary.mk startDate endDate dailySummaries grandTotal).

(** The two constants of the statistics block of [formatPresencesSummary]. *)
Definition workingDays (summary : PresenceRangeSummary.t) : nat :=
  List.length (PresenceRangeSummary.dailySummaries summary).

Definition averageHoursPerDay (summary : PresenceRangeSummary.t) : number :=
  roundHours (hours (PresenceRangeSummary.grandTotal summary)
              / Z2F false (Z.of_nat (workingDays summary))).

(** Formats the presence summary; the lines are joined by the two characters
    backslash and n, as the source writes the separator. *)
Definition formatPresencesSummary (summary : PresenceRangeSummary.t) : throws string :=
  let days := PresenceRangeSummary.dailySummaries summary in
  let total := PresenceRangeSummary.grandTotal summary in
  let lines : list string :=
    [ "Presences from " ++ PresenceRangeSummary.startDate summary ++ " to "
        ++ PresenceRangeSummary.endDate summary ++ ":" ; "" ] in
  let lines :=
    if (0 <? List.length days)%nat then
      List.app lines
        (List.app ("Daily presences:" ::
                   map (fun day =>
                     "- " ++ DailyPresenceSummary.date day ++ ": "
                     ++ Number_toString (DailyPresenceSummary.totalHours day) ++ "h ("
                     ++ DailyPresenceSummary.totalHoursFormatted day ++ ")") days)
                  [ "" ])
    else lines in
  let lines :=
    List.app lines
      [ "Grand total: " ++ Number_toString (hours total) ++ "h ("
          ++ hoursFormatted total ++ ")" ] in
  lines <-
    (if (0 <? List.length days)%nat then
       tf <- createTimeFormat (averageHoursPerDay summary) ;;
       inr (List.app lines
              [ "" ; "Statistics:" ;
                "- Working days: "
                  ++ Number_toString (Z2F false (Z.of_nat (workingDays summary))) ;
                "- Average per day: " ++ Number_toString (averageHoursPerDay summary)
                  ++ "h (" ++ hoursFormatted tf ++ ")" ])
     else inr lines) ;;
  inr (join "\n" lines).

(** *** Vocabulary for the properties of the presence summary *)

(** The hours of one completed presence. *)
Definition elapsed (presence : UserPresence.t) : number :=
  calculateHoursFromTimes (UserPresence.from presence) (to_time presence).

(** The distinct dates of the records, and of the completed records only. *)
Definition recorded_dates (presences : list UserPresence.t) : list string :=
  nodup string_dec (map UserPresence.date presences).

Definition qualifying_dates (presences : list UserPresence.t) : list string :=
  nodup string_dec (map UserPresence.date (filter completed presences)).

(** The clock time [HH:MM] of two-digit fields. *)
Definition digit_char (n : nat) : ascii := ascii_of_nat (48 + n mod 10).

Definition two_digits (n : nat) : string :=
  String (digit_char (n / 10)) (String (digit_char n) EmptyString).

Definition clock (hh mm : nat) : string := two_digits hh ++ ":" ++ two_digits mm.

(** The minutes from [fromTotal] to [toTotal] as the specification words
    them: the difference, with a day added when it is negative. *)
Definition wrapped_minutes (fromTotal toTotal : Z) : Z :=
  if (fromTotal <=? toTotal)%Z then (toTotal - fromTotal)%Z
  else (toTotal - fromTotal + 24 * 60)%Z.

(** Scenarios B and C: a completed presence, then an open one. *)
Definition worked : UserPresence.t :=
  UserPresence.mk 1 "2024-01-15" "09:00" (Some "17:30").

Definition still_open : UserPresence.t :=
  UserPresence.mk 2 "2024-01-15" "18:00" None.

(** The head of the report, up to the grand total. *)
Definition report_head (summary : PresenceRangeSummary.t) : list string :=
  let days := PresenceRangeSummary.dailySummaries summary in
  let total := PresenceRangeSummary.grandTotal summary in
  List.app
    (List.app
       [ "Presences from " ++ PresenceRangeSummary.startDate summary ++ " to "
           ++ PresenceRangeSummary.endDate summary ++ ":" ; "" ]
       (if (0 <? List.length days)%nat then
          List.app ("Daily presences:" ::
                    map (fun day =>
                      "- " ++ DailyPresenceSummary.date day ++ ": "
                      ++ Number_toString (DailyPresenceSummary.totalHours day) ++ "h ("
                      ++ DailyPresenceSummary.totalHoursFormatted day ++ ")") days)
                   [ "" ]
        else []))
    [ "Grand total: " ++ Number_toString (hours total) ++ "h ("
        ++ hoursFormatted total ++ ")" ].

(** A time of the day, [00:00] to [23:59]. *)
Definition valid_clock (s : string) : Prop :=
  exists hh mm, (hh < 24)%nat /\ (mm < 60)%nat /\ s = clock hh mm.

(** A presence that, when completed, runs between two times of the day. *)
Definition well_timed (presence : UserPresence.t) : Prop :=
  completed presence = true ->
  valid_clock (UserPresence.from presence) /\ valid_clock (to_time presence).

(** The presence records of one date, in input order. *)
Definition date_presences (presences : list UserPresence.t) (date : string)
  : list UserPresence.t :=
  filter (fun p => String.eqb date (UserPresence.date p)) presences.

(** The presences the loop over the sorted dates hands to
    [createDailyPresenceSummary]. *)
Definition dayPresences (presences : list UserPresence.t) (date : string)
  : list UserPresence.t :=
  match JsMap.get String.eqb date (groupByDate presences) with
  | Some l => l
  | None => []
  end.

(** A completed presence one of whose times has no colon. *)
Definition malformed (presence : UserPresence.t) : Prop :=
  completed presence = true /\
  (includes ":" (UserPresence.from presence) = false \/
   includes ":" (to_time presence) = false).

(** The summary of a day whose hours are not a number. *)
Definition not_a_number_day (date : string) : DailyPresenceSummary.t :=
  DailyPresenceSummary.mk date nan "NaN:NaN".

(** The summary of scenario C. *)
Definition worked_summary : PresenceRangeSummary.t :=
  PresenceRangeSummary.mk "2024-01-15" "2024-01-15"
    [ DailyPresenceSummary.mk "2024-01-15" 8.5 "8:30" ] (mkTimeFormat 8.5 "8:30").

(** A completed presence whose start lacks the colon. *)
Definition no_colon_start : UserPresence.t :=
  UserPresence.mk 3 "2024-01-15" "0900" (Some "17:30").

(** The hours of the completed presences of the date of [presence] add up to
    a number that is not below zero. *)
Definition day_not_negative (presences : list UserPresence.t) (presence : UserPresence.t)
  : Prop :=
  Binary64.not_negative
    (sumHours (map elapsed
       (filter completed (date_presences presences (UserPresence.date presence))))).

(** A presence that starts after the end of the day. *)
Definition late_start : UserPresence.t :=
  UserPresence.mk 4 "2024-01-15" "25:00" (Some "00:30").

End Presences.

(* ================================================================== *)
(** ** utils/errorHandler.ts *)
(* ================================================================== *)

Module ErrorHandler.
Import JS.

Local Open Scope string_scope.
Local Open Scope float_scope.

Definition createHttpErrorMessage (statusCode : number) : string :=
  if statusCode =? 400 then "Invalid parameters. Please check your inputs."
  else if statusCode =? 401 then "API authentication failed. Please check MOCO_API_KEY."
  else if statusCode =? 403 then "Access denied. Please check your API permissions."
  else if statusCode =? 404 then "Resource not found. Please check the provided IDs."
  else if statusCode =? 422 then "Invalid data. Please check date formats and value ranges."
  else if statusCode =? 429 then "API limit reached. Please try again in a few seconds."
  else if (statusCode =? 500) || (statusCode =? 502) || (statusCode =? 503)
          || (statusCode =? 504)
       then "MoCo server error. Please try again later."
  else "HTTP error " ++ Number_toString statusCode ++ ". Please contact support.".

(** The rest of [s] after the prefix [p]. *)
Fixpoint strip_prefix (p s : string) : option string :=
  match p, s with
  | EmptyString, _ => Some s
  | String a p', String b s' => if Ascii.eqb a b then strip_prefix p' s' else None
  | String _ _, EmptyString => None
  end.

(** [/HTTP (\d+):/] tried at the start of [s]: the digits captured. *)
Definition match_HTTP_here (s : string) : option string :=
  match strip_prefix "HTTP " s with
  | Some r =>
      match span is_digit r with
      | (String d ds, String ":" _) => Some (String d ds)
      | _ => None
      end
  | None => None
  end.

(** [message.match(/HTTP (\d+):/)]: the capture of the leftmost match. *)
Fixpoint match_HTTP (s : string) : option string :=
  match match_HTTP_here s with
  | Some ds => Some ds
  | None => match s with String _ r => match_HTTP r | EmptyString => None end
  end.

(** Converts an error of the API call to a user-friendly message.  An absent
    [message] is the empty string. *)
Definition handleMocoApiError (error : Error) : string :=
  let msg := message error in
  if is_TypeError error && (includes "fetch" msg || includes "Network error" msg)
  then "Network error accessing MoCo API. Please check your internet connection."
  else
    match (if negb (String.eqb msg "") && includes "HTTP" msg
           then match_HTTP msg else None) with
    | Some digits => createHttpErrorMessage (parseInt digits)
    | None =>
        if negb (String.eqb msg "") then "MoCo API error: " ++ msg
        else "Unknown error accessing MoCo API."
    end.

(** *** Vocabulary for the properties of the messages *)





End ErrorHandler.

(* ================================================================== *)
(** ** services/mocoApi.ts *)
(* ================================================================== *)

Module MocoApiService.
Import JS ErrorHandler.

Local Open Scope string_scope.

(** What [fetch] gives: the promise rejects with an error, or resolves with a
    response, whose [json()] in turn yields the body or throws. *)
Record Response (T : Type) : Type := mkResponse {
  ok : bool; status : Z; statusText : string; json : throws T }.
Arguments mkResponse {T}.
Arguments ok {T}.
Arguments status {T}.
Arguments statusText {T}.
Arguments json {T}.

Inductive Fetched (T : Type) : Type :=
| Rejected (reason : Error)
| Resolved (response : Response T).
Arguments Rejected {T}.
Arguments Resolved {T}.

(** Makes an HTTP request; every failure is rethrown as a new [Error] whose
    message is chosen by [handleMocoApiError]. *)
Definition makeRequest {T : Type} (fetched : Fetched T) : throws T :=
  let attempt : throws T :=
    match fetched with
    | Rejected reason => inl reason
    | Resolved response =>
        if negb (ok response)
        then throw ("HTTP " ++ digits_of_Z (status response) ++ ": " ++ statusText response)
        else json response
    end in
  match attempt with
  | inl error => throw (handleMocoApiError error)
  | inr data => inr data
  end.

(** Retrieves the user holidays of a year. *)
Definition getUserHolidays (fetched : Fetched (list UserHoliday.t))
  : throws (list UserHoliday.t) :=
  match makeRequest fetched with
  | inr holidays => inr holidays
  | inl error =>
      if includes "Resource not found" (message error) then inr []
      else inl error
  end.

Local Open Scope float_scope.

(** The pagination headers of a response; [headers.get] gives [null] for a
    header that is not there. *)
Record Headers : Type := mkHeaders {
  X_Page : option string; X_Total : option string; X_Per_Page : option string }.

Inductive FetchedPage (T : Type) : Type :=
| PageRejected (reason : Error)
| PageResolved (response : Response T) (headers : Headers).
Arguments PageRejected {T}.
Arguments PageResolved {T}.

(** Makes an HTTP request and keeps the headers of the response. *)
Definition makeRequestWithHeaders {T : Type} (fetched : FetchedPage T)
  : throws (T * Headers) :=
  let attempt : throws (T * Headers) :=
    match fetched with
    | PageRejected reason => inl reason
    | PageResolved response headers =>
        if negb (ok response)
        then throw ("HTTP " ++ digits_of_Z (status response) ++ ": " ++ statusText response)
        else data <- json response ;; inr (data, headers)
    end in
  match attempt with
  | inl error => throw (handleMocoApiError error)
  | inr r => inr r
  end.

(** A header that is there and not empty. *)
Definition truthy (h : option string) : bool :=
  match h with
  | Some s => negb (String.eqb s "")
  | None => false
  end.

Definition header_text (h : option string) : string :=
  match h with Some s => s | None => "" end.

(** [hasMorePages] after the page [currentPage] came with [headers]. *)
Definition hasMorePages (currentPage : number) (headers : Headers) : bool :=
  if truthy (X_Page headers) && truthy (X_Total headers) && truthy (X_Per_Page headers)
  then
    let totalItems := parseInt10 (header_text (X_Total headers)) in
    let itemsPerPage := parseInt10 (header_text (X_Per_Page headers)) in
    let totalPages := Math_ceil (totalItems / itemsPerPage) in
    currentPage <? totalPages
  else false.

(** The loop of [fetchAllPages]: [fetch page] is what the request for that
    page meets; [None] when the loop is still asking for pages after [fuel]
    requests. *)
Fixpoint fetchPages {T : Type} (fuel : nat) (fetch : number -> FetchedPage (list T))
    (currentPage : number) (allItems : list T) : option (throws (list T)) :=
  match fuel with
  | O => None
  | S fuel' =>
      match makeRequestWithHeaders (fetch currentPage) with
      | inl error => Some (inl error)
      | inr (data, headers) =>
          let allItems := (allItems ++ data)%list in
          if hasMorePages currentPage headers
          then fetchPages fuel' fetch (currentPage + 1) allItems
          else Some (inr allItems)
      end
  end.

(** Fetches all the pages of a paginated endpoint. *)
Definition fetchAllPages {T : Type} (fuel : nat) (fetch : number -> FetchedPage (list T))
  : option (throws (list T)) :=
  fetchPages fuel fetch 1 [].

(** *** Vocabulary for the properties of the pagination *)

(** The page [k] arrives with the items [data] and the headers [headers]. *)
Definition arrives {T : Type} (fetch : number -> FetchedPage (list T)) (k : Z)
    (data : list T) (headers : Headers) : Prop :=
  exists status statusText,
    fetch (Z2F false k) = PageResolved (mkResponse true status statusText (inr data)) headers.

(** The headers tell that there are [pages] pages. *)
Definition tells_pages (headers : Headers) (pages : Z) : Prop :=
  truthy (X_Page headers) && truthy (X_Total headers) && truthy (X_Per_Page headers) = true /\
  Math_ceil (parseInt10 (header_text (X_Total headers)) / parseInt10 (header_text (X_Per_Page headers)))
  = Z2F false pages.

(** The headers tell a positive number of items, zero to a page. *)
Definition tells_empty_pages (headers : Headers) : Prop :=
  truthy (X_Page headers) && truthy (X_Total headers) && truthy (X_Per_Page headers) = true /\
  (exists m e, Prim2SF (parseInt10 (header_text (X_Total headers))) = S754_finite false m e) /\
  parseInt10 (header_text (X_Per_Page headers)) = 0.

(** The items of the pages [1] to [n], in order. *)
Definition pages_items {T : Type} (data : Z -> list T) (n : nat) : list T :=
  List.concat (map (fun k => data (Z.of_nat k)) (seq 1 n)).

(** A server of 250 items, 100 to a page; the page [k] holds the item [k]. *)
Definition three_pages (page : number) : FetchedPage (list number) :=
  PageResolved (mkResponse true 200 "OK" (inr [page]))
    (mkHeaders (Some "1") (Some "250") (Some "100")).

(** A server that tells 10 items, zero to a page. *)
Definition zero_per_page (page : number) : FetchedPage (list number) :=
  PageResolved (mkResponse true 200 "OK" (inr [page]))
    (mkHeaders (Some "1") (Some "10") (Some "0")).

(** An error that [handleMocoApiError] passes on under "MoCo API error": not
    a [TypeError] of [fetch], and with no status in its message. *)
Definition passed_on (error : Error) : Prop :=
  is_TypeError error
    && (includes "fetch" (message error) || includes "Network error" (message error)) = false /\
  match_HTTP (message error) = None.

(** What [fetch] met, when the request fails. *)
Definition failure {T : Type} (fetched : Fetched T) : option Error :=
  match fetched with
  | Rejected reason => Some reason
  | Resolved response =>
      if negb (ok response)
      then Some (mkError false
                   ("HTTP " ++ digits_of_Z (status response) ++ ": " ++ statusText response))
      else match json response with inl e => Some e | inr _ => None end
  end.

End MocoApiService.

(* ================================================================== *)
(** ** Facts about numbers *)
(* ================================================================== *)

Module NumberFacts.
Import JS.

Local Open Scope float_scope.

Lemma Prim2SF_zero : Prim2SF 0 = S754_zero false.
Proof. reflexivity. Qed.

(** A number that is at least zero is not below zero. *)
Lemma leb0_not_ltb0 (h : number) : (0 <=? h) = true -> (h <? 0) = false.
Proof.
  rewrite leb_spec, ltb_spec, Prim2SF_zero.
  destruct (Prim2SF h) as [s | s | | s m e]; try destruct s; cbn; congruence.
Qed.

(** Equal numbers have equal decompositions: the way to tell two numbers apart. *)
Lemma number_neq (x y : number) : Prim2SF x <> Prim2SF y -> x <> y.
Proof. intros H E. apply H. now rewrite E. Qed.

End NumberFacts.

(* ================================================================== *)
(** ** Facts about binary64: arithmetic on small integers is exact *)
(* ================================================================== *)

Module Binary64Facts.
Import JS Binary64.

Local Open Scope Z_scope.

Lemma digits2_size (p : positive) : digits2_pos p = Pos.size p.
Proof. induction p; cbn; congruence. Qed.

Lemma digits2_log2 (p : positive) : Zpos (digits2_pos p) = Z.log2 (Zpos p) + 1.
Proof.
  rewrite digits2_size. destruct p; cbn; try reflexivity; lia.
Qed.

Lemma iter_xO (m d : positive) : Zpos (Pos.iter xO m d) = Zpos m * 2 ^ Zpos d.
Proof.
  induction d as [|d IH] using Pos.peano_ind.
  - cbn. lia.
  - rewrite Pos.iter_succ, Pos2Z.inj_succ, Z.pow_succ_r by lia.
    change (Zpos (Pos.iter xO m d)~0) with (2 * Zpos (Pos.iter xO m d)).
    rewrite IH. lia.
Qed.

Lemma pow2_xO (p : positive) : 2 ^ Zpos p~0 = 2 ^ Zpos p * 2 ^ Zpos p.
Proof. change (Zpos p~0) with (2 * Zpos p). apply Z.pow_twice_r. Qed.

Lemma pow2_xI (p : positive) : 2 ^ Zpos p~1 = 2 * (2 ^ Zpos p * 2 ^ Zpos p).
Proof.
  change (Zpos p~1) with (Z.succ (2 * Zpos p)).
  rewrite Z.pow_succ_r by lia. now rewrite Z.pow_twice_r.
Qed.

Lemma shr_1_double (M : Z) :
  shr_1 (Build_shr_record (2 * M) false false) = Build_shr_record M false false.
Proof. destruct M; reflexivity. Qed.

Lemma shr_exact (p : positive) (M : Z) :
  iter_pos shr_1 p (Build_shr_record (M * 2 ^ Zpos p) false false)
  = Build_shr_record M false false.
Proof.
  revert M. induction p as [p IH|p IH|]; intros M; cbn [iter_pos].
  - replace (M * 2 ^ Z.pos p~1) with (2 * ((M * 2 ^ Zpos p) * 2 ^ Zpos p))
      by (rewrite pow2_xI; ring).
    now rewrite shr_1_double, !IH.
  - replace (M * 2 ^ Z.pos p~0) with ((M * 2 ^ Zpos p) * 2 ^ Zpos p)
      by (rewrite pow2_xO; ring).
    now rewrite !IH.
  - replace (M * 2 ^ 1) with (2 * M) by ring. apply shr_1_double.
Qed.

(** shifting right by n >= 0 *)
Lemma shr_exact_Z (M e n : Z) :
  0 <= n ->
  shr (Build_shr_record (M * 2 ^ n) false false) e n
  = (Build_shr_record M false false, e + n).
Proof.
  intros H. destruct n as [|p|p]; [| |lia].
  - cbn. now rewrite Z.mul_1_r, Z.add_0_r.
  - cbn [shr]. now rewrite shr_exact.
Qed.

Lemma digits2_shift (M : positive) (n : Z) (m : positive) :
  0 <= n -> Zpos m = Zpos M * 2 ^ n ->
  Zpos (digits2_pos m) = Zpos (digits2_pos M) + n.
Proof.
  intros Hn E. rewrite !digits2_log2, E, Z.log2_mul_pow2 by lia. lia.
Qed.

Lemma round_aux_exact (s : bool) (M m : positive) (e n : Z) :
  full M -> 0 <= n -> Zpos m = Zpos M * 2 ^ n ->
  -1074 <= e + n <= 971 ->
  binary_round_aux prec emax s (Zpos m) e loc_Exact = S754_finite s M (e + n).
Proof.
  intros HM Hn E Hr. unfold binary_round_aux, shr_fexp.
  cbn [Zdigits2 shr_record_of_loc].
  rewrite (digits2_shift M n m Hn E), HM.
  replace (fexp prec emax (53 + n + e) - e) with n
    by (unfold fexp, SpecFloat.emin, prec, emax; lia).
  rewrite E, shr_exact_Z by exact Hn.
  cbn [shr_m loc_of_shr_record round_nearest_even Zdigits2 shr_record_of_loc].
  rewrite HM.
  replace (fexp prec emax (53 + (e + n)) - (e + n)) with 0
    by (unfold fexp, SpecFloat.emin, prec, emax; lia).
  cbn [shr shr_m].
  replace (e + n <=? emax - prec) with true
    by (symmetry; apply Z.leb_le; unfold emax, prec; lia).
  reflexivity.
Qed.

(** *** The canonical form of a small integer *)

Lemma width_bounds (n : Z) : n <> 0 -> small n -> 1 <= width n <= 53.
Proof.
  intros H0 Hs. unfold width, small in *.
  assert (0 <= Z.log2 (Z.abs n)) by apply Z.log2_nonneg.
  assert (Z.log2 (Z.abs n) < 53) by (apply Z.log2_lt_pow2; lia).
  lia.
Qed.

Lemma canonM_spec (n : Z) :
  n <> 0 -> small n -> Zpos (canonM n) = Z.abs n * 2 ^ (53 - width n).
Proof.
  intros H0 Hs. unfold canonM. rewrite Z2Pos.id; [reflexivity|].
  assert (W := width_bounds n H0 Hs).
  apply Z.mul_pos_pos; [lia|]. apply Z.pow_pos_nonneg; lia.
Qed.

Lemma canonM_full (n : Z) : n <> 0 -> small n -> full (canonM n).
Proof.
  intros H0 Hs. unfold full. assert (W := width_bounds n H0 Hs).
  assert (E := canonM_spec n H0 Hs).
  destruct (Z.abs n) as [|P|P] eqn:EP; [lia| |lia].
  rewrite (digits2_shift P (53 - width n) (canonM n)) by (lia || exact E).
  rewrite digits2_log2. unfold width. rewrite EP. lia.
Qed.

Lemma binary_round_canon (s : bool) (P mx : positive) (k : Z) :
  Zpos P < 2 ^ 53 -> 0 <= k <= 1000 -> Zpos mx = Zpos P * 2 ^ k ->
  binary_round prec emax s mx (- k)
  = S754_finite s (canonM (Zpos P)) (width (Zpos P) - 53).
Proof.
  intros Hs Hk E.
  assert (H0 : Zpos P <> 0) by lia.
  assert (Hsm : small (Zpos P)) by (unfold small; cbn; lia).
  assert (W := width_bounds _ H0 Hsm).
  assert (C := canonM_spec _ H0 Hsm). cbn [Z.abs] in C.
  assert (D : Zpos (digits2_pos mx) = width (Zpos P) + k).
  { rewrite (digits2_shift P k mx) by (lia || exact E).
    rewrite digits2_log2. unfold width. cbn [Z.abs]. lia. }
  unfold binary_round. rewrite D.
  replace (fexp prec emax (width (Z.pos P) + k + - k)) with (width (Zpos P) - 53)
    by (unfold fexp, SpecFloat.emin, prec, emax; lia).
  unfold shl_align.
  destruct (width (Z.pos P) - 53 - - k) as [|z|z] eqn:Ez.
  - replace (width (Zpos P) - 53) with (- k + 0) by lia.
    apply round_aux_exact; try lia.
    + now apply canonM_full.
    + rewrite C, E. replace (53 - width (Zpos P)) with k by lia. lia.
  - replace (width (Zpos P) - 53) with (- k + Zpos z) by lia.
    apply round_aux_exact; try lia.
    + now apply canonM_full.
    + rewrite C, E, <- Z.mul_assoc, <- Z.pow_add_r by lia.
      f_equal. f_equal. lia.
  - replace (width (Zpos P) - 53) with ((width (Zpos P) - 53) + 0) at 2 by lia.
    apply round_aux_exact; try lia.
    + now apply canonM_full.
    + rewrite iter_xO, C, E, <- Z.mul_assoc, <- Z.pow_add_r by lia.
      rewrite Z.pow_0_r, Z.mul_1_r. f_equal. f_equal. lia.
Qed.

Lemma width_opp (n : Z) : width (- n) = width n.
Proof. unfold width. now rewrite Z.abs_opp. Qed.

Lemma canonM_opp (n : Z) : canonM (- n) = canonM n.
Proof. unfold canonM. now rewrite width_opp, Z.abs_opp. Qed.

(** Normalising any small integer written with trailing zero bits gives its
    canonical form. *)
Lemma binary_normalize_canon (n k : Z) (sz : bool) :
  n <> 0 -> small n -> 0 <= k <= 1000 ->
  binary_normalize prec emax (n * 2 ^ k) (- k) sz = canon n.
Proof.
  intros H0 Hs Hk. unfold canon.
  replace (n =? 0) with false by (symmetry; now apply Z.eqb_neq).
  assert (Hp : 0 < 2 ^ k) by (apply Z.pow_pos_nonneg; lia).
  destruct n as [|P|P]; [lia| |].
  - destruct (Z.pos P * 2 ^ k) as [|mx|mx] eqn:E; [lia| |lia].
    cbn [binary_normalize]. apply binary_round_canon; try lia.
    apply Hs.
  - destruct (Z.neg P * 2 ^ k) as [|mx|mx] eqn:E; [lia|lia|].
    cbn [binary_normalize].
    change (Z.neg P) with (- Zpos P). rewrite canonM_opp, width_opp.
    change (- Zpos P <? 0) with true.
    apply binary_round_canon; try lia.
    apply Hs.
Qed.

Lemma bn_canon (n : Z) : small n -> binary_normalize prec emax n 0 false = canon n.
Proof.
  intros Hs. destruct (Z.eq_dec n 0) as [->|H0]; [reflexivity|].
  rewrite <- (binary_normalize_canon n 0 false H0 Hs) by lia.
  now rewrite Z.pow_0_r, Z.mul_1_r.
Qed.

Lemma canon_valid (n : Z) : small n -> valid_binary (canon n) = true.
Proof.
  intros Hs. unfold canon. destruct (n =? 0) eqn:E0; [reflexivity|].
  apply Z.eqb_neq in E0. assert (W := width_bounds n E0 Hs).
  cbn [valid_binary]. unfold bounded, canonical_mantissa.
  rewrite (canonM_full n E0 Hs).
  apply andb_true_intro. split.
  - apply Z.eqb_eq. unfold fexp, SpecFloat.emin, prec, emax. lia.
  - apply Z.leb_le. unfold emax, prec. lia.
Qed.

Lemma Prim2SF_Z2F (n : Z) : small n -> Prim2SF (Z2F false n) = canon n.
Proof.
  intros Hs. unfold Z2F. rewrite (bn_canon n Hs).
  apply Prim2SF_SF2Prim, canon_valid, Hs.
Qed.

Lemma Z2F_canon (n : Z) : small n -> Z2F false n = SF2Prim (canon n).
Proof. intros Hs. unfold Z2F. now rewrite bn_canon. Qed.

(** A number is determined by its decomposition. *)
Lemma Prim2SF_eq (x : float) (n : Z) :
  small n -> Prim2SF x = canon n -> x = Z2F false n.
Proof.
  intros Hs H. rewrite (Z2F_canon n Hs), <- H. symmetry. apply SF2Prim_Prim2SF.
Qed.

(** *** The operations on small integers are exact *)

Lemma canon_nonzero (n : Z) :
  n <> 0 -> canon n = S754_finite (n <? 0) (canonM n) (width n - 53).
Proof. intros H. unfold canon. now rewrite (proj2 (Z.eqb_neq n 0) H). Qed.

Lemma cond_Zopp_abs (n : Z) (X : Z) : cond_Zopp (n <? 0) (Z.abs n * X) = n * X.
Proof. destruct (n <? 0) eqn:E; cbn; [apply Z.ltb_lt in E|apply Z.ltb_ge in E]; lia. Qed.

Lemma aligned (n ez : Z) :
  n <> 0 -> small n -> -52 <= ez <= width n - 53 ->
  cond_Zopp (n <? 0) (Zpos (fst (shl_align (canonM n) (width n - 53) ez)))
  = n * 2 ^ (- ez).
Proof.
  intros H0 Hs Hez. assert (W := width_bounds n H0 Hs).
  assert (C := canonM_spec n H0 Hs). unfold shl_align.
  destruct (ez - (width n - 53)) as [|z|z] eqn:Ez; cbn [fst]; [|lia|].
  - rewrite C, cond_Zopp_abs. f_equal. f_equal. lia.
  - rewrite iter_xO, C, <- Z.mul_assoc, <- Z.pow_add_r, cond_Zopp_abs by lia.
    f_equal. f_equal. lia.
Qed.

Lemma min_exp_bounds (a b : Z) :
  a <> 0 -> small a -> b <> 0 -> small b ->
  let ez := Z.min (width a - 53) (width b - 53) in
  -52 <= ez <= width a - 53 /\ -52 <= ez <= width b - 53.
Proof.
  intros Ha Hsa Hb Hsb.
  assert (Wa := width_bounds a Ha Hsa). assert (Wb := width_bounds b Hb Hsb).
  cbn. lia.
Qed.

Lemma SFadd_canon (a b : Z) :
  small a -> small b -> small (a + b) ->
  SFadd prec emax (canon a) (canon b) = canon (a + b).
Proof.
  intros Hsa Hsb Hs.
  destruct (Z.eq_dec a 0) as [->|Ha]; [|destruct (Z.eq_dec b 0) as [->|Hb]].
  - cbn [Z.add]. change (canon 0) with (S754_zero false).
    unfold canon. destruct (b =? 0); reflexivity.
  - rewrite Z.add_0_r. change (canon 0) with (S754_zero false).
    rewrite (canon_nonzero a Ha). reflexivity.
  - rewrite (canon_nonzero a Ha), (canon_nonzero b Hb). cbn [SFadd].
    destruct (min_exp_bounds a b Ha Hsa Hb Hsb) as [Ba Bb].
    assert (Wa := width_bounds a Ha Hsa).
    set (ez := Z.min (width a - 53) (width b - 53)) in *.
    rewrite (aligned a ez Ha Hsa Ba), (aligned b ez Hb Hsb Bb).
    rewrite <- Z.mul_add_distr_r.
    destruct (Z.eq_dec (a + b) 0) as [E|E].
    + rewrite E. reflexivity.
    + replace ez with (- - ez) at 2 by lia.
      apply binary_normalize_canon; try assumption. lia.
Qed.

Lemma canon_opp (b : Z) : b <> 0 ->
  S754_finite (negb (b <? 0)) (canonM b) (width b - 53) = canon (- b).
Proof.
  intros Hb. rewrite (canon_nonzero (- b)) by lia.
  rewrite canonM_opp, width_opp. f_equal.
  destruct (b <? 0) eqn:E; cbn; symmetry;
    [apply Z.ltb_ge; apply Z.ltb_lt in E|apply Z.ltb_lt; apply Z.ltb_ge in E]; lia.
Qed.

Lemma SFsub_canon (a b : Z) :
  small a -> small b -> small (a - b) ->
  SFsub prec emax (canon a) (canon b) = canon (a - b).
Proof.
  intros Hsa Hsb Hs.
  destruct (Z.eq_dec a 0) as [->|Ha]; [|destruct (Z.eq_dec b 0) as [->|Hb]].
  - cbn [Z.sub Z.add]. change (canon 0) with (S754_zero false).
    destruct (Z.eq_dec b 0) as [->|Hb]; [reflexivity|].
    rewrite (canon_nonzero b Hb). cbn [SFsub]. now apply canon_opp.
  - rewrite Z.sub_0_r. change (canon 0) with (S754_zero false).
    rewrite (canon_nonzero a Ha). reflexivity.
  - rewrite (canon_nonzero a Ha), (canon_nonzero b Hb). cbn [SFsub].
    destruct (min_exp_bounds a b Ha Hsa Hb Hsb) as [Ba Bb].
    assert (Wa := width_bounds a Ha Hsa).
    set (ez := Z.min (width a - 53) (width b - 53)) in *.
    rewrite (aligned a ez Ha Hsa Ba), (aligned b ez Hb Hsb Bb).
    rewrite <- Z.mul_sub_distr_r.
    destruct (Z.eq_dec (a - b) 0) as [E|E].
    + rewrite E. reflexivity.
    + replace ez with (- - ez) at 2 by lia.
      apply binary_normalize_canon; try assumption. lia.
Qed.

Lemma width_mul (a b : Z) :
  0 < a -> 0 < b -> width a + width b - 1 <= width (a * b).
Proof.
  intros Ha Hb. unfold width. rewrite !Z.abs_eq by nia.
  assert (H := Z.log2_mul_below a b Ha Hb). lia.
Qed.

Lemma small_factors (a b : Z) :
  0 < a -> 0 < b -> small (a * b) -> small a /\ small b.
Proof.
  unfold small. intros Ha Hb. rewrite !Z.abs_eq by nia.
  generalize (2 ^ 53). intros B H. split; nia.
Qed.

Lemma SFmul_canon (a b : Z) :
  0 <= a -> 0 <= b -> small (a * b) ->
  SFmul prec emax (canon a) (canon b) = canon (a * b).
Proof.
  intros Ha Hb Hs.
  destruct (Z.eq_dec a 0) as [->|Ha0]; [|destruct (Z.eq_dec b 0) as [->|Hb0]].
  - cbn [Z.mul]. change (canon 0) with (S754_zero false).
    unfold canon. destruct (b =? 0) eqn:E; [reflexivity|].
    cbn [SFmul xorb]. now replace (b <? 0) with false by (symmetry; apply Z.ltb_ge; lia).
  - rewrite Z.mul_0_r. change (canon 0) with (S754_zero false).
    rewrite (canon_nonzero a Ha0). cbn [SFmul].
    now replace (a <? 0) with false by (symmetry; apply Z.ltb_ge; lia).
  - destruct (small_factors a b ltac:(lia) ltac:(lia) Hs) as [Hsa Hsb].
    assert (Hab : a * b <> 0) by nia.
    rewrite (canon_nonzero a Ha0), (canon_nonzero b Hb0), (canon_nonzero _ Hab).
    cbn [SFmul].
    replace (a <? 0) with false by (symmetry; apply Z.ltb_ge; lia).
    replace (b <? 0) with false by (symmetry; apply Z.ltb_ge; lia).
    replace (a * b <? 0) with false by (symmetry; apply Z.ltb_ge; nia).
    cbn [xorb].
    assert (Wa := width_bounds a Ha0 Hsa). assert (Wb := width_bounds b Hb0 Hsb).
    assert (Wab := width_bounds _ Hab Hs).
    assert (Wm := width_mul a b ltac:(lia) ltac:(lia)).
    replace (width (a * b) - 53)
      with ((width a - 53 + (width b - 53)) + (53 - width a - width b + width (a * b)))
      by lia.
    apply round_aux_exact; try lia.
    + now apply canonM_full.
    + rewrite Pos2Z.inj_mul, !canonM_spec by assumption.
      rewrite !Z.abs_eq by nia.
      replace (a * 2 ^ (53 - width a) * (b * 2 ^ (53 - width b)))
        with (a * b * (2 ^ (53 - width a) * 2 ^ (53 - width b))) by ring.
      rewrite <- (Z.mul_assoc (a * b)), <- !Z.pow_add_r by lia.
      f_equal. f_equal. lia.
Qed.

Lemma width_lt (a b : Z) : 0 < a -> 0 < b -> width a < width b -> a < b.
Proof.
  intros Ha Hb H. unfold width in H. rewrite !Z.abs_eq in H by lia.
  destruct (Z.log2_spec a Ha) as [_ A]. destruct (Z.log2_spec b Hb) as [B _].
  assert (2 ^ Z.succ (Z.log2 a) <= 2 ^ Z.log2 b) by (apply Z.pow_le_mono_r; lia).
  lia.
Qed.

Lemma SFleb_canon (a b : Z) :
  0 <= a -> 0 <= b -> small a -> small b ->
  SFleb (canon a) (canon b) = (a <=? b).
Proof.
  intros Ha Hb Hsa Hsb.
  destruct (Z.eq_dec a 0) as [->|Ha0]; [|destruct (Z.eq_dec b 0) as [->|Hb0]].
  - change (canon 0) with (S754_zero false).
    replace (0 <=? b) with true by (symmetry; apply Z.leb_le; lia).
    unfold canon. destruct (b =? 0) eqn:E; [reflexivity|].
    unfold SFleb. cbn [SFcompare].
    now replace (b <? 0) with false by (symmetry; apply Z.ltb_ge; lia).
  - change (canon 0) with (S754_zero false).
    replace (a <=? 0) with false by (symmetry; apply Z.leb_gt; lia).
    rewrite (canon_nonzero a Ha0). unfold SFleb. cbn [SFcompare].
    now replace (a <? 0) with false by (symmetry; apply Z.ltb_ge; lia).
  - rewrite (canon_nonzero a Ha0), (canon_nonzero b Hb0).
    replace (a <? 0) with false by (symmetry; apply Z.ltb_ge; lia).
    replace (b <? 0) with false by (symmetry; apply Z.ltb_ge; lia).
    unfold SFleb. cbn [SFcompare].
    assert (Wa := width_bounds a Ha0 Hsa). assert (Wb := width_bounds b Hb0 Hsb).
    destruct (Z.compare_spec (width a - 53) (width b - 53)) as [E|E|E].
    + change (Pos.compare_cont Eq (canonM a) (canonM b))
        with (Z.compare (Zpos (canonM a)) (Zpos (canonM b))).
      rewrite !canonM_spec by assumption. rewrite !Z.abs_eq by lia.
      replace (width b) with (width a) by lia.
      assert (P : 0 < 2 ^ (53 - width a)) by (apply Z.pow_pos_nonneg; lia).
      destruct (Z.compare_spec (a * 2 ^ (53 - width a)) (b * 2 ^ (53 - width a)))
        as [C|C|C]; symmetry; [apply Z.leb_le|apply Z.leb_le|apply Z.leb_gt]; nia.
    + symmetry. apply Z.leb_le.
      assert (a < b) by (apply width_lt; lia). lia.
    + symmetry. apply Z.leb_gt. apply width_lt; lia.
Qed.

(** The same, on numbers. *)

Lemma add_exact (a b : Z) :
  small a -> small b -> small (a + b) ->
  (Z2F false a + Z2F false b)%float = Z2F false (a + b).
Proof.
  intros Ha Hb H. apply Prim2SF_eq; [exact H|].
  rewrite add_spec, !Prim2SF_Z2F by assumption. now apply SFadd_canon.
Qed.

Lemma sub_exact (a b : Z) :
  small a -> small b -> small (a - b) ->
  (Z2F false a - Z2F false b)%float = Z2F false (a - b).
Proof.
  intros Ha Hb H. apply Prim2SF_eq; [exact H|].
  rewrite sub_spec, !Prim2SF_Z2F by assumption. now apply SFsub_canon.
Qed.

Lemma mul_exact (a b : Z) :
  0 <= a -> 0 <= b -> small a -> small b -> small (a * b) ->
  (Z2F false a * Z2F false b)%float = Z2F false (a * b).
Proof.
  intros Ha Hb Hsa Hsb H. apply Prim2SF_eq; [exact H|].
  rewrite mul_spec, !Prim2SF_Z2F by assumption. now apply SFmul_canon.
Qed.

Lemma leb_exact (a b : Z) :
  0 <= a -> 0 <= b -> small a -> small b ->
  (Z2F false a <=? Z2F false b)%float = (a <=? b).
Proof.
  intros Ha Hb Hsa Hsb.
  rewrite leb_spec, !Prim2SF_Z2F by assumption. now apply SFleb_canon.
Qed.

Lemma small_below (n : Z) : Z.abs n < 9007199254740992 -> small n.
Proof. intros H. exact H. Qed.

End Binary64Facts.

(* ================================================================== *)
(** ** Facts about lists, traversals and sorting *)
(* ================================================================== *)

Module TraversalFacts.
Import JS.

Lemma fold_left_map {A B C : Type} (f : C -> B -> C) (g : A -> B) (l : list A) (c : C) :
  fold_left f (map g l) c = fold_left (fun acc x => f acc (g x)) l c.
Proof. revert c. induction l as [|x l IH]; intros c; cbn; [reflexivity|apply IH]. Qed.

Lemma fold_left_snoc {A : Type} (l acc : list A) :
  fold_left (fun v a => (v ++ [a])%list) l acc = (acc ++ l)%list.
Proof.
  revert acc. induction l as [|x l IH]; intros acc; cbn.
  - now rewrite app_nil_r.
  - rewrite IH, <- app_assoc. reflexivity.
Qed.

Lemma filter_filter {A : Type} (p q : A -> bool) (l : list A) :
  filter p (filter q l) = filter (fun a => q a && p a) l.
Proof.
  induction l as [|x l IH]; cbn; [reflexivity|].
  destruct (q x); cbn; [destruct (p x)|]; now rewrite IH.
Qed.

Lemma mapM_inr {A B : Type} (f : A -> throws B) (l : list A) (l' : list B) :
  mapM f l = inr l' -> Forall2 (fun x y => f x = inr y) l l'.
Proof.
  revert l'. induction l as [|x l IH]; intros l'; cbn.
  - intros [= <-]. constructor.
  - destruct (f x) as [e|y] eqn:Hx; [discriminate|].
    destruct (mapM f l) as [e|ys]; [discriminate|].
    intros [= <-]. constructor; [exact Hx|now apply IH].
Qed.

Lemma Forall2_In_right {A B : Type} (R : A -> B -> Prop) (l : list A) (l' : list B) (y : B) :
  Forall2 R l l' -> In y l' -> exists x, In x l /\ R x y.
Proof.
  induction 1 as [|a b l l' Hab _ IH]; cbn; [contradiction|].
  intros [<- | Hy].
  - exists a. auto.
  - destruct (IH Hy) as (x & Hx & Hr). exists x. auto.
Qed.

Lemma Forall2_In_left {A B : Type} (R : A -> B -> Prop) (l : list A) (l' : list B) (x : A) :
  Forall2 R l l' -> In x l -> exists y, In y l' /\ R x y.
Proof.
  induction 1 as [|a b l l' Hab _ IH]; cbn; [contradiction|].
  intros [<- | Hx].
  - exists b. auto.
  - destruct (IH Hx) as (y & Hy & Hr). exists y. auto.
Qed.

Lemma Forall2_length_eq {A B : Type} (R : A -> B -> Prop) (l : list A) (l' : list B) :
  Forall2 R l l' -> List.length l' = List.length l.
Proof. induction 1; cbn; congruence. Qed.

(** [sort] rearranges its argument. *)
Lemma insert_sorted_perm (x : string) (l : list string) :
  Permutation (insert_sorted x l) (x :: l).
Proof.
  induction l as [|y l IH]; cbn; [reflexivity|].
  destruct (String.leb x y); [reflexivity|].
  rewrite IH. apply perm_swap.
Qed.

Lemma sort_perm (l : list string) : Permutation (sort l) l.
Proof.
  induction l as [|x l IH]; cbn; [reflexivity|].
  rewrite insert_sorted_perm. now constructor.
Qed.

Lemma sort_In (l : list string) (x : string) : In x (sort l) <-> In x l.
Proof.
  split; apply Permutation_in; [|symmetry]; apply sort_perm.
Qed.

Lemma sort_length (l : list string) : List.length (sort l) = List.length l.
Proof. apply Permutation_length, sort_perm. Qed.

(** *** Traversals that may throw *)

Lemma mapM_accepts {A B : Type} (f : A -> throws B) (l : list A) :
  Forall (fun x => exists y, f x = inr y) l -> exists l', mapM f l = inr l'.
Proof.
  induction 1 as [|x l [y Hy] _ [l' IH]]; cbn; [now exists []|].
  rewrite Hy, IH. now exists (y :: l').
Qed.

Lemma mapM_inl {A B : Type} (f : A -> throws B) (l : list A) (e : Error) :
  mapM f l = inl e -> exists x, In x l /\ f x = inl e.
Proof.
  induction l as [|x l IH]; cbn; [discriminate|].
  destruct (f x) as [e'|y] eqn:Hx.
  - intros [= <-]. exists x. auto.
  - destruct (mapM f l) as [e'|ys]; [|discriminate].
    intros [= <-]. destruct (IH eq_refl) as (x' & Hin & Hx'). exists x'. auto.
Qed.

Lemma foldM_accepts {A S : Type} (f : S -> A -> throws S) (l : list A) (s : S) :
  (forall s x, In x l -> exists s', f s x = inr s') -> exists s', foldM f l s = inr s'.
Proof.
  revert s. induction l as [|x l IH]; intros s H; cbn; [now exists s|].
  destruct (H s x (or_introl eq_refl)) as [s' Hs]. rewrite Hs.
  apply IH. intros s0 x0 Hin. apply H. now right.
Qed.

Lemma foldM_inl {A S : Type} (f : S -> A -> throws S) (l : list A) (s : S) (e : Error) :
  foldM f l s = inl e -> exists s' x, In x l /\ f s' x = inl e.
Proof.
  revert s. induction l as [|x l IH]; intros s; cbn; [discriminate|].
  destruct (f s x) as [e'|s'] eqn:Hx.
  - intros [= <-]. exists s, x. auto.
  - intros H. destruct (IH _ H) as (s0 & x0 & Hin & Hx0). exists s0, x0. auto.
Qed.

(** *** The order of strings *)

Lemma ascii_lt_trans (a b c : ascii) :
  Ascii.compare a b = Lt -> Ascii.compare b c = Lt -> Ascii.compare a c = Lt.
Proof.
  unfold Ascii.compare. rewrite !N.compare_lt_iff. apply N.lt_trans.
Qed.

Lemma string_lt_trans (s1 s2 s3 : string) :
  String.compare s1 s2 = Lt -> String.compare s2 s3 = Lt -> String.compare s1 s3 = Lt.
Proof.
  revert s2 s3. induction s1 as [|a s1 IH]; intros [|b s2] [|c s3]; cbn;
    try discriminate; try reflexivity.
  destruct (Ascii.compare a b) eqn:Eab; [|clear IH|discriminate].
  - apply Ascii.compare_eq_iff in Eab. subst b.
    destruct (Ascii.compare a c); [apply IH|reflexivity|discriminate].
  - intros _. destruct (Ascii.compare b c) eqn:Ebc; [| |discriminate].
    + apply Ascii.compare_eq_iff in Ebc. subst c. now rewrite Eab.
    + now rewrite (ascii_lt_trans _ _ _ Eab Ebc).
Qed.

Lemma ltb_trans (s1 s2 s3 : string) :
  String.ltb s1 s2 = true -> String.ltb s2 s3 = true -> String.ltb s1 s3 = true.
Proof.
  unfold String.ltb.
  destruct (String.compare s1 s2) eqn:E12; try discriminate.
  destruct (String.compare s2 s3) eqn:E23; try discriminate.
  now rewrite (string_lt_trans _ _ _ E12 E23).
Qed.

Lemma leb_neq_ltb (s1 s2 : string) :
  String.leb s1 s2 = true -> s1 <> s2 -> String.ltb s1 s2 = true.
Proof.
  unfold String.leb, String.ltb.
  destruct (String.compare s1 s2) eqn:E; try discriminate; try reflexivity.
  intros _ H. now apply String.compare_eq_iff in E.
Qed.

(** *** [sort] sorts *)

Lemma insert_sorted_HdRel (a x : string) (l : list string) :
  String.leb a x = true ->
  HdRel (fun s1 s2 => String.leb s1 s2 = true) a l ->
  HdRel (fun s1 s2 => String.leb s1 s2 = true) a (insert_sorted x l).
Proof.
  intros Hax H. destruct l as [|y l]; cbn; [now constructor|].
  destruct (String.leb x y); constructor; [exact Hax|now inversion H].
Qed.

Lemma insert_sorted_Sorted (x : string) (l : list string) :
  Sorted (fun s1 s2 => String.leb s1 s2 = true) l ->
  Sorted (fun s1 s2 => String.leb s1 s2 = true) (insert_sorted x l).
Proof.
  induction 1 as [|y l Hl IH Hy]; cbn; [repeat constructor|].
  destruct (String.leb x y) eqn:E.
  - constructor; [now constructor|now constructor].
  - constructor; [exact IH|].
    apply insert_sorted_HdRel; [|exact Hy].
    destruct (String.leb_total x y) as [H|H]; [congruence|exact H].
Qed.

Lemma sort_Sorted (l : list string) :
  Sorted (fun s1 s2 => String.leb s1 s2 = true) (sort l).
Proof.
  induction l as [|x l IH]; cbn; [constructor|]. now apply insert_sorted_Sorted.
Qed.

Lemma Sorted_strict (l : list string) :
  NoDup l ->
  Sorted (fun s1 s2 => String.leb s1 s2 = true) l ->
  StronglySorted (fun s1 s2 => String.ltb s1 s2 = true) l.
Proof.
  intros Hn Hs. apply Sorted_StronglySorted.
  { intros s1 s2 s3. apply ltb_trans. }
  induction Hs as [|x l Hl IH Hx]; [constructor|].
  inversion Hn as [|? ? Hnx Hnl]; subst. constructor; [now apply IH|].
  destruct Hx as [|y l Hxy]; constructor.
  apply leb_neq_ltb; [exact Hxy|]. intros ->. apply Hnx. now left.
Qed.

End TraversalFacts.

(* ================================================================== *)
(** ** Facts about [Map] *)
(* ================================================================== *)

Module JsMapFacts.
Import JsMap.

Section WithKey.
Context {K V : Type} (eqb : K -> K -> bool).
Hypothesis eqb_eq : forall a b, eqb a b = true <-> a = b.

Lemma eqb_refl (k : K) : eqb k k = true.
Proof. now apply eqb_eq. Qed.

Lemma eqb_neq (a b : K) : a <> b -> eqb a b = false.
Proof.
  intros H. destruct (eqb a b) eqn:E; [|reflexivity].
  apply eqb_eq in E. contradiction.
Qed.

Lemma eqb_dec (a b : K) : {a = b} + {a <> b}.
Proof.
  destruct (eqb a b) eqn:E.
  - left. now apply eqb_eq.
  - right. intros ->. rewrite eqb_refl in E. discriminate.
Qed.

Lemma get_set_same (k : K) (v : V) (m : @t K V) : get eqb k (set eqb k v m) = Some v.
Proof.
  induction m as [|[k' v'] m IH]; cbn.
  - now rewrite eqb_refl.
  - destruct (eqb k k') eqn:E; cbn; rewrite E; [reflexivity|exact IH].
Qed.

Lemma get_set_other (k k' : K) (v : V) (m : @t K V) :
  k <> k' -> get eqb k' (set eqb k v m) = get eqb k' m.
Proof.
  intros Hne. induction m as [|[k0 v0] m IH]; cbn.
  - rewrite eqb_neq; [reflexivity|congruence].
  - destruct (eqb k k0) eqn:E; cbn.
    + apply eqb_eq in E. subst k0.
      rewrite eqb_neq; [reflexivity|congruence].
    + destruct (eqb k' k0); [reflexivity|exact IH].
Qed.

Lemma get_modify_same (k : K) (f : V -> V) (m : @t K V) :
  get eqb k (modify eqb k f m) = option_map f (get eqb k m).
Proof.
  induction m as [|[k' v'] m IH]; cbn; [reflexivity|].
  destruct (eqb k k') eqn:E; cbn; rewrite E; [reflexivity|exact IH].
Qed.

Lemma get_modify_other (k k' : K) (f : V -> V) (m : @t K V) :
  k <> k' -> get eqb k' (modify eqb k f m) = get eqb k' m.
Proof.
  intros Hne. induction m as [|[k0 v0] m IH]; cbn; [reflexivity|].
  destruct (eqb k k0) eqn:E; cbn.
  - apply eqb_eq in E. subst k0.
    rewrite eqb_neq; [reflexivity|congruence].
  - destruct (eqb k' k0); [reflexivity|exact IH].
Qed.

Lemma keys_modify (k : K) (f : V -> V) (m : @t K V) : keys (modify eqb k f m) = keys m.
Proof.
  induction m as [|[k' v'] m IH]; cbn; [reflexivity|].
  destruct (eqb k k'); cbn; [reflexivity|]. unfold keys in IH. now rewrite IH.
Qed.

Lemma get_None_keys (k : K) (m : @t K V) : get eqb k m = None <-> ~ In k (keys m).
Proof.
  induction m as [|[k' v'] m IH]; cbn.
  - tauto.
  - destruct (eqb k k') eqn:E.
    + apply eqb_eq in E. subst. split; [discriminate|]. intros H. exfalso. auto.
    + rewrite IH. split.
      * intros H [-> | H']; [rewrite eqb_refl in E; discriminate|contradiction].
      * tauto.
Qed.

Lemma keys_set (k : K) (v : V) (m : @t K V) :
  keys (set eqb k v m) = if has eqb k m then keys m else (keys m ++ [k])%list.
Proof.
  unfold has. induction m as [|[k' v'] m IH]; cbn; [reflexivity|].
  destruct (eqb k k') eqn:E; cbn; [reflexivity|].
  unfold keys in *. rewrite IH. now destruct (get eqb k m).
Qed.

Lemma get_In (k : K) (v : V) (m : @t K V) : get eqb k m = Some v -> In (k, v) m.
Proof.
  induction m as [|[k' v'] m IH]; cbn; [discriminate|].
  destruct (eqb k k') eqn:E.
  - apply eqb_eq in E. subst. intros [= ->]. now left.
  - intros H. right. now apply IH.
Qed.

Lemma In_get (k : K) (v : V) (m : @t K V) :
  NoDup (keys m) -> In (k, v) m -> get eqb k m = Some v.
Proof.
  induction m as [|[k' v'] m IH]; cbn; [contradiction|].
  intros Hnd [[= -> ->] | Hin].
  - now rewrite eqb_refl.
  - inversion Hnd as [|? ? Hk Hnd']; subst.
    destruct (eqb k k') eqn:E.
    + apply eqb_eq in E. subst. exfalso. apply Hk.
      change (In (fst (k', v)) (map fst m)). now apply in_map.
    + now apply IH.
Qed.

Lemma get_upsert_same (k : K) (init : V) (f : V -> V) (m : @t K V) :
  get eqb k (upsert eqb k init f m)
  = Some (f (match get eqb k m with Some v => v | None => init end)).
Proof.
  unfold upsert, has. rewrite get_modify_same.
  destruct (get eqb k m) as [v|] eqn:E; cbn.
  - now rewrite E.
  - now rewrite get_set_same.
Qed.

Lemma get_upsert_other (k k' : K) (init : V) (f : V -> V) (m : @t K V) :
  k <> k' -> get eqb k' (upsert eqb k init f m) = get eqb k' m.
Proof.
  intros Hne. unfold upsert. rewrite (get_modify_other _ _ _ _ Hne).
  destruct (negb (has eqb k m)); [now apply get_set_other|reflexivity].
Qed.

Lemma keys_upsert (k : K) (init : V) (f : V -> V) (m : @t K V) :
  keys (upsert eqb k init f m) = if has eqb k m then keys m else (keys m ++ [k])%list.
Proof.
  unfold upsert. rewrite keys_modify.
  destruct (has eqb k m) eqn:E; cbn [negb]; [reflexivity|].
  now rewrite keys_set, E.
Qed.

Lemma NoDup_keys_upsert (k : K) (init : V) (f : V -> V) (m : @t K V) :
  NoDup (keys m) -> NoDup (keys (upsert eqb k init f m)).
Proof.
  intros H. rewrite keys_upsert. unfold has.
  destruct (get eqb k m) eqn:E; [exact H|].
  apply get_None_keys in E.
  apply NoDup_rev in H. rewrite <- (rev_involutive (keys m ++ [k])).
  apply NoDup_rev. rewrite rev_app_distr. cbn. constructor; [|exact H].
  now rewrite <- in_rev.
Qed.

(** *** Grouping: folding [upsert] over a list *)

Section Grouping.
Context {A : Type} (key : A -> K) (init : A -> V) (upd : A -> V -> V).

Local Abbreviation step := (step eqb key init upd).
Local Abbreviation selected := (selected eqb key).

Lemma get_group (l : list A) (m : @t K V) (k : K) :
  get eqb k (fold_left step l m)
  = match get eqb k m, selected k l with
    | Some v, sel => Some (fold_left (fun v a => upd a v) sel v)
    | None, [] => None
    | None, a0 :: sel => Some (fold_left (fun v a => upd a v) (a0 :: sel) (init a0))
    end.
Proof.
  revert m. induction l as [|a l IH]; intros m.
  - cbn. now destruct (get eqb k m).
  - cbn [fold_left]. rewrite IH. unfold JsMap.step, JsMap.selected. cbn [filter].
    destruct (eqb k (key a)) eqn:E.
    + apply eqb_eq in E. subst k. rewrite get_upsert_same.
      destruct (get eqb (key a) m); reflexivity.
    + rewrite get_upsert_other
        by (intros <-; rewrite eqb_refl in E; discriminate).
      reflexivity.
Qed.

Lemma NoDup_keys_group (l : list A) (m : @t K V) :
  NoDup (keys m) -> NoDup (keys (fold_left step l m)).
Proof.
  revert m. induction l as [|a l IH]; intros m H; cbn; [exact H|].
  apply IH, NoDup_keys_upsert, H.
Qed.

Lemma keys_group (l : list A) (m : @t K V) (k : K) :
  In k (keys (fold_left step l m)) <-> In k (keys m) \/ In k (map key l).
Proof.
  revert m. induction l as [|a l IH]; intros m; [cbn; tauto|].
  cbn [fold_left map]. rewrite IH. unfold JsMap.step. rewrite keys_upsert. cbn [In].
  destruct (has eqb (key a) m) eqn:E.
  - unfold has in E. destruct (get eqb (key a) m) eqn:G; [|discriminate].
    assert (In (key a) (keys m)).
    { destruct (in_dec eqb_dec (key a) (keys m)) as [i|n]; [exact i|].
      apply get_None_keys in n. congruence. }
    split; [tauto|]. intros [?|[<- | ?]]; auto.
  - rewrite in_app_iff. cbn. tauto.
Qed.

End Grouping.
End WithKey.

(** *** Properties of all the values of a map *)

Section Values.
Context {K V : Type} (eqb : K -> K -> bool) (P : V -> Prop).

Lemma values_set (k : K) (v : V) (m : @JsMap.t K V) :
  P v -> JsMap.values_all P m -> JsMap.values_all P (JsMap.set eqb k v m).
Proof.
  intros Hv. unfold JsMap.values_all.
  induction 1 as [|[k' v'] m Hp Hm IH]; cbn.
  - repeat constructor. exact Hv.
  - destruct (eqb k k'); constructor; cbn; auto.
Qed.

Lemma values_modify (k : K) (f : V -> V) (m : @JsMap.t K V) :
  (forall v, P v -> P (f v)) -> JsMap.values_all P m -> JsMap.values_all P (JsMap.modify eqb k f m).
Proof.
  intros Hf. unfold JsMap.values_all.
  induction 1 as [|[k' v'] m Hp Hm IH]; cbn; [constructor|].
  destruct (eqb k k'); constructor; cbn; auto.
Qed.

Lemma values_upsert (k : K) (init : V) (f : V -> V) (m : @JsMap.t K V) :
  P init -> (forall v, P v -> P (f v)) -> JsMap.values_all P m ->
  JsMap.values_all P (JsMap.upsert eqb k init f m).
Proof.
  intros Hi Hf Hm. unfold JsMap.upsert. apply values_modify; [exact Hf|].
  destruct (negb _); [now apply values_set|exact Hm].
Qed.

Lemma values_group {A : Type} (Q : A -> Prop) (key : A -> K) (init : A -> V)
    (upd : A -> V -> V) (l : list A) (m : @JsMap.t K V) :
  (forall a, Q a -> P (init a)) ->
  (forall a v, Q a -> P v -> P (upd a v)) ->
  Forall Q l -> JsMap.values_all P m ->
  JsMap.values_all P (fold_left (JsMap.step eqb key init upd) l m).
Proof.
  intros Hi Hu Hl. revert m. induction Hl as [|a l Ha _ IH]; intros m Hm; cbn; [exact Hm|].
  apply IH. unfold JsMap.step. apply values_upsert; auto.
Qed.

Lemma values_In (m : @JsMap.t K V) (k : K) (v : V) :
  JsMap.values_all P m -> In (k, v) m -> P v.
Proof.
  unfold JsMap.values_all. rewrite Forall_forall. intros H Hin. exact (H _ Hin).
Qed.

End Values.

(** *** The order of the keys of a grouping *)

Section KeyOrder.
Context {K V : Type} (eqb : K -> K -> bool).

Lemma has_keys (k : K) (m : @JsMap.t K V) :
  JsMap.has eqb k m = existsb (eqb k) (JsMap.keys m).
Proof.
  unfold JsMap.has. induction m as [|[k' v] m IH]; cbn; [reflexivity|].
  destruct (eqb k k'); [reflexivity|exact IH].
Qed.

Lemma keys_group_order {A : Type} (key : A -> K) (init : A -> V) (upd : A -> V -> V)
    (l : list A) (m : @JsMap.t K V) :
  JsMap.keys (fold_left (JsMap.step eqb key init upd) l m)
  = fold_left (fun seen k => if existsb (eqb k) seen then seen else (seen ++ [k])%list)
      (map key l) (JsMap.keys m).
Proof.
  revert m. induction l as [|a l IH]; intros m; cbn [fold_left map]; [reflexivity|].
  rewrite IH. f_equal. unfold JsMap.step, JsMap.upsert.
  rewrite keys_modify, has_keys.
  destruct (existsb (eqb (key a)) (JsMap.keys m)) eqn:E; cbn [negb]; [reflexivity|].
  rewrite keys_set, has_keys, E. reflexivity.
Qed.

End KeyOrder.

End JsMapFacts.

(* ================================================================== *)
(** ** Facts about utils/timeUtils.ts *)
(* ================================================================== *)

Module TimeUtilsFacts.
Import JS TimeUtils NumberFacts.

Local Open Scope string_scope.
Local Open Scope float_scope.

Lemma formatHoursToHHMM_negative (h : number) :
  (h <? 0) = true -> formatHoursToHHMM h = throw "Hours cannot be negative".
Proof. intros H. unfold formatHoursToHHMM. now rewrite H. Qed.

Lemma formatHoursToHHMM_not_negative (h : number) :
  (h <? 0) = false -> formatHoursToHHMM h = inr (toClockString h).
Proof.
  intros H. unfold formatHoursToHHMM, toClockString. rewrite H.
  destruct (Math_round ((h - Math_floor h) * 60) =? 60); [|reflexivity].
  change (padStart 2 "0" (Number_toString 0)) with "00". reflexivity.
Qed.

(** C4: for every hours value that is at least zero, [formatHoursToHHMM]
    returns the clock string of the specification's algorithm (whole hours
    by floor, minutes by rounding the rest times 60, 60 minutes carried into
    the next hour, minutes padded to two digits, hours not padded); the
    values 0, 1, 1.5, 2.25, 8.75, 10.1 give 0:00, 1:00, 1:30, 2:15, 8:45,
    10:06, and 1.9999 gives 2:00. *)
Theorem formatHoursToHHMM_clock_algorithm :
  (forall h, (0 <=? h) = true -> formatHoursToHHMM h = inr (toClockString h)) /\
  map formatHoursToHHMM [0; 1; 1.5; 2.25; 8.75; 10.1]
    = map inr ["0:00"; "1:00"; "1:30"; "2:15"; "8:45"; "10:06"] /\
  formatHoursToHHMM 1.9999 = inr "2:00".
Proof.
  split; [|split].
  - intros h H. now apply formatHoursToHHMM_not_negative, leb0_not_ltb0.
  - vm_compute. reflexivity.
  - vm_compute. reflexivity.
Qed.

(** C5: [formatHoursToHHMM] throws exactly when its argument is below zero,
    with the message "Hours cannot be negative" (so at -1); at every value
    that is at least zero it returns a string. *)
Theorem formatHoursToHHMM_throws_iff_negative :
  (forall h, (exists e, formatHoursToHHMM h = inl e) <-> (h <? 0) = true) /\
  (forall h, (h <? 0) = true ->
             formatHoursToHHMM h = throw "Hours cannot be negative") /\
  (forall h, (0 <=? h) = true -> exists s, formatHoursToHHMM h = inr s) /\
  formatHoursToHHMM (-1) = throw "Hours cannot be negative".
Proof.
  repeat split.
  - intros [e He]. destruct (h <? 0) eqn:Hn; [reflexivity|].
    rewrite (formatHoursToHHMM_not_negative _ Hn) in He. discriminate.
  - intros Hn. rewrite (formatHoursToHHMM_negative _ Hn). now eexists.
  - apply formatHoursToHHMM_negative.
  - intros h H. exists (toClockString h).
    now apply formatHoursToHHMM_not_negative, leb0_not_ltb0.
Qed.

Lemma createTimeFormat_not_negative (h : number) :
  (h <? 0) = false ->
  createTimeFormat h = inr (mkTimeFormat (roundHours h) (toClockString h)).
Proof.
  intros H. unfold createTimeFormat.
  now rewrite (formatHoursToHHMM_not_negative _ H).
Qed.

Lemma createTimeFormat_hours (h : number) (tf : TimeFormat) :
  createTimeFormat h = inr tf -> hours tf = roundHours h.
Proof.
  unfold createTimeFormat. destruct (formatHoursToHHMM h); cbn; [discriminate|].
  intros [= <-]. reflexivity.
Qed.

Lemma createTimeFormat_hoursFormatted (h : number) (tf : TimeFormat) :
  createTimeFormat h = inr tf -> formatHoursToHHMM h = inr (hoursFormatted tf).
Proof.
  unfold createTimeFormat. destruct (formatHoursToHHMM h); cbn; [discriminate|].
  intros [= <-]. reflexivity.
Qed.




(** *** Rounding *)

Lemma SFvalue_pos (m : positive) (e : Z) : (0 < SFvalue false m e)%Q.
Proof.
  unfold SFvalue. apply Qmult_lt_0_compat.
  - reflexivity.
  - now apply Qpower_0_lt.
Qed.





(** The input of the counterexample is below the tie 0.025, yet it is rounded
    up; and the decimal 1.005 is rounded down. *)
Example roundHours_near_ties :
  (0x1.9999999999999p-6 <? 0.025) = true /\
  roundHours 0x1.9999999999999p-6 = 0.03 /\
  half_up_2dec 0x1.9999999999999p-6 = 0.02 /\
  roundHours 1.005 = 1.
Proof. vm_compute. repeat split. Qed.



End TimeUtilsFacts.

(* ================================================================== *)
(** ** Facts: numbers that are not below zero *)
(* ================================================================== *)

Module SignFacts.
Import JS TimeUtils Binary64 Binary64Facts NumberFacts TimeUtilsFacts.

Local Open Scope string_scope.
Local Open Scope float_scope.

Lemma not_negative_spec (x : number) : not_negative x <-> sf_not_negative (Prim2SF x).
Proof. unfold not_negative, sf_not_negative. now rewrite ltb_spec. Qed.

Lemma sign_clear_not_negative (r : spec_float) : sign_clear r -> sf_not_negative r.
Proof. destruct r as [s|s| |s m e]; cbn; intros; subst; reflexivity. Qed.

Lemma round_aux_sign_clear (m e : Z) (l : location) :
  sign_clear (binary_round_aux prec emax false m e l).
Proof.
  unfold binary_round_aux.
  destruct (shr_fexp prec emax m e l) as [mrs' e'].
  destruct (shr_fexp prec emax _ e' loc_Exact) as [mrs'' e''].
  destruct (shr_m mrs''); [reflexivity| |exact I].
  destruct (e'' <=? emax - prec)%Z; reflexivity.
Qed.

Lemma binary_round_sign_clear (m : positive) (e : Z) :
  sign_clear (binary_round prec emax false m e).
Proof.
  unfold binary_round. destruct (shl_align _ _ _). apply round_aux_sign_clear.
Qed.

Lemma binary_normalize_sign_clear (n e : Z) :
  (0 <= n)%Z -> sign_clear (binary_normalize prec emax n e false).
Proof.
  intros H. destruct n; [reflexivity| |lia]. apply binary_round_sign_clear.
Qed.

Lemma SFadd_not_negative (x y : spec_float) :
  sf_not_negative x -> sf_not_negative y -> sf_not_negative (SFadd prec emax x y).
Proof.
  destruct x as [sx|sx| |sx mx ex], y as [sy|sy| |sy my ey];
    try destruct sx; try destruct sy; try discriminate; try reflexivity;
    intros _ _; cbn [SFadd cond_Zopp].
  apply sign_clear_not_negative, binary_normalize_sign_clear. lia.
Qed.

Lemma SFmul_not_negative (x y : spec_float) :
  sf_not_negative x -> sign_clear y -> sf_not_negative (SFmul prec emax x y).
Proof.
  destruct x as [sx|sx| |sx mx ex], y as [sy|sy| |sy my ey];
    try destruct sx; try discriminate; cbn [sign_clear]; intros _ Hy; subst;
    try reflexivity.
  cbn [SFmul xorb]. apply sign_clear_not_negative, round_aux_sign_clear.
Qed.

Lemma SFdiv_not_negative (x y : spec_float) :
  sf_not_negative x -> sign_clear y -> sf_not_negative (SFdiv prec emax x y).
Proof.
  destruct x as [sx|sx| |sx mx ex], y as [sy|sy| |sy my ey];
    try destruct sx; try discriminate; cbn [sign_clear]; intros _ Hy; subst;
    try reflexivity.
  cbn [SFdiv xorb].
  destruct (SFdiv_core_binary prec emax (Z.pos mx) ex (Z.pos my) ey) as [[mz ez] lz].
  apply sign_clear_not_negative, round_aux_sign_clear.
Qed.

Lemma add_not_negative (x y : number) :
  not_negative x -> not_negative y -> not_negative (x + y).
Proof.
  rewrite !not_negative_spec, add_spec. apply SFadd_not_negative.
Qed.

Lemma mul_not_negative (x y : number) :
  not_negative x -> sign_clear (Prim2SF y) -> not_negative (x * y).
Proof.
  rewrite !not_negative_spec, mul_spec. apply SFmul_not_negative.
Qed.

Lemma div_not_negative (x y : number) :
  not_negative x -> sign_clear (Prim2SF y) -> not_negative (x / y).
Proof.
  rewrite !not_negative_spec, div_spec. apply SFdiv_not_negative.
Qed.

(** *** Numbers made from decompositions *)

Lemma of_uint63_sign_clear (n : Uint63.int) : sign_clear (Prim2SF (of_uint63 n)).
Proof.
  rewrite of_uint63_spec. apply binary_normalize_sign_clear.
  apply Uint63.to_Z_bounded.
Qed.

Lemma SF2Prim_sign_clear (r : spec_float) :
  sign_clear r -> sign_clear (Prim2SF (SF2Prim r)).
Proof.
  destruct r as [s|s| |s m e]; cbn [sign_clear]; intros H; subst; try reflexivity.
  cbn [SF2Prim]. unfold Z.ldexp. rewrite ldshiftexp_spec.
  match goal with
  | |- context [of_uint63 ?i] =>
      assert (H := of_uint63_sign_clear i);
      destruct (Prim2SF (of_uint63 i)) as [s|s| |s mx ex]; try exact H
  end.
  cbn [sign_clear] in H. subst s. cbn [SFldexp]. apply binary_round_sign_clear.
Qed.

Lemma Z2F_sign_clear (n : Z) : (0 <= n)%Z -> sign_clear (Prim2SF (Z2F false n)).
Proof.
  intros H. apply SF2Prim_sign_clear, binary_normalize_sign_clear, H.
Qed.

Lemma Z2F_not_negative (n : Z) : (0 <= n)%Z -> not_negative (Z2F false n).
Proof.
  intros H. apply not_negative_spec, sign_clear_not_negative, Z2F_sign_clear, H.
Qed.

Lemma Math_round_not_negative (x : number) :
  not_negative x -> not_negative (Math_round x).
Proof.
  intros H. unfold Math_round.
  destruct (Prim2SF x) as [s|s| |s m e] eqn:E; try exact H.
  assert (Hs : s = false).
  { apply not_negative_spec in H. rewrite E in H. now destruct s. }
  subst s. apply Z2F_not_negative.
  change 0%Z with (Qfloor 0). apply Qfloor_resp_le.
  assert (P := SFvalue_pos m e).
  apply Qle_trans with (SFvalue false m e); [now apply Qlt_le_weak|].
  rewrite <- (Qplus_0_r (SFvalue false m e)) at 1.
  apply Qplus_le_r. discriminate.
Qed.

Lemma roundHours_not_negative (h : number) :
  not_negative h -> not_negative (roundHours h).
Proof.
  intros H. unfold roundHours.
  apply div_not_negative; [|reflexivity].
  apply Math_round_not_negative, mul_not_negative; [exact H|reflexivity].
Qed.

Lemma sumHours_not_negative (l : list number) :
  Forall not_negative l -> not_negative (sumHours l).
Proof.
  unfold sumHours. intros H.
  assert (G : forall acc, not_negative acc ->
              not_negative (fold_left (fun total current => total + current) l acc)).
  { induction H as [|x l Hx _ IH]; intros acc Ha; cbn; [exact Ha|].
    apply IH, add_not_negative; assumption. }
  apply G. reflexivity.
Qed.

(** What [createTimeFormat] accepts, and what it then holds. *)
Lemma createTimeFormat_accepts (h : number) :
  not_negative h -> exists tf, createTimeFormat h = inr tf.
Proof. intros H. eexists. now apply createTimeFormat_not_negative. Qed.

Lemma createTimeFormat_accepted (h : number) (tf : TimeFormat) :
  createTimeFormat h = inr tf -> not_negative h /\ not_negative (hours tf).
Proof.
  intros H. assert (N : not_negative h).
  { unfold not_negative. destruct (h <? 0) eqn:E; [|reflexivity].
    unfold createTimeFormat in H. rewrite (formatHoursToHHMM_negative _ E) in H.
    discriminate. }
  split; [exact N|]. rewrite (createTimeFormat_hours _ _ H).
  now apply roundHours_not_negative.
Qed.

Lemma createTimeFormat_error (h : number) (e : Error) :
  createTimeFormat h = inl e -> e = negative_hours.
Proof.
  unfold createTimeFormat, formatHoursToHHMM.
  destruct (h <? 0); cbn; [now intros [= <-]|].
  destruct (_ =? 60); discriminate.
Qed.

End SignFacts.

(* ================================================================== *)
(** ** Facts: exact arithmetic on whole numbers *)
(* ================================================================== *)

Module ExactFacts.
Import JS TimeUtils Binary64 Binary64Facts NumberFacts TimeUtilsFacts SignFacts.

Local Open Scope Z_scope.

Lemma width_mul_upper (a b : Z) : 0 < a -> 0 < b -> width (a * b) <= width a + width b.
Proof.
  intros Ha Hb. unfold width. rewrite !Z.abs_eq by nia.
  destruct (Z.log2_spec a Ha) as [_ A]. destruct (Z.log2_spec b Hb) as [_ B].
  assert (La := Z.log2_nonneg a). assert (Lb := Z.log2_nonneg b).
  assert (H : a * b < 2 ^ (Z.log2 a + Z.log2 b + 2)).
  { replace (Z.log2 a + Z.log2 b + 2) with (Z.succ (Z.log2 a) + Z.succ (Z.log2 b)) by lia.
    rewrite Z.pow_add_r by lia. nia. }
  apply Z.log2_lt_pow2 in H; [lia|nia].
Qed.

(** A quotient without remainder is exact. *)
Lemma SFdiv_canon (b c : Z) :
  0 < b -> 0 <= c -> small (b * c) ->
  SFdiv prec emax (canon (b * c)) (canon b) = canon c.
Proof.
  intros Hb Hc Hs.
  destruct (Z.eq_dec c 0) as [->|Hc0].
  { rewrite Z.mul_0_r. change (canon 0) with (S754_zero false).
    rewrite (canon_nonzero b ltac:(lia)). cbn [SFdiv].
    now replace (b <? 0) with false by (symmetry; apply Z.ltb_ge; lia). }
  destruct (small_factors b c ltac:(lia) ltac:(lia) Hs) as [Hsb Hsc].
  assert (Ha0 : b * c <> 0) by nia. assert (Hb0 : b <> 0) by lia.
  rewrite (canon_nonzero _ Ha0), (canon_nonzero b Hb0), (canon_nonzero c Hc0).
  replace (b * c <? 0) with false by (symmetry; apply Z.ltb_ge; nia).
  replace (b <? 0) with false by (symmetry; apply Z.ltb_ge; lia).
  replace (c <? 0) with false by (symmetry; apply Z.ltb_ge; lia).
  cbn [SFdiv xorb]. unfold SFdiv_core_binary. cbn [Zdigits2].
  rewrite (canonM_full _ Ha0 Hs), (canonM_full _ Hb0 Hsb).
  assert (Wa := width_bounds _ Ha0 Hs). assert (Wb := width_bounds b Hb0 Hsb).
  assert (Wc := width_bounds c Hc0 Hsc).
  assert (Wl := width_mul b c ltac:(lia) ltac:(lia)).
  assert (Wu := width_mul_upper b c ltac:(lia) ltac:(lia)).
  set (wa := width (b * c)) in *. set (wb := width b) in *. set (wc := width c) in *.
  replace (Z.min (fexp prec emax (53 + (wa - 53) - (53 + (wb - 53))))
             (wa - 53 - (wb - 53)))
    with (wa - wb - 53) by (unfold fexp, SpecFloat.emin, prec, emax; lia).
  replace (wa - 53 - (wb - 53) - (wa - wb - 53)) with 53 by lia.
  rewrite Z.shiftl_mul_pow2 by lia.
  rewrite !canonM_spec by assumption. rewrite !Z.abs_eq by nia.
  fold wa wb.
  assert (Pb : 0 < 2 ^ (53 - wb)) by (apply Z.pow_pos_nonneg; lia).
  assert (E : b * c * 2 ^ (53 - wa) * 2 ^ 53
              = b * 2 ^ (53 - wb) * (c * 2 ^ (53 - wa + wb))).
  { replace (b * 2 ^ (53 - wb) * (c * 2 ^ (53 - wa + wb)))
      with (b * c * (2 ^ (53 - wb) * 2 ^ (53 - wa + wb))) by ring.
    rewrite <- Z.pow_add_r by lia.
    replace (b * c * 2 ^ (53 - wa) * 2 ^ 53) with (b * c * (2 ^ (53 - wa) * 2 ^ 53)) by ring.
    rewrite <- Z.pow_add_r by lia. do 2 f_equal. lia. }
  assert (D : Z.div_eucl (b * c * 2 ^ (53 - wa) * 2 ^ 53) (b * 2 ^ (53 - wb))
              = (c * 2 ^ (53 - wa + wb), 0)).
  { rewrite E.
    assert (Q := Z.div_eucl_eq (b * 2 ^ (53 - wb) * (c * 2 ^ (53 - wa + wb)))
                   (b * 2 ^ (53 - wb)) ltac:(nia)).
    assert (R := Z.mod_pos_bound (b * 2 ^ (53 - wb) * (c * 2 ^ (53 - wa + wb)))
                   (b * 2 ^ (53 - wb)) ltac:(nia)).
    unfold Z.modulo, Z.div in *.
    destruct (Z.div_eucl _ _) as [q r]. cbn [fst snd] in *.
    assert (r = 0).
    { rewrite Z.mul_comm in R.
      rewrite (Z.mul_comm (b * 2 ^ (53 - wb)) (c * 2 ^ (53 - wa + wb))) in Q.
      assert (Hr : r = (c * 2 ^ (53 - wa + wb) - q) * (b * 2 ^ (53 - wb))) by lia.
      assert (Hz : c * 2 ^ (53 - wa + wb) - q = 0) by nia. nia. }
    subst r. f_equal. nia. }
  rewrite D. cbn [new_location].
  replace (new_location (b * 2 ^ (53 - wb)) 0) with loc_Exact
    by (unfold new_location, new_location_even, new_location_odd;
        now destruct (Z.even _)).
  assert (Pq : 0 < c * 2 ^ (53 - wa + wb)).
  { apply Z.mul_pos_pos; [lia|]. apply Z.pow_pos_nonneg; lia. }
  destruct (c * 2 ^ (53 - wa + wb)) as [|q|q] eqn:Eq; try lia.
  replace (wc - 53) with (wa - wb - 53 + (wc - wa + wb)) by lia.
  apply round_aux_exact; try lia.
  - now apply canonM_full.
  - rewrite canonM_spec by assumption. rewrite Z.abs_eq by lia. fold wc.
    rewrite <- Z.mul_assoc, <- Z.pow_add_r by lia.
    rewrite <- Eq. do 2 f_equal. lia.
Qed.

Lemma div_exact (b c : Z) :
  0 < b -> 0 <= c -> small b -> small (b * c) ->
  (Z2F false (b * c) / Z2F false b)%float = Z2F false c.
Proof.
  intros Hb Hc Hsb Hs.
  assert (Hsc : small c) by (unfold small in *; nia).
  apply Prim2SF_eq; [exact Hsc|].
  rewrite div_spec, !Prim2SF_Z2F by assumption.
  now apply SFdiv_canon.
Qed.

(** *** Whole numbers *)

Lemma SFvalue_canon (n : Z) :
  0 < n -> small n ->
  (SFvalue false (canonM n) (width n - 53) == inject_Z n)%Q.
Proof.
  intros Hn Hs. unfold SFvalue. cbn [cond_Zopp].
  assert (W := width_bounds n ltac:(lia) Hs).
  rewrite canonM_spec by (assumption || lia). rewrite Z.abs_eq by lia.
  rewrite inject_Z_mult, Zpower_Qpower by lia.
  rewrite <- Qmult_assoc, <- Qpower_plus by discriminate.
  replace (53 - width n + (width n - 53)) with 0 by lia.
  cbn [Qpower]. ring.
Qed.

Lemma Qfloor_half (n : Z) : Qfloor (inject_Z n + (1 # 2)) = n.
Proof.
  unfold Qfloor, Qplus, inject_Z. cbn [Qnum Qden]. rewrite Pos.mul_1_l.
  apply eq_sym, Z.div_unique with (r := 1); lia.
Qed.

Lemma Math_floor_whole (n : Z) :
  0 <= n -> small n -> Math_floor (Z2F false n) = Z2F false n.
Proof.
  intros Hn Hs. unfold Math_floor. rewrite Prim2SF_Z2F by assumption.
  destruct (Z.eq_dec n 0) as [->|H0]; [reflexivity|].
  rewrite (canon_nonzero n H0).
  replace (n <? 0) with false by (symmetry; apply Z.ltb_ge; lia).
  now rewrite (SFvalue_canon n ltac:(lia) Hs), Qfloor_Z.
Qed.

Lemma Math_round_whole (n : Z) :
  0 <= n -> small n -> Math_round (Z2F false n) = Z2F false n.
Proof.
  intros Hn Hs. unfold Math_round. rewrite Prim2SF_Z2F by assumption.
  destruct (Z.eq_dec n 0) as [->|H0]; [reflexivity|].
  rewrite (canon_nonzero n H0).
  replace (n <? 0) with false by (symmetry; apply Z.ltb_ge; lia).
  now rewrite (SFvalue_canon n ltac:(lia) Hs), Qfloor_half.
Qed.

Local Open Scope float_scope.

Lemma roundHours_whole (n : Z) :
  (0 <= n)%Z -> small (100 * n) -> roundHours (Z2F false n) = Z2F false n.
Proof.
  intros Hn Hs. assert (Hsn : small n) by (unfold small in *; lia).
  unfold roundHours. change 100 with (Z2F false 100).
  rewrite mul_exact; try assumption; try lia;
    [|apply small_below; lia|now rewrite Z.mul_comm].
  rewrite Math_round_whole by (try lia; now rewrite Z.mul_comm).
  rewrite Z.mul_comm. apply div_exact; try lia; [apply small_below; lia|exact Hs].
Qed.

End ExactFacts.

(* ================================================================== *)
(** ** Facts: whole hours *)
(* ================================================================== *)

Module WholeHoursFacts.
Import JS TimeUtils Binary64 Binary64Facts NumberFacts TimeUtilsFacts SignFacts ExactFacts.

Local Open Scope string_scope.
Local Open Scope float_scope.

Lemma total_from (l : list Z) (acc : Z) :
  fold_left Z.add l acc = (acc + total l)%Z.
Proof.
  unfold total. revert acc. induction l as [|n l IH]; intros acc; cbn; [lia|].
  rewrite IH, (IH n). lia.
Qed.

Lemma total_cons (n : Z) (l : list Z) : total (n :: l) = (n + total l)%Z.
Proof. unfold total. cbn. apply total_from. Qed.

Lemma total_nonneg (l : list Z) : counts l -> (0 <= total l)%Z.
Proof.
  induction 1 as [|n l Hn _ IH]; [reflexivity|]. rewrite total_cons. lia.
Qed.

Lemma sum_whole (l : list Z) (acc : Z) :
  (0 <= acc)%Z -> counts l -> small (acc + total l) ->
  fold_left (fun total current => total + current) (map whole l) (whole acc)
  = whole (acc + total l).
Proof.
  intros Ha Hl. revert acc Ha. induction Hl as [|n l Hn Hl IH]; intros acc Ha Hs.
  - cbn. f_equal. unfold total. cbn. lia.
  - cbn [map fold_left]. rewrite total_cons in *.
    assert (T := total_nonneg l Hl). unfold small in Hs.
    unfold whole at 1 2. rewrite add_exact by (unfold small; lia).
    fold (whole (acc + n)). rewrite IH by (try lia; unfold small; lia).
    f_equal. lia.
Qed.

(** X14: [sumHours] adds whole hours without rounding: for whole numbers that
    are not negative and whose sum is below [2^53], the result is their
    sum. *)
Theorem sumHours_whole (l : list Z) :
  counts l -> small (total l) -> sumHours (map whole l) = whole (total l).
Proof.
  intros Hl Hs. unfold sumHours. change 0 with (whole 0).
  now rewrite sum_whole.
Qed.

Lemma sumHours_whole_witness :
  sumHours (map whole [8; 7; 9]%Z) = whole 24.
Proof.
  apply (sumHours_whole [8; 7; 9]%Z).
  - repeat constructor; lia.
  - apply small_below. vm_compute. reflexivity.
Defined.

Lemma toClockString_whole (n : Z) :
  (0 <= n)%Z -> small n ->
  toClockString (whole n) = Number_toString (whole n) ++ ":00".
Proof.
  intros Hn Hs. unfold toClockString, whole.
  rewrite Math_floor_whole by assumption.
  rewrite sub_exact by (try assumption; rewrite Z.sub_diag; apply small_below; lia).
  rewrite Z.sub_diag.
  assert (E : Math_round (Z2F false 0 * 60) = 0) by (vm_compute; reflexivity).
  rewrite E. reflexivity.
Qed.

(** X15: whole hours are kept and shown as such: for a whole number [n] of
    hours from 0 to [2^53 / 100], [createTimeFormat] returns [n] itself as
    the hours, no rounding taking place, and the clock text is the decimal
    text of [n] followed by ":00". *)
Theorem createTimeFormat_whole (n : Z) :
  (0 <= n)%Z -> small (100 * n) ->
  createTimeFormat (whole n)
  = inr (mkTimeFormat (whole n) (Number_toString (whole n) ++ ":00")).
Proof.
  intros Hn Hs. assert (Hsn : small n) by (unfold small in *; lia).
  rewrite createTimeFormat_not_negative by (apply Z2F_not_negative, Hn).
  rewrite (toClockString_whole n Hn Hsn).
  unfold whole. now rewrite roundHours_whole by assumption.
Qed.

Lemma createTimeFormat_whole_witness :
  createTimeFormat (whole 8) = inr (mkTimeFormat 8 "8:00").
Proof.
  apply (createTimeFormat_whole 8).
  - lia.
  - apply small_below. vm_compute. reflexivity.
Defined.

(** X16: a working day has 8 hours, without rounding: for a whole number [d]
    of days from 0 to [2^53 / 8], [daysToHours] gives the whole number
    [8 * d] and [hoursToDays] takes it back to [d]. *)
Theorem days_and_hours_whole (d : Z) :
  (0 <= d)%Z -> small (8 * d) ->
  daysToHours (whole d) = whole (8 * d) /\
  hoursToDays (daysToHours (whole d)) = whole d.
Proof.
  intros Hd Hs. assert (Hsd : small d) by (unfold small in *; lia).
  assert (E : daysToHours (whole d) = whole (8 * d)).
  { unfold daysToHours, HOURS_PER_DAY, whole. change 8 with (Z2F false 8).
    rewrite mul_exact; try assumption; try lia.
    - f_equal. lia.
    - apply small_below. lia.
    - now rewrite Z.mul_comm. }
  split; [exact E|]. rewrite E.
  unfold hoursToDays, HOURS_PER_DAY, whole. change 8 with (Z2F false 8).
  apply div_exact; try assumption; try lia. apply small_below. lia.
Qed.

Lemma days_and_hours_whole_witness :
  daysToHours (whole 5) = whole 40 /\ hoursToDays (daysToHours (whole 5)) = whole 5.
Proof.
  apply (days_and_hours_whole 5).
  - lia.
  - apply small_below. vm_compute. reflexivity.
Defined.

End WholeHoursFacts.

(* ================================================================== *)
(** ** Facts: rounding keeps below a bound *)
(* ================================================================== *)

Module RoundingFacts.
Import JS TimeUtils Binary64 Binary64Facts NumberFacts TimeUtilsFacts SignFacts.

Local Open Scope Z_scope.

(** *** Comparing [m * 2^e] and [N * 2^b] *)


(** *** Shifting to the right *)








(** *** What a bound tells of the exponents *)


(** *** Rounding keeps below a bound that can be held *)




(** *** The numbers of the format *)


(** *** The whole part of a positive number *)









End RoundingFacts.

(* ================================================================== *)
(** ** Facts: the minutes of the clock text *)
(* ================================================================== *)

Module ClockFacts.
Import JS TimeUtils Presences Binary64 Binary64Facts NumberFacts TimeUtilsFacts SignFacts.
Import ExactFacts RoundingFacts.

Local Open Scope string_scope.
Local Open Scope float_scope.






End ClockFacts.

(* ================================================================== *)
(** ** Facts about tools/activitiesTools.ts *)
(* ================================================================== *)

Module ActivitiesFacts.
Import JS TimeUtils Activities TraversalFacts JsMapFacts TimeUtilsFacts.
Import Binary64 SignFacts.

Local Open Scope string_scope.
Local Open Scope float_scope.

(** *** The maps of [createDailySummary] are groupings *)

Lemma addActivity_step (m : JsMap.t) (a : Activity.t) :
  addActivity m a = JsMap.step Z.eqb pid initProject updProject m a.
Proof. reflexivity. Qed.

Lemma projectsMap_group (l : list Activity.t) (m : JsMap.t) :
  fold_left addActivity l m = fold_left (JsMap.step Z.eqb pid initProject updProject) l m.
Proof. reflexivity. Qed.

Lemma tasks_fold (l : list Activity.t) (v : ProjectData) :
  tasks (fold_left (fun v a => updProject a v) l v)
  = fold_left (JsMap.step Z.eqb tid initTask updTask) l (tasks v).
Proof. revert v. induction l as [|a l IH]; intros v; cbn; [reflexivity|apply IH]. Qed.

Lemma hours_fold (l : list Activity.t) (v : TaskData) :
  hours (fold_left (fun v a => updTask a v) l v)
  = fold_left (fun total current => total + current) (map Activity.hours l) (hours v).
Proof. revert v. induction l as [|a l IH]; intros v; cbn; [reflexivity|apply IH]. Qed.

(** The tasks held for a project are the grouping of that project's records. *)
Lemma projectsMap_tasks (acts : list Activity.t) (p : Z) (pd : ProjectData) :
  JsMap.get Z.eqb p (fold_left addActivity acts JsMap.empty) = Some pd ->
  tasks pd = fold_left (JsMap.step Z.eqb tid initTask updTask) (JsMap.selected Z.eqb pid p acts) JsMap.empty.
Proof.
  rewrite projectsMap_group, (get_group Z.eqb Z.eqb_eq). cbn [JsMap.get JsMap.empty].
  destruct (JsMap.selected Z.eqb pid p acts) as [|a0 sel]; [discriminate|].
  intros [= <-]. rewrite tasks_fold. reflexivity.
Qed.

(** The hours held for a task are the running sum of its records. *)
Lemma projectsMap_hours (acts : list Activity.t) (p t : Z) (pd : ProjectData) (td : TaskData) :
  JsMap.get Z.eqb p (fold_left addActivity acts JsMap.empty) = Some pd ->
  JsMap.get Z.eqb t (tasks pd) = Some td ->
  hours td
  = sumHours (map Activity.hours
                (filter (fun a => Z.eqb p (pid a) && Z.eqb t (tid a)) acts)).
Proof.
  intros Hp. rewrite (projectsMap_tasks _ _ _ Hp), (get_group Z.eqb Z.eqb_eq).
  cbn [JsMap.get JsMap.empty]. unfold JsMap.selected. rewrite filter_filter.
  destruct (filter _ acts) as [|a0 sel]; [discriminate|].
  intros [= <-]. rewrite hours_fold. reflexivity.
Qed.

Lemma projectsMap_NoDup (acts : list Activity.t) :
  NoDup (JsMap.keys (fold_left addActivity acts JsMap.empty)).
Proof.
  rewrite projectsMap_group. apply (NoDup_keys_group Z.eqb Z.eqb_eq). constructor.
Qed.

Lemma tasks_NoDup (acts : list Activity.t) (p : Z) (pd : ProjectData) :
  JsMap.get Z.eqb p (fold_left addActivity acts JsMap.empty) = Some pd ->
  NoDup (JsMap.keys (tasks pd)).
Proof.
  intros Hp. rewrite (projectsMap_tasks _ _ _ Hp).
  apply (NoDup_keys_group Z.eqb Z.eqb_eq). constructor.
Qed.

(** *** What a summary entry says of the map entry it comes from *)

Lemma taskSummary_inr (tk : Z) (td : TaskData) (t : TaskActivitySummary.t) :
  taskSummary (tk, td) = inr t ->
  TaskActivitySummary.taskId t = tk /\ TaskActivitySummary.hours t = hours td.
Proof.
  cbn. destruct (createTimeFormat (hours td)); cbn; [discriminate|].
  intros [= <-]. auto.
Qed.

Lemma projectSummary_inr (pk : Z) (pd : ProjectData) (p : ProjectActivitySummary.t) :
  projectSummary (pk, pd) = inr p ->
  ProjectActivitySummary.projectId p = pk /\
  Forall2 (fun e t => taskSummary e = inr t) (tasks pd) (ProjectActivitySummary.tasks p) /\
  TimeUtils.hours (ProjectActivitySummary.projectTotal p)
    = roundHours (sumHours (task_hours p)).
Proof.
  cbn. destruct (mapM taskSummary (JsMap.entries (tasks pd))) as [e|ts] eqn:Hts;
    cbn; [discriminate|].
  destruct (createTimeFormat _) as [e|tf] eqn:Htf; cbn; [discriminate|].
  intros [= <-]. cbn. repeat split.
  - now apply mapM_inr.
  - now apply createTimeFormat_hours.
Qed.

Lemma createDailySummary_inr (date : string) (acts : list Activity.t)
    (d : DailyActivitySummary.t) :
  createDailySummary date acts = inr d ->
  DailyActivitySummary.date d = date /\
  Forall2 (fun e p => projectSummary e = inr p)
    (fold_left addActivity acts JsMap.empty) (DailyActivitySummary.projects d) /\
  TimeUtils.hours (DailyActivitySummary.dailyTotal d)
    = roundHours (sumHours (project_hours d)).
Proof.
  unfold createDailySummary.
  destruct (mapM projectSummary _) as [e|ps] eqn:Hps; cbn; [discriminate|].
  destruct (createTimeFormat _) as [e|tf] eqn:Htf; cbn; [discriminate|].
  intros [= <-]. cbn. repeat split.
  - now apply mapM_inr.
  - now apply createTimeFormat_hours.
Qed.

(** *** The loop over the sorted dates *)

Lemma groupByDate_get (acts : list Activity.t) (date : string) :
  JsMap.get String.eqb date (groupByDate acts)
  = match JsMap.selected String.eqb Activity.date date acts with
    | [] => None
    | l => Some l
    end.
Proof.
  change (groupByDate acts)
    with (fold_left (JsMap.step String.eqb Activity.date (fun _ => [])
                       (fun a l => (l ++ [a])%list)) acts JsMap.empty).
  rewrite (get_group String.eqb String.eqb_eq). cbn [JsMap.get JsMap.empty].
  destruct (JsMap.selected String.eqb Activity.date date acts) as [|a0 sel]; [reflexivity|].
  now rewrite fold_left_snoc.
Qed.

Lemma dayActivities_selected (acts : list Activity.t) (date : string) :
  dayActivities acts date = JsMap.selected String.eqb Activity.date date acts.
Proof.
  unfold dayActivities. rewrite groupByDate_get.
  now destruct (JsMap.selected String.eqb Activity.date date acts).
Qed.

Lemma groupByDate_keys (acts : list Activity.t) (date : string) :
  In date (JsMap.keys (groupByDate acts)) <-> In date (map Activity.date acts).
Proof.
  change (groupByDate acts)
    with (fold_left (JsMap.step String.eqb Activity.date (fun _ => [])
                       (fun a l => (l ++ [a])%list)) acts JsMap.empty).
  rewrite (keys_group String.eqb String.eqb_eq). cbn. tauto.
Qed.

Lemma groupByDate_NoDup (acts : list Activity.t) :
  NoDup (JsMap.keys (groupByDate acts)).
Proof.
  change (groupByDate acts)
    with (fold_left (JsMap.step String.eqb Activity.date (fun _ => [])
                       (fun a l => (l ++ [a])%list)) acts JsMap.empty).
  apply (NoDup_keys_group String.eqb String.eqb_eq). constructor.
Qed.

Lemma foldM_days (acts : list Activity.t) (dates : list string) st st' :
  foldM (dayStep acts) dates st = inr st' ->
  exists ds, fst st' = (fst st ++ ds)%list /\
    Forall2 (fun date d => createDailySummary date (dayActivities acts date) = inr d)
      dates ds.
Proof.
  revert st. induction dates as [|date dates IH]; intros [ds0 pm0]; cbn.
  - intros [= <-]. exists []. cbn. rewrite app_nil_r. split; constructor.
  - destruct (createDailySummary date (dayActivities acts date)) as [e|d] eqn:Hd;
      cbn; [discriminate|].
    intros H. destruct (IH _ H) as (ds & E & F). cbn in E.
    exists (d :: ds). split.
    + rewrite E, <- app_assoc. reflexivity.
    + now constructor.
Qed.

Lemma aggregateActivities_inr (acts : list Activity.t) (sd ed : string)
    (s : ActivityRangeSummary.t) :
  aggregateActivities acts sd ed = inr s ->
  Forall2 (fun date d => createDailySummary date (dayActivities acts date) = inr d)
    (sort (JsMap.keys (groupByDate acts))) (ActivityRangeSummary.dailySummaries s) /\
  TimeUtils.hours (ActivityRangeSummary.grandTotal s) = roundHours (sumHours (daily_hours s)).
Proof.
  unfold aggregateActivities.
  change (foldM _ ?l ?i) with (foldM (dayStep acts) l i).
  destruct (foldM (dayStep acts) _ _) as [e|[ds pm]] eqn:Hf; cbn; [discriminate|].
  destruct (mapM projectTotal _) as [e|pts]; cbn; [discriminate|].
  destruct (createTimeFormat _) as [e|tf] eqn:Htf; cbn; [discriminate|].
  intros [= <-]. cbn.
  destruct (foldM_days _ _ _ _ Hf) as (ds' & E & F). cbn in E. subst ds.
  split; [exact F|now apply createTimeFormat_hours].
Qed.

(** *** Entries and keys *)

Lemma In_keys_entry {K V : Type} (k : K) (m : @JsMap.t K V) :
  In k (JsMap.keys m) -> exists v, In (k, v) m.
Proof.
  unfold JsMap.keys. rewrite in_map_iff. intros ([k' v] & <- & H). now exists v.
Qed.

Lemma Forall2_map_eq {A B C : Type} (f : A -> C) (g : B -> C) (l : list A) (l' : list B) :
  Forall2 (fun x y => g y = f x) l l' -> map g l' = map f l.
Proof. induction 1; cbn; congruence. Qed.

Lemma leaf_filter_ext (acts : list Activity.t) (date : string) (p t : Z) :
  filter (fun a => String.eqb date (Activity.date a) && (Z.eqb p (pid a) && Z.eqb t (tid a)))
    acts
  = leaf_records acts date p t.
Proof.
  unfold leaf_records. apply filter_ext. intros a. now rewrite andb_assoc.
Qed.

(** The leaf of a date, project and task holds the sum of the hours of the
    input records of that date, project and task. *)
Lemma leaf_total (acts : list Activity.t) (sd ed : string) (s : ActivityRangeSummary.t)
    (d : DailyActivitySummary.t) (p : ProjectActivitySummary.t) (t : TaskActivitySummary.t) :
  aggregateActivities acts sd ed = inr s ->
  In d (ActivityRangeSummary.dailySummaries s) ->
  In p (DailyActivitySummary.projects d) ->
  In t (ProjectActivitySummary.tasks p) ->
  TaskActivitySummary.hours t
  = sumHours (map Activity.hours
      (leaf_records acts (DailyActivitySummary.date d)
         (ProjectActivitySummary.projectId p) (TaskActivitySummary.taskId t))).
Proof.
  intros H Hd Hp Ht.
  destruct (aggregateActivities_inr _ _ _ _ H) as [F _].
  destruct (Forall2_In_right _ _ _ _ F Hd) as (date & _ & Hcd).
  rewrite dayActivities_selected in Hcd.
  destruct (createDailySummary_inr _ _ _ Hcd) as (Edate & Fp & _).
  destruct (Forall2_In_right _ _ _ _ Fp Hp) as ([pk pd] & Hin & Hps).
  destruct (projectSummary_inr _ _ _ Hps) as (Epid & Ft & _).
  destruct (Forall2_In_right _ _ _ _ Ft Ht) as ([tk td] & Hint & Hts).
  destruct (taskSummary_inr _ _ _ Hts) as (Etid & Eh).
  assert (Gp := In_get Z.eqb Z.eqb_eq _ _ _ (projectsMap_NoDup _) Hin).
  assert (Gt := In_get Z.eqb Z.eqb_eq _ _ _ (tasks_NoDup _ _ _ Gp) Hint).
  rewrite Eh, (projectsMap_hours _ _ _ _ _ Gp Gt), Edate, Epid, Etid.
  unfold JsMap.selected. rewrite filter_filter, leaf_filter_ext. reflexivity.
Qed.

(** Every input record has its leaf. *)
Lemma leaf_exists (acts : list Activity.t) (sd ed : string) (s : ActivityRangeSummary.t)
    (a : Activity.t) :
  aggregateActivities acts sd ed = inr s ->
  In a acts ->
  exists d p t,
    In d (ActivityRangeSummary.dailySummaries s) /\
    In p (DailyActivitySummary.projects d) /\
    In t (ProjectActivitySummary.tasks p) /\
    DailyActivitySummary.date d = Activity.date a /\
    ProjectActivitySummary.projectId p = pid a /\
    TaskActivitySummary.taskId t = tid a.
Proof.
  intros H Ha.
  destruct (aggregateActivities_inr _ _ _ _ H) as [F _].
  assert (Hk : In (Activity.date a) (sort (JsMap.keys (groupByDate acts)))).
  { apply sort_In, groupByDate_keys, in_map, Ha. }
  destruct (Forall2_In_left _ _ _ _ F Hk) as (d & Hd & Hcd).
  rewrite dayActivities_selected in Hcd.
  destruct (createDailySummary_inr _ _ _ Hcd) as (Edate & Fp & _).
  set (day := JsMap.selected String.eqb Activity.date (Activity.date a) acts) in *.
  assert (Haday : In a day).
  { apply filter_In. split; [exact Ha|apply String.eqb_refl]. }
  assert (Hpk : In (pid a) (JsMap.keys (fold_left addActivity day JsMap.empty))).
  { rewrite projectsMap_group. apply (keys_group Z.eqb Z.eqb_eq).
    right. apply in_map, Haday. }
  destruct (In_keys_entry _ _ Hpk) as (pd & Hin).
  destruct (Forall2_In_left _ _ _ _ Fp Hin) as (p & Hp & Hps).
  destruct (projectSummary_inr _ _ _ Hps) as (Epid & Ft & _).
  assert (Gp := In_get Z.eqb Z.eqb_eq _ _ _ (projectsMap_NoDup _) Hin).
  assert (Htk : In (tid a) (JsMap.keys (tasks pd))).
  { rewrite (projectsMap_tasks _ _ _ Gp). apply (keys_group Z.eqb Z.eqb_eq).
    right. apply in_map, filter_In. split; [exact Haday|apply Z.eqb_refl]. }
  destruct (In_keys_entry _ _ Htk) as (td & Hint).
  destruct (Forall2_In_left _ _ _ _ Ft Hint) as (t & Ht & Hts).
  destruct (taskSummary_inr _ _ _ Hts) as (Etid & _).
  exists d, p, t. auto 10.
Qed.

Lemma taskSummary_key (e : Z * TaskData) (t : TaskActivitySummary.t) :
  taskSummary e = inr t -> TaskActivitySummary.taskId t = fst e.
Proof. destruct e as [tk td]. intros H. now destruct (taskSummary_inr _ _ _ H). Qed.

Lemma projectSummary_key (e : Z * ProjectData) (p : ProjectActivitySummary.t) :
  projectSummary e = inr p -> ProjectActivitySummary.projectId p = fst e.
Proof. destruct e as [pk pd]. intros H. now destruct (projectSummary_inr _ _ _ H). Qed.

(** A date, a project of a date and a task of a project each appear once. *)
Lemma leaf_unique (acts : list Activity.t) (sd ed : string) (s : ActivityRangeSummary.t) :
  aggregateActivities acts sd ed = inr s ->
  NoDup (map DailyActivitySummary.date (ActivityRangeSummary.dailySummaries s)) /\
  (forall d, In d (ActivityRangeSummary.dailySummaries s) ->
     NoDup (map ProjectActivitySummary.projectId (DailyActivitySummary.projects d)) /\
     forall p, In p (DailyActivitySummary.projects d) ->
       NoDup (map TaskActivitySummary.taskId (ProjectActivitySummary.tasks p))).
Proof.
  intros H. destruct (aggregateActivities_inr _ _ _ _ H) as [F _]. split.
  - rewrite (Forall2_map_eq (fun x => x) DailyActivitySummary.date _ _
               (Forall2_impl _ (fun _ _ Hc => proj1 (createDailySummary_inr _ _ _ Hc)) F)).
    rewrite map_id.
    apply (Permutation_NoDup (Permutation_sym (sort_perm _))), groupByDate_NoDup.
  - intros d Hd.
    destruct (Forall2_In_right _ _ _ _ F Hd) as (date & _ & Hcd).
    destruct (createDailySummary_inr _ _ _ Hcd) as (_ & Fp & _). split.
    + rewrite (Forall2_map_eq fst ProjectActivitySummary.projectId _ _
                 (Forall2_impl _ projectSummary_key Fp)).
      apply projectsMap_NoDup.
    + intros p Hp.
      destruct (Forall2_In_right _ _ _ _ Fp Hp) as ([pk pd] & Hin & Hps).
      destruct (projectSummary_inr _ _ _ Hps) as (_ & Ft & _).
      assert (Gp := In_get Z.eqb Z.eqb_eq _ _ _ (projectsMap_NoDup _) Hin).
      rewrite (Forall2_map_eq fst TaskActivitySummary.taskId _ _
                 (Forall2_impl _ taskSummary_key Ft)).
      apply (tasks_NoDup _ _ _ Gp).
Qed.

(** C6: in the summary [aggregateActivities] returns, the hours of the task
    entry of a date, a project and a task are the sum ([sumHours]) of the
    hours of all the input records of that date, project and task; every
    input record has such an entry; and a date, a project within a date and
    a task within a project appear once.  The two records of scenario A give
    the daily, project and grand totals 7.75, shown as 7:45. *)
Theorem task_totals_accumulate :
  (forall acts sd ed s,
     aggregateActivities acts sd ed = inr s ->
     (forall d p t,
        In d (ActivityRangeSummary.dailySummaries s) ->
        In p (DailyActivitySummary.projects d) ->
        In t (ProjectActivitySummary.tasks p) ->
        TaskActivitySummary.hours t
        = sumHours (map Activity.hours
            (leaf_records acts (DailyActivitySummary.date d)
               (ProjectActivitySummary.projectId p) (TaskActivitySummary.taskId t)))) /\
     (forall a, In a acts ->
        exists d p t,
          In d (ActivityRangeSummary.dailySummaries s) /\
          In p (DailyActivitySummary.projects d) /\
          In t (ProjectActivitySummary.tasks p) /\
          DailyActivitySummary.date d = Activity.date a /\
          ProjectActivitySummary.projectId p = pid a /\
          TaskActivitySummary.taskId t = tid a) /\
     NoDup (map DailyActivitySummary.date (ActivityRangeSummary.dailySummaries s)) /\
     (forall d, In d (ActivityRangeSummary.dailySummaries s) ->
        NoDup (map ProjectActivitySummary.projectId (DailyActivitySummary.projects d)) /\
        forall p, In p (DailyActivitySummary.projects d) ->
          NoDup (map TaskActivitySummary.taskId (ProjectActivitySummary.tasks p)))) /\
  aggregateActivities scenarioA "2024-01-15" "2024-01-15" = inr scenarioA_summary.
Proof.
  split; [|vm_compute; reflexivity].
  intros acts sd ed s H. split; [|split].
  - intros d p t. now apply leaf_total with (sd := sd) (ed := ed).
  - intros a. now apply leaf_exists with (sd := sd) (ed := ed).
  - now apply leaf_unique with (acts := acts) (sd := sd) (ed := ed).
Qed.

(** *** Additivity *)

(** C1, as stated, fails: a project total is rounded to 2 decimals, the hours
    of its tasks are not.  One record of 0.125 hours gives the project total
    0.13 over a task of 0.125. *)
Lemma aggregateActivities_not_additive :
  ~ (forall acts sd ed s,
       acts <> [] -> aggregateActivities acts sd ed = inr s -> additive s).
Proof.
  intros H.
  assert (E : exists s, aggregateActivities eighth "2024-01-15" "2024-01-15" = inr s /\
                        TimeUtils.hours (ActivityRangeSummary.grandTotal s) = 0.13 /\
                        daily_hours s = [0.13] /\
                        Forall (fun d => Forall (fun p =>
                           TimeUtils.hours (ProjectActivitySummary.projectTotal p) = 0.13 /\
                           task_hours p = [0.125]) (DailyActivitySummary.projects d))
                          (ActivityRangeSummary.dailySummaries s) /\
                        ActivityRangeSummary.dailySummaries s <> [] /\
                        Forall (fun d => DailyActivitySummary.projects d <> [])
                          (ActivityRangeSummary.dailySummaries s)).
  { eexists. split; [vm_compute; reflexivity|]. cbn.
    repeat split; try discriminate; repeat constructor; discriminate. }
  destruct E as (s & Hs & _ & _ & Hp & Hne & Hpne).
  destruct (H eighth _ _ s ltac:(discriminate) Hs) as (_ & Hd).
  destruct (ActivityRangeSummary.dailySummaries s) as [|d ds]; [now apply Hne|].
  inversion Hd as [|? ? [_ Hd1] _]; subst.
  inversion Hp as [|? ? Hp1 _]; subst.
  inversion Hpne as [|? ? Hpne1 _]; subst.
  destruct (DailyActivitySummary.projects d) as [|p ps]; [now apply Hpne1|].
  inversion Hd1 as [|? ? Hd2 _]; subst.
  inversion Hp1 as [|? ? [Hp2 Hp3] _]; subst.
  rewrite Hp2, Hp3 in Hd2.
  apply (f_equal Prim2SF) in Hd2. vm_compute in Hd2. discriminate Hd2.
Qed.

(** C1, amended: in every summary [aggregateActivities] returns, the grand
    total is [roundHours] of the sum of the daily totals, each daily total is
    [roundHours] of the sum of its projects' totals, and each project total
    is [roundHours] of the sum of its tasks' hours. *)
Theorem aggregateActivities_rounded_additive
    (acts : list Activity.t) (sd ed : string) (s : ActivityRangeSummary.t) :
  aggregateActivities acts sd ed = inr s -> rounded_additive s.
Proof.
  intros H. destruct (aggregateActivities_inr _ _ _ _ H) as [F G].
  split; [exact G|].
  apply Forall_forall. intros d Hd.
  destruct (Forall2_In_right _ _ _ _ F Hd) as (date & _ & Hcd).
  destruct (createDailySummary_inr _ _ _ Hcd) as (_ & Fp & Gd).
  split; [exact Gd|].
  apply Forall_forall. intros p Hp.
  destruct (Forall2_In_right _ _ _ _ Fp Hp) as ([pk pd] & _ & Hps).
  now destruct (projectSummary_inr _ _ _ Hps) as (_ & _ & Gp).
Qed.

Lemma aggregateActivities_rounded_additive_witness : rounded_additive scenarioA_summary.
Proof.
  apply (aggregateActivities_rounded_additive scenarioA "2024-01-15" "2024-01-15").
  vm_compute. reflexivity.
Defined.

(** *** What the summaries accept *)

Lemma taskSummary_accepts (e : Z * TaskData) :
  not_negative (hours (snd e)) -> exists t, taskSummary e = inr t.
Proof.
  destruct e as [tk td]. cbn. intros H.
  rewrite (createTimeFormat_not_negative _ H). cbn. eauto.
Qed.

Lemma taskSummary_accepted (e : Z * TaskData) (t : TaskActivitySummary.t) :
  taskSummary e = inr t -> not_negative (TaskActivitySummary.hours t).
Proof.
  destruct e as [tk td]. cbn.
  destruct (createTimeFormat (hours td)) as [err|tf] eqn:E; cbn; [discriminate|].
  intros [= <-]. cbn. now destruct (createTimeFormat_accepted _ _ E).
Qed.

Lemma taskSummary_error (e : Z * TaskData) (err : Error) :
  taskSummary e = inl err -> err = negative_hours.
Proof.
  destruct e as [tk td]. cbn.
  destruct (createTimeFormat (hours td)) as [err'|tf] eqn:E; cbn; [|discriminate].
  intros [= <-]. exact (createTimeFormat_error _ _ E).
Qed.

Lemma tasks_accepted (l : list (Z * TaskData)) (ts : list TaskActivitySummary.t) :
  Forall2 (fun e t => taskSummary e = inr t) l ts ->
  Forall (fun t => not_negative (TaskActivitySummary.hours t)) ts.
Proof.
  induction 1 as [|e t l ts H _ IH]; constructor; [|exact IH].
  exact (taskSummary_accepted _ _ H).
Qed.

Lemma projectSummary_accepted (e : Z * ProjectData) (p : ProjectActivitySummary.t) :
  projectSummary e = inr p -> project_not_negative p.
Proof.
  destruct e as [pk pd]. intros H.
  destruct (projectSummary_inr _ _ _ H) as (_ & Ft & Et).
  assert (Hts := tasks_accepted _ _ Ft). split; [|exact Hts].
  rewrite Et. apply roundHours_not_negative, sumHours_not_negative.
  unfold task_hours. now apply Forall_map.
Qed.

Lemma projectSummary_accepts (e : Z * ProjectData) :
  JsMap.values_all (fun t => not_negative (hours t)) (tasks (snd e)) ->
  exists p, projectSummary e = inr p.
Proof.
  destruct e as [pk pd]. cbn [snd]. intros H.
  unfold projectSummary.
  destruct (mapM_accepts taskSummary (JsMap.entries (tasks pd))) as [ts Hts].
  { unfold JsMap.entries. eapply Forall_impl; [|exact H].
    intros te. apply taskSummary_accepts. }
  rewrite Hts. cbn [bind].
  rewrite createTimeFormat_not_negative; [cbn; eauto|].
  apply sumHours_not_negative, Forall_map.
  exact (tasks_accepted _ _ (mapM_inr _ _ _ Hts)).
Qed.

Lemma projectSummary_error (e : Z * ProjectData) (err : Error) :
  projectSummary e = inl err -> err = negative_hours.
Proof.
  destruct e as [pk pd]. unfold projectSummary.
  destruct (mapM taskSummary _) as [err'|ts] eqn:Hts; cbn [bind].
  - intros [= <-]. destruct (mapM_inl _ _ _ Hts) as (te & _ & Hte).
    exact (taskSummary_error _ _ Hte).
  - destruct (createTimeFormat _) as [err'|tf] eqn:E; cbn; [|discriminate].
    intros [= <-]. exact (createTimeFormat_error _ _ E).
Qed.

Lemma projects_accepted (l : list (Z * ProjectData)) (ps : list ProjectActivitySummary.t) :
  Forall2 (fun e p => projectSummary e = inr p) l ps -> Forall project_not_negative ps.
Proof.
  induction 1 as [|e p l ps H _ IH]; constructor; [|exact IH].
  exact (projectSummary_accepted _ _ H).
Qed.

Lemma project_hours_not_negative (d : DailyActivitySummary.t) :
  Forall project_not_negative (DailyActivitySummary.projects d) ->
  Forall not_negative (project_hours d).
Proof.
  intros H. unfold project_hours. apply Forall_map.
  eapply Forall_impl; [|exact H]. now intros p [Hp _].
Qed.

Lemma createDailySummary_accepted (date : string) (acts : list Activity.t)
    (d : DailyActivitySummary.t) :
  createDailySummary date acts = inr d ->
  Forall project_not_negative (DailyActivitySummary.projects d) /\
  not_negative (TimeUtils.hours (DailyActivitySummary.dailyTotal d)).
Proof.
  intros H. destruct (createDailySummary_inr _ _ _ H) as (_ & Fp & Ed).
  assert (Hps := projects_accepted _ _ Fp). split; [exact Hps|].
  rewrite Ed. now apply roundHours_not_negative, sumHours_not_negative,
    project_hours_not_negative.
Qed.

Lemma createDailySummary_accepts (date : string) (acts : list Activity.t) :
  JsMap.values_all (fun pd => JsMap.values_all (fun t => not_negative (hours t)) (tasks pd))
    (fold_left addActivity acts JsMap.empty) ->
  exists d, createDailySummary date acts = inr d.
Proof.
  intros H. unfold createDailySummary.
  destruct (mapM_accepts projectSummary
              (JsMap.entries (fold_left addActivity acts JsMap.empty))) as [ps Hps].
  { unfold JsMap.entries. eapply Forall_impl; [|exact H].
    intros pe. apply projectSummary_accepts. }
  rewrite Hps. cbn [bind].
  rewrite createTimeFormat_not_negative; [cbn; eauto|].
  apply sumHours_not_negative, Forall_map.
  eapply Forall_impl; [|exact (projects_accepted _ _ (mapM_inr _ _ _ Hps))].
  now intros p [Hp _].
Qed.

Lemma createDailySummary_error (date : string) (acts : list Activity.t) (err : Error) :
  createDailySummary date acts = inl err -> err = negative_hours.
Proof.
  unfold createDailySummary.
  destruct (mapM projectSummary _) as [err'|ps] eqn:Hps; cbn [bind].
  - intros [= <-]. destruct (mapM_inl _ _ _ Hps) as (pe & _ & Hpe).
    exact (projectSummary_error _ _ Hpe).
  - destruct (createTimeFormat _) as [err'|tf] eqn:E; cbn; [|discriminate].
    intros [= <-]. exact (createTimeFormat_error _ _ E).
Qed.

(** *** The totals over the days *)

Lemma addProjectTotal_step (m : JsMap.t) (p : ProjectActivitySummary.t) :
  addProjectTotal m p
  = JsMap.step Z.eqb ProjectActivitySummary.projectId initProjectTotal updProjectTotal m p.
Proof. reflexivity. Qed.

Lemma projectTotals_group (l : list ProjectActivitySummary.t) (m : JsMap.t) :
  fold_left addProjectTotal l m
  = fold_left (JsMap.step Z.eqb ProjectActivitySummary.projectId
                 initProjectTotal updProjectTotal) l m.
Proof. reflexivity. Qed.

Lemma projectTotals_not_negative (l : list ProjectActivitySummary.t) (m : JsMap.t) :
  Forall project_not_negative l ->
  JsMap.values_all totals_not_negative m ->
  JsMap.values_all totals_not_negative (fold_left addProjectTotal l m).
Proof.
  rewrite projectTotals_group.
  apply values_group with (Q := project_not_negative).
  - intros p _. split; [reflexivity|constructor].
  - intros p d [Hp Ht] [Hd Hdt]. split; cbn.
    + now apply add_not_negative.
    + apply values_group
        with (Q := fun t => not_negative (TaskActivitySummary.hours t)); auto.
      * intros t _. reflexivity.
      * intros t v Hh Hv. cbn. now apply add_not_negative.
Qed.

Lemma taskTotal_accepts (e : Z * TaskTotalData) :
  not_negative (tt_totalHours (snd e)) -> exists t, taskTotal e = inr t.
Proof.
  destruct e as [tk td]. cbn. intros H.
  rewrite (createTimeFormat_not_negative _ H). cbn. eauto.
Qed.

Lemma projectTotal_accepts (e : Z * ProjectTotalData) :
  totals_not_negative (snd e) -> exists p, projectTotal e = inr p.
Proof.
  destruct e as [pk d]. cbn [snd]. intros [Hd Ht]. unfold projectTotal.
  rewrite (createTimeFormat_not_negative _ Hd). cbn [bind].
  destruct (mapM_accepts taskTotal (JsMap.entries (pt_tasks d))) as [ts Hts].
  { unfold JsMap.entries. eapply Forall_impl; [|exact Ht].
    intros te. apply taskTotal_accepts. }
  rewrite Hts. cbn. eauto.
Qed.

(** What the loop over the dates leaves when it ends. *)
Lemma foldM_days_totals (acts : list Activity.t) (dates : list string) st st' :
  foldM (dayStep acts) dates st = inr st' ->
  exists ds,
    fst st' = (fst st ++ ds)%list /\
    snd st' = fold_left addProjectTotal (all_projects ds) (snd st) /\
    Forall2 (fun date d => createDailySummary date (dayActivities acts date) = inr d)
      dates ds.
Proof.
  revert st. induction dates as [|date dates IH]; intros [ds0 pm0]; cbn.
  - intros [= <-]. exists []. cbn. rewrite app_nil_r. repeat split; constructor.
  - destruct (createDailySummary date (dayActivities acts date)) as [e|d] eqn:Hd;
      cbn; [discriminate|].
    intros H. destruct (IH _ H) as (ds & E & Em & F). cbn in E, Em.
    exists (d :: ds). repeat split.
    + rewrite E, <- app_assoc. reflexivity.
    + rewrite Em. unfold all_projects. cbn. now rewrite fold_left_app.
    + now constructor.
Qed.

Lemma days_accepted (acts : list Activity.t) (dates : list string)
    (ds : list DailyActivitySummary.t) :
  Forall2 (fun date d => createDailySummary date (dayActivities acts date) = inr d)
    dates ds ->
  Forall project_not_negative (all_projects ds) /\
  Forall not_negative
    (map (fun day => TimeUtils.hours (DailyActivitySummary.dailyTotal day)) ds).
Proof.
  induction 1 as [|date d dates ds H _ [IH1 IH2]]; [split; constructor|].
  destruct (createDailySummary_accepted _ _ _ H) as [Hp Hd]. split.
  - unfold all_projects. cbn. apply Forall_app. auto.
  - cbn. now constructor.
Qed.

(** Once every day has its summary, nothing else can throw. *)
Lemma aggregateActivities_days (acts : list Activity.t) (sd ed : string) :
  (forall date, In date (sort (JsMap.keys (groupByDate acts))) ->
     exists d, createDailySummary date (dayActivities acts date) = inr d) ->
  exists s, aggregateActivities acts sd ed = inr s.
Proof.
  intros H. unfold aggregateActivities.
  change (foldM _ ?l ?i) with (foldM (dayStep acts) l i).
  destruct (foldM_accepts (dayStep acts) (sort (JsMap.keys (groupByDate acts)))
              ([], JsMap.empty)) as [[ds pm] Hf].
  { intros [ds pm] date Hin. destruct (H _ Hin) as [d Hd].
    unfold dayStep. rewrite Hd. cbn. eauto. }
  rewrite Hf. cbn [bind].
  destruct (foldM_days_totals _ _ _ _ Hf) as (ds' & E & Em & F). cbn in E, Em. subst ds pm.
  destruct (days_accepted _ _ _ F) as [Hp Hd].
  destruct (mapM_accepts projectTotal
              (JsMap.entries (fold_left addProjectTotal (all_projects ds') JsMap.empty)))
    as [pts Hpts].
  { unfold JsMap.entries.
    eapply Forall_impl; [|apply (projectTotals_not_negative _ _ Hp); constructor].
    intros pe. apply projectTotal_accepts. }
  rewrite Hpts. cbn [bind].
  rewrite createTimeFormat_not_negative; [cbn; eauto|].
  now apply sumHours_not_negative.
Qed.

Lemma taskTotal_error (e : Z * TaskTotalData) (err : Error) :
  taskTotal e = inl err -> err = negative_hours.
Proof.
  destruct e as [tk td]. cbn.
  destruct (createTimeFormat (tt_totalHours td)) as [err'|tf] eqn:E; cbn; [|discriminate].
  intros [= <-]. exact (createTimeFormat_error _ _ E).
Qed.

Lemma projectTotal_error (e : Z * ProjectTotalData) (err : Error) :
  projectTotal e = inl err -> err = negative_hours.
Proof.
  destruct e as [pk d]. unfold projectTotal.
  destruct (createTimeFormat (pt_totalHours d)) as [err'|tf] eqn:E; cbn [bind].
  - intros [= <-]. exact (createTimeFormat_error _ _ E).
  - destruct (mapM taskTotal _) as [err'|ts] eqn:Hts; cbn; [|discriminate].
    intros [= <-]. destruct (mapM_inl _ _ _ Hts) as (te & _ & Hte).
    exact (taskTotal_error _ _ Hte).
Qed.

Lemma aggregateActivities_error (acts : list Activity.t) (sd ed : string) (err : Error) :
  aggregateActivities acts sd ed = inl err -> err = negative_hours.
Proof.
  unfold aggregateActivities.
  change (foldM _ ?l ?i) with (foldM (dayStep acts) l i).
  destruct (foldM (dayStep acts) _ _) as [e|[ds pm]] eqn:Hf; cbn [bind].
  - intros [= <-]. destruct (foldM_inl _ _ _ _ Hf) as ([ds pm] & date & _ & Hd).
    unfold dayStep in Hd.
    destruct (createDailySummary date (dayActivities acts date)) as [e'|d] eqn:E;
      cbn in Hd; [|discriminate].
    injection Hd as <-. exact (createDailySummary_error _ _ _ E).
  - destruct (mapM projectTotal _) as [e|pts] eqn:Hp; cbn [bind].
    + intros [= <-]. destruct (mapM_inl _ _ _ Hp) as (pe & _ & Hpe).
      exact (projectTotal_error _ _ Hpe).
    + destruct (createTimeFormat _) as [e|tf] eqn:E; cbn; [|discriminate].
      intros [= <-]. exact (createTimeFormat_error _ _ E).
Qed.

(** *** Which inputs are accepted *)

Lemma leaf_records_In (acts : list Activity.t) (date : string) (p t : Z) (a : Activity.t) :
  In a (leaf_records acts date p t) ->
  In a acts /\ Activity.date a = date /\ pid a = p /\ tid a = t.
Proof.
  unfold leaf_records. rewrite filter_In, !andb_true_iff, String.eqb_eq, !Z.eqb_eq.
  intros (H & (-> & ->) & ->). auto.
Qed.

Lemma day_leaves (acts : list Activity.t) (date : string) :
  (forall a, In a acts -> leaf_not_negative acts a) ->
  JsMap.values_all (fun pd => JsMap.values_all (fun t => not_negative (hours t)) (tasks pd))
    (fold_left addActivity (dayActivities acts date) JsMap.empty).
Proof.
  intros H. apply Forall_forall. intros [pk pd] Hin. cbn [snd].
  apply Forall_forall. intros [tk td] Hint. cbn [snd].
  assert (Gp := In_get Z.eqb Z.eqb_eq _ _ _ (projectsMap_NoDup _) Hin).
  assert (Gt := In_get Z.eqb Z.eqb_eq _ _ _ (tasks_NoDup _ _ _ Gp) Hint).
  rewrite (projectsMap_hours _ _ _ _ _ Gp Gt), dayActivities_selected.
  unfold JsMap.selected. rewrite filter_filter, leaf_filter_ext.
  destruct (leaf_records acts date pk tk) as [|a0 l] eqn:E; [reflexivity|].
  destruct (leaf_records_In acts date pk tk a0) as (Ha & <- & <- & <-).
  { rewrite E. now left. }
  rewrite <- E. exact (H _ Ha).
Qed.

Lemma aggregateActivities_accepts_leaves (acts : list Activity.t) (sd ed : string) :
  (forall a, In a acts -> leaf_not_negative acts a) ->
  exists s, aggregateActivities acts sd ed = inr s.
Proof.
  intros H. apply aggregateActivities_days. intros date _.
  apply createDailySummary_accepts, day_leaves, H.
Qed.

Lemma aggregateActivities_accepted_leaves (acts : list Activity.t) (sd ed : string)
    (s : ActivityRangeSummary.t) (a : Activity.t) :
  aggregateActivities acts sd ed = inr s -> In a acts -> leaf_not_negative acts a.
Proof.
  intros H Ha.
  destruct (leaf_exists _ _ _ _ _ H Ha) as (d & p & t & Hd & Hp & Ht & Ed & Ep & Et).
  unfold leaf_not_negative.
  rewrite <- Ed, <- Ep, <- Et, <- (leaf_total _ _ _ _ _ _ _ H Hd Hp Ht).
  destruct (aggregateActivities_inr _ _ _ _ H) as [F _].
  destruct (Forall2_In_right _ _ _ _ F Hd) as (date & _ & Hcd).
  destruct (createDailySummary_accepted _ _ _ Hcd) as [Hps _].
  rewrite Forall_forall in Hps. destruct (Hps _ Hp) as [_ Hts].
  rewrite Forall_forall in Hts. exact (Hts _ Ht).
Qed.

(** X2: [aggregateActivities] returns a summary exactly when, for every
    input record, the hours of the records of its date, project and task add
    up ([sumHours]) to a number that is not below zero; when it does not, the
    error is "Hours cannot be negative".  So a negative record is accepted
    when the other records of its date, project and task make up for it. *)
Theorem aggregateActivities_throws_iff_negative_leaf
    (acts : list Activity.t) (sd ed : string) :
  ((exists s, aggregateActivities acts sd ed = inr s)
   <-> forall a, In a acts -> leaf_not_negative acts a) /\
  (forall e, aggregateActivities acts sd ed = inl e ->
     e = mkError false "Hours cannot be negative").
Proof.
  split; [split|].
  - intros [s H] a Ha. exact (aggregateActivities_accepted_leaves _ _ _ _ _ H Ha).
  - apply aggregateActivities_accepts_leaves.
  - intros e. apply aggregateActivities_error.
Qed.

Lemma leaf_hours_not_negative (acts : list Activity.t) (a : Activity.t) :
  Forall (fun a => not_negative (Activity.hours a)) acts -> leaf_not_negative acts a.
Proof.
  intros H. unfold leaf_not_negative, leaf_records.
  apply sumHours_not_negative, Forall_map.
  apply Forall_forall. intros x Hx. apply filter_In in Hx.
  rewrite Forall_forall in H. now apply H.
Qed.

(** X1: [aggregateActivities] returns a summary, it does not throw, when no
    input record has hours below zero (NaN hours included). *)
Theorem aggregateActivities_accepts_not_negative
    (acts : list Activity.t) (sd ed : string) :
  Forall (fun a => not_negative (Activity.hours a)) acts ->
  exists s, aggregateActivities acts sd ed = inr s.
Proof.
  intros H. apply aggregateActivities_accepts_leaves.
  intros a _. now apply leaf_hours_not_negative.
Qed.

Lemma aggregateActivities_accepts_not_negative_witness :
  exists s, aggregateActivities scenarioA "2024-01-15" "2024-01-15" = inr s.
Proof.
  apply (aggregateActivities_accepts_not_negative scenarioA).
  repeat constructor.
Defined.

(** *** The order of the days *)

Lemma dailySummaries_dates (acts : list Activity.t) (sd ed : string)
    (s : ActivityRangeSummary.t) :
  aggregateActivities acts sd ed = inr s ->
  map DailyActivitySummary.date (ActivityRangeSummary.dailySummaries s)
  = sort (JsMap.keys (groupByDate acts)).
Proof.
  intros H. destruct (aggregateActivities_inr _ _ _ _ H) as [F _].
  rewrite (Forall2_map_eq (fun x => x) DailyActivitySummary.date _ _
             (Forall2_impl _ (fun _ _ Hc => proj1 (createDailySummary_inr _ _ _ Hc)) F)).
  apply map_id.
Qed.

(** X3: the daily summaries [aggregateActivities] returns are in strictly
    ascending order of their dates (code-unit order of the date strings), and
    the dates are those of the input records, each once. *)
Theorem dailySummaries_ascending (acts : list Activity.t) (sd ed : string)
    (s : ActivityRangeSummary.t) :
  aggregateActivities acts sd ed = inr s ->
  StronglySorted (fun d1 d2 => String.ltb d1 d2 = true)
    (map DailyActivitySummary.date (ActivityRangeSummary.dailySummaries s)) /\
  forall date,
    In date (map DailyActivitySummary.date (ActivityRangeSummary.dailySummaries s))
    <-> In date (map Activity.date acts).
Proof.
  intros H. rewrite (dailySummaries_dates _ _ _ _ H). split.
  - apply Sorted_strict; [|apply sort_Sorted].
    apply (Permutation_NoDup (Permutation_sym (sort_perm _))), groupByDate_NoDup.
  - intros date. rewrite sort_In. apply groupByDate_keys.
Qed.

Lemma dailySummaries_ascending_witness :
  StronglySorted (fun d1 d2 => String.ltb d1 d2 = true)
    (map DailyActivitySummary.date (ActivityRangeSummary.dailySummaries out_of_order_summary)).
Proof.
  apply (dailySummaries_ascending out_of_order "2024-01-15" "2024-01-16").
  vm_compute. reflexivity.
Defined.

(** *** The order of projects and tasks *)

Lemma selected_pid (acts : list Activity.t) (date : string) (p : Z) :
  JsMap.selected Z.eqb pid p (JsMap.selected String.eqb Activity.date date acts)
  = project_records acts date p.
Proof. unfold JsMap.selected. apply filter_filter. Qed.

(** X5: in a summary [aggregateActivities] returns, the projects of a day
    come in the order in which they first appear among the input records of
    that date, and the tasks of a project in the order in which they first
    appear among the records of that date and project. *)
Theorem projects_in_order_of_first_record (acts : list Activity.t) (sd ed : string)
    (s : ActivityRangeSummary.t) (d : DailyActivitySummary.t) :
  aggregateActivities acts sd ed = inr s ->
  In d (ActivityRangeSummary.dailySummaries s) ->
  map ProjectActivitySummary.projectId (DailyActivitySummary.projects d)
  = JsMap.first_occurrences Z.eqb (map pid (date_records acts (DailyActivitySummary.date d))) /\
  forall p, In p (DailyActivitySummary.projects d) ->
    map TaskActivitySummary.taskId (ProjectActivitySummary.tasks p)
    = JsMap.first_occurrences Z.eqb
        (map tid (project_records acts (DailyActivitySummary.date d)
                    (ProjectActivitySummary.projectId p))).
Proof.
  intros H Hd.
  destruct (aggregateActivities_inr _ _ _ _ H) as [F _].
  destruct (Forall2_In_right _ _ _ _ F Hd) as (date & _ & Hcd).
  rewrite dayActivities_selected in Hcd.
  destruct (createDailySummary_inr _ _ _ Hcd) as (Edate & Fp & _).
  rewrite Edate. split.
  - rewrite (Forall2_map_eq fst ProjectActivitySummary.projectId _ _
               (Forall2_impl _ projectSummary_key Fp)).
    rewrite projectsMap_group. exact (keys_group_order Z.eqb _ _ _ _ _).
  - intros p Hp.
    destruct (Forall2_In_right _ _ _ _ Fp Hp) as ([pk pd] & Hin & Hps).
    destruct (projectSummary_inr _ _ _ Hps) as (Epid & Ft & _).
    assert (Gp := In_get Z.eqb Z.eqb_eq _ _ _ (projectsMap_NoDup _) Hin).
    rewrite (Forall2_map_eq fst TaskActivitySummary.taskId _ _
               (Forall2_impl _ taskSummary_key Ft)).
    change (map fst (tasks pd)) with (JsMap.keys (tasks pd)).
    rewrite (projectsMap_tasks _ _ _ Gp), Epid, selected_pid.
    exact (keys_group_order Z.eqb _ _ _ _ _).
Qed.

Lemma projects_in_order_of_first_record_witness :
  map ProjectActivitySummary.projectId
    (DailyActivitySummary.projects out_of_order_day)
  = JsMap.first_occurrences Z.eqb
      (map pid (date_records out_of_order (DailyActivitySummary.date out_of_order_day))).
Proof.
  apply (projects_in_order_of_first_record out_of_order "2024-01-15" "2024-01-16"
           out_of_order_summary out_of_order_day).
  - vm_compute. reflexivity.
  - right. left. reflexivity.
Defined.

(** *** The totals over the days *)














(** *** The names in the summary *)

Lemma projectName_fold (l : list Activity.t) (v : ProjectData) :
  projectName (fold_left (fun v a => updProject a v) l v) = projectName v.
Proof.
  revert v. induction l as [|a l IH]; intros v; cbn [fold_left]; [reflexivity|].
  now rewrite IH.
Qed.

Lemma taskName_fold (l : list Activity.t) (v : TaskData) :
  taskName (fold_left (fun v a => updTask a v) l v) = taskName v.
Proof.
  revert v. induction l as [|a l IH]; intros v; cbn [fold_left]; [reflexivity|].
  now rewrite IH.
Qed.

Lemma projectsMap_name (acts : list Activity.t) (p : Z) (pd : ProjectData) :
  JsMap.get Z.eqb p (fold_left addActivity acts JsMap.empty) = Some pd ->
  exists a0 rest,
    JsMap.selected Z.eqb pid p acts = a0 :: rest /\
    projectName pd = Ref.name (Activity.project a0).
Proof.
  rewrite projectsMap_group, (get_group Z.eqb Z.eqb_eq). cbn [JsMap.get JsMap.empty].
  destruct (JsMap.selected Z.eqb pid p acts) as [|a0 sel]; [discriminate|].
  intros [= <-]. exists a0, sel. split; [reflexivity|].
  now rewrite projectName_fold.
Qed.

Lemma tasksMap_name (acts : list Activity.t) (p t : Z) (pd : ProjectData) (td : TaskData) :
  JsMap.get Z.eqb p (fold_left addActivity acts JsMap.empty) = Some pd ->
  JsMap.get Z.eqb t (tasks pd) = Some td ->
  exists a0 rest,
    filter (fun a => Z.eqb p (pid a) && Z.eqb t (tid a)) acts = a0 :: rest /\
    taskName td = Ref.name (Activity.task a0).
Proof.
  intros Hp. rewrite (projectsMap_tasks _ _ _ Hp), (get_group Z.eqb Z.eqb_eq).
  cbn [JsMap.get JsMap.empty]. unfold JsMap.selected. rewrite filter_filter.
  destruct (filter _ acts) as [|a0 sel]; [discriminate|].
  intros [= <-]. exists a0, sel. split; [reflexivity|].
  now rewrite taskName_fold.
Qed.

Lemma taskSummary_name (tk : Z) (td : TaskData) (t : TaskActivitySummary.t) :
  taskSummary (tk, td) = inr t -> TaskActivitySummary.taskName t = taskName td.
Proof.
  cbn. destruct (createTimeFormat (hours td)); cbn; [discriminate|].
  now intros [= <-].
Qed.

Lemma projectSummary_name (pk : Z) (pd : ProjectData) (p : ProjectActivitySummary.t) :
  projectSummary (pk, pd) = inr p ->
  ProjectActivitySummary.projectName p = projectName pd.
Proof.
  cbn. destruct (mapM taskSummary (JsMap.entries (tasks pd))); cbn; [discriminate|].
  destruct (createTimeFormat _); cbn; [discriminate|]. now intros [= <-].
Qed.

(** X20: the names shown are those of the first record: in a summary
    [aggregateActivities] returns, the name of a project of a day is the
    project name of the first input record of that date and project, and the
    name of a task is the task name of the first input record of that date,
    project and task; the names later records carry for the same ids are
    not looked at. *)
Theorem names_of_first_record (acts : list Activity.t) (sd ed : string)
    (s : ActivityRangeSummary.t) (d : DailyActivitySummary.t)
    (p : ProjectActivitySummary.t) :
  aggregateActivities acts sd ed = inr s ->
  In d (ActivityRangeSummary.dailySummaries s) ->
  In p (DailyActivitySummary.projects d) ->
  (exists a0 rest,
     project_records acts (DailyActivitySummary.date d)
       (ProjectActivitySummary.projectId p) = a0 :: rest /\
     ProjectActivitySummary.projectName p = Ref.name (Activity.project a0)) /\
  forall t, In t (ProjectActivitySummary.tasks p) ->
    exists a0 rest,
      leaf_records acts (DailyActivitySummary.date d)
        (ProjectActivitySummary.projectId p) (TaskActivitySummary.taskId t) = a0 :: rest /\
      TaskActivitySummary.taskName t = Ref.name (Activity.task a0).
Proof.
  intros H Hd Hp.
  destruct (aggregateActivities_inr _ _ _ _ H) as [F _].
  destruct (Forall2_In_right _ _ _ _ F Hd) as (date & _ & Hcd).
  rewrite dayActivities_selected in Hcd.
  destruct (createDailySummary_inr _ _ _ Hcd) as (Edate & Fp & _).
  destruct (Forall2_In_right _ _ _ _ Fp Hp) as ([pk pd] & Hin & Hps).
  destruct (projectSummary_inr _ _ _ Hps) as (Epid & Ft & _).
  assert (Gp := In_get Z.eqb Z.eqb_eq _ _ _ (projectsMap_NoDup _) Hin).
  rewrite Edate, Epid. split.
  - destruct (projectsMap_name _ _ _ Gp) as (a0 & rest & E & N).
    exists a0, rest. split.
    + rewrite <- E. unfold JsMap.selected, project_records. now rewrite filter_filter.
    + now rewrite (projectSummary_name _ _ _ Hps).
  - intros t Ht.
    destruct (Forall2_In_right _ _ _ _ Ft Ht) as ([tk td] & Hint & Hts).
    destruct (taskSummary_inr _ _ _ Hts) as (Etid & _).
    assert (Gt := In_get Z.eqb Z.eqb_eq _ _ _ (tasks_NoDup _ _ _ Gp) Hint).
    destruct (tasksMap_name _ _ _ _ _ Gp Gt) as (a0 & rest & E & N).
    exists a0, rest. split.
    + rewrite Etid, <- E. unfold JsMap.selected.
      now rewrite filter_filter, leaf_filter_ext.
    + now rewrite (taskSummary_name _ _ _ Hts).
Qed.

Lemma names_of_first_record_witness :
  exists a0 rest,
    project_records out_of_order (DailyActivitySummary.date out_of_order_day) 7
    = a0 :: rest /\
    Ref.name (Activity.project a0) = "P7".
Proof.
  destruct (names_of_first_record out_of_order "2024-01-15" "2024-01-16"
              out_of_order_summary out_of_order_day
              (ProjectActivitySummary.mk 7 "P7"
                 [ TaskActivitySummary.mk 70 "T70" 2 "2:00" ;
                   TaskActivitySummary.mk 71 "T71" 0.5 "0:30" ]
                 (mkTimeFormat 2.5 "2:30")))
    as [(a0 & rest & E & N) _].
  - vm_compute. reflexivity.
  - right. left. reflexivity.
  - left. reflexivity.
  - exists a0, rest. split; [exact E|]. now rewrite <- N.
Defined.

End ActivitiesFacts.

(* ================================================================== *)
(** ** Facts: whole hours in the activity summary *)
(* ================================================================== *)

Module ActivitiesWholeFacts.
Import JS TimeUtils Binary64 Binary64Facts NumberFacts TimeUtilsFacts SignFacts.
Import ExactFacts WholeHoursFacts Activities TraversalFacts JsMapFacts ActivitiesFacts.

Local Open Scope string_scope.
Local Open Scope float_scope.

(** *** Sums over the groups of a list *)

Lemma total_zero {K : Type} (ks : list K) : total (map (fun _ => 0%Z) ks) = 0%Z.
Proof.
  induction ks as [|k ks IH]; [reflexivity|]. cbn [map]. rewrite total_cons. lia.
Qed.

Lemma total_filter_le {A : Type} (n : A -> Z) (p : A -> bool) (l : list A) :
  Forall (fun a => (0 <= n a)%Z) l ->
  (0 <= total (map n (filter p l)) <= total (map n l))%Z.
Proof.
  induction 1 as [|a l Ha _ IH]; [unfold total; cbn; lia|].
  cbn [filter map]. destruct (p a); cbn [map]; rewrite ?total_cons; lia.
Qed.

Section Partition.
Context {A K : Type} (eqb : K -> K -> bool) (key : A -> K) (n : A -> Z).
Hypothesis eqb_eq : forall a b, eqb a b = true <-> a = b.

Lemma indicator_absent (ks : list K) (k0 : K) (x : Z) (f : K -> Z) :
  ~ In k0 ks ->
  total (map (fun k => ((if eqb k k0 then x else 0) + f k)%Z) ks) = total (map f ks).
Proof.
  intros H. f_equal. apply map_ext_in. intros k Hk.
  destruct (eqb k k0) eqn:E; [|lia].
  apply eqb_eq in E. subst. contradiction.
Qed.

Lemma indicator_once (ks : list K) (k0 : K) (x : Z) (f : K -> Z) :
  NoDup ks -> In k0 ks ->
  total (map (fun k => ((if eqb k k0 then x else 0) + f k)%Z) ks)
  = (x + total (map f ks))%Z.
Proof.
  induction 1 as [|k ks Hk Hn IH]; intros Hin; [destruct Hin|].
  cbn [map]. rewrite !total_cons.
  destruct (eqb k k0) eqn:E.
  - apply eqb_eq in E. subst k0. rewrite indicator_absent by exact Hk. lia.
  - destruct Hin as [->|Hin].
    + assert (eqb k0 k0 = true) by now apply eqb_eq. congruence.
    + rewrite (IH Hin). lia.
Qed.

Lemma group_totals (ks : list K) (l : list A) :
  NoDup ks -> (forall a, In a l -> In (key a) ks) ->
  total (map (fun k => total (map n (filter (fun a => eqb k (key a)) l))) ks)
  = total (map n l).
Proof.
  intros Hn. induction l as [|a l IH]; intros H.
  - cbn [filter map]. apply total_zero.
  - rewrite (map_ext _ (fun k => ((if eqb k (key a) then n a else 0)
               + total (map n (filter (fun a => eqb k (key a)) l)))%Z)).
    + rewrite indicator_once; [|exact Hn|apply H; now left].
      cbn [map]. rewrite total_cons, IH; [reflexivity|].
      intros a' Ha'. apply H. now right.
    + intros k. cbn [filter]. destruct (eqb k (key a)); cbn [map];
        rewrite ?total_cons; lia.
Qed.

End Partition.

(** *** Whole hours in the summary *)

Section WholeHours.
Context (n : Activity.t -> Z) (acts : list Activity.t).
Hypothesis W : whole_hours n acts.
Hypothesis B : small (100 * hours_total n acts).

Lemma hours_total_filter (p : Activity.t -> bool) :
  (0 <= hours_total n (filter p acts) <= hours_total n acts)%Z.
Proof.
  apply total_filter_le. eapply Forall_impl; [|exact W]. now intros a [Ha _].
Qed.

Lemma hours_total_small (p : Activity.t -> bool) :
  small (100 * hours_total n (filter p acts)).
Proof.
  assert (H := hours_total_filter p). unfold small in *. lia.
Qed.

Lemma sumHours_exact (l : list Z) :
  counts l -> small (total l) -> sumHours (map whole l) = whole (total l).
Proof.
  intros Hl Hs. unfold sumHours. change 0 with (whole 0). now rewrite sum_whole.
Qed.

Lemma sumHours_records (p : Activity.t -> bool) :
  sumHours (map Activity.hours (filter p acts)) = whole (hours_total n (filter p acts)).
Proof.
  assert (S := hours_total_small p). unfold hours_total in *.
  assert (F : Forall (fun a => (0 <= n a)%Z /\ Activity.hours a = whole (n a)) (filter p acts)).
  { apply Forall_forall. intros a Ha. apply filter_In in Ha as [Ha _].
    unfold whole_hours in W. rewrite Forall_forall in W. now apply W. }
  rewrite (map_ext_in Activity.hours (fun a => whole (n a))).
  - rewrite <- (map_map n whole). apply sumHours_exact.
    + unfold counts. apply Forall_map. eapply Forall_impl; [|exact F]. now intros a [Ha _].
    + unfold small in *. lia.
  - intros a Ha. rewrite Forall_forall in F. now destruct (F a Ha).
Qed.

Lemma sumHours_groups {K : Type} (eqb : K -> K -> bool)
    (eqb_eq : forall a b, eqb a b = true <-> a = b)
    (key : Activity.t -> K) (p : Activity.t -> bool) (ks : list K) :
  NoDup ks -> (forall a, In a (filter p acts) -> In (key a) ks) ->
  sumHours (map (fun k => whole (hours_total n
                  (filter (fun a => p a && eqb k (key a)) acts))) ks)
  = whole (hours_total n (filter p acts)).
Proof.
  intros Hn Hin.
  rewrite <- (map_map (fun k => hours_total n (filter (fun a => p a && eqb k (key a)) acts))
                whole).
  assert (E : total (map (fun k => hours_total n
                        (filter (fun a => p a && eqb k (key a)) acts)) ks)
              = hours_total n (filter p acts)).
  { unfold hours_total. rewrite <- (group_totals eqb key n eqb_eq ks (filter p acts) Hn Hin).
    f_equal. apply map_ext. intros k. now rewrite filter_filter. }
  rewrite sumHours_exact, E; [reflexivity| |].
  - unfold counts. apply Forall_map, Forall_forall. intros k _.
    apply hours_total_filter.
  - rewrite E. assert (S := hours_total_small p). assert (L := hours_total_filter p).
    unfold small in *. lia.
Qed.

Lemma roundHours_records (p : Activity.t -> bool) :
  roundHours (whole (hours_total n (filter p acts))) = whole (hours_total n (filter p acts)).
Proof.
  apply roundHours_whole; [apply hours_total_filter|apply hours_total_small].
Qed.

Context (sd ed : string) (s : ActivityRangeSummary.t).
Hypothesis H : aggregateActivities acts sd ed = inr s.

Lemma whole_task (d : DailyActivitySummary.t) (p : ProjectActivitySummary.t)
    (t : TaskActivitySummary.t) :
  In d (ActivityRangeSummary.dailySummaries s) ->
  In p (DailyActivitySummary.projects d) ->
  In t (ProjectActivitySummary.tasks p) ->
  TaskActivitySummary.hours t
  = whole (hours_total n
      (leaf_records acts (DailyActivitySummary.date d)
         (ProjectActivitySummary.projectId p) (TaskActivitySummary.taskId t))).
Proof.
  intros Hd Hp Ht. rewrite (leaf_total _ _ _ _ _ _ _ H Hd Hp Ht).
  apply sumHours_records.
Qed.

Lemma whole_project (d : DailyActivitySummary.t) (p : ProjectActivitySummary.t) :
  In d (ActivityRangeSummary.dailySummaries s) ->
  In p (DailyActivitySummary.projects d) ->
  sumHours (task_hours p)
  = whole (hours_total n
      (project_records acts (DailyActivitySummary.date d)
         (ProjectActivitySummary.projectId p))) /\
  TimeUtils.hours (ProjectActivitySummary.projectTotal p) = sumHours (task_hours p).
Proof.
  intros Hd Hp.
  destruct (aggregateActivities_inr _ _ _ _ H) as [F _].
  destruct (Forall2_In_right _ _ _ _ F Hd) as (date & _ & Hcd).
  rewrite dayActivities_selected in Hcd.
  destruct (createDailySummary_inr _ _ _ Hcd) as (Edate & Fp & _).
  destruct (Forall2_In_right _ _ _ _ Fp Hp) as ([pk pd] & Hin & Hps).
  destruct (projectSummary_inr _ _ _ Hps) as (Epid & Ft & Et).
  assert (Gp := In_get Z.eqb Z.eqb_eq _ _ _ (projectsMap_NoDup _) Hin).
  assert (Ek : map TaskActivitySummary.taskId (ProjectActivitySummary.tasks p)
               = JsMap.keys (tasks pd)).
  { exact (Forall2_map_eq fst TaskActivitySummary.taskId _ _
             (Forall2_impl _ taskSummary_key Ft)). }
  assert (S : sumHours (task_hours p)
              = whole (hours_total n
                  (project_records acts (DailyActivitySummary.date d)
                     (ProjectActivitySummary.projectId p)))).
  { unfold task_hours.
    rewrite (map_ext_in TaskActivitySummary.hours
               (fun t => whole (hours_total n
                  (filter (fun a => (String.eqb (DailyActivitySummary.date d) (Activity.date a)
                                     && Z.eqb (ProjectActivitySummary.projectId p) (pid a))
                                    && Z.eqb (TaskActivitySummary.taskId t) (tid a)) acts)))).
    2:{ intros t Ht. exact (whole_task d p t Hd Hp Ht). }
    rewrite <- (map_map TaskActivitySummary.taskId
                  (fun k => whole (hours_total n
                     (filter (fun a => (String.eqb (DailyActivitySummary.date d) (Activity.date a)
                                        && Z.eqb (ProjectActivitySummary.projectId p) (pid a))
                                       && Z.eqb k (tid a)) acts)))).
    apply (sumHours_groups Z.eqb Z.eqb_eq tid).
    - rewrite Ek. exact (tasks_NoDup _ _ _ Gp).
    - intros a Ha. rewrite Ek, (projectsMap_tasks _ _ _ Gp).
      apply (keys_group Z.eqb Z.eqb_eq). right. apply in_map.
      unfold JsMap.selected. rewrite filter_filter.
      rewrite <- Edate, <- Epid. exact Ha. }
  split; [exact S|]. rewrite Et, S. apply roundHours_records.
Qed.

Lemma whole_day (d : DailyActivitySummary.t) :
  In d (ActivityRangeSummary.dailySummaries s) ->
  sumHours (project_hours d)
  = whole (hours_total n (date_records acts (DailyActivitySummary.date d))) /\
  TimeUtils.hours (DailyActivitySummary.dailyTotal d) = sumHours (project_hours d).
Proof.
  intros Hd.
  destruct (aggregateActivities_inr _ _ _ _ H) as [F _].
  destruct (Forall2_In_right _ _ _ _ F Hd) as (date & _ & Hcd).
  rewrite dayActivities_selected in Hcd.
  destruct (createDailySummary_inr _ _ _ Hcd) as (Edate & Fp & Et).
  assert (Ek : map ProjectActivitySummary.projectId (DailyActivitySummary.projects d)
               = JsMap.keys (fold_left addActivity
                               (JsMap.selected String.eqb Activity.date date acts) JsMap.empty)).
  { exact (Forall2_map_eq fst ProjectActivitySummary.projectId _ _
             (Forall2_impl _ projectSummary_key Fp)). }
  assert (S : sumHours (project_hours d)
              = whole (hours_total n (date_records acts (DailyActivitySummary.date d)))).
  { unfold project_hours.
    rewrite (map_ext_in (fun p => TimeUtils.hours (ProjectActivitySummary.projectTotal p))
               (fun p => whole (hours_total n
                  (filter (fun a => String.eqb (DailyActivitySummary.date d) (Activity.date a)
                                    && Z.eqb (ProjectActivitySummary.projectId p) (pid a))
                     acts)))).
    2:{ intros p Hp. destruct (whole_project d p Hd Hp) as [S1 S2]. now rewrite S2, S1. }
    rewrite <- (map_map ProjectActivitySummary.projectId
                  (fun k => whole (hours_total n
                     (filter (fun a => String.eqb (DailyActivitySummary.date d) (Activity.date a)
                                       && Z.eqb k (pid a)) acts)))).
    apply (sumHours_groups Z.eqb Z.eqb_eq pid).
    - rewrite Ek. apply projectsMap_NoDup.
    - intros a Ha. rewrite Ek, projectsMap_group.
      apply (keys_group Z.eqb Z.eqb_eq). right. apply in_map.
      unfold JsMap.selected. rewrite <- Edate. exact Ha. }
  split; [exact S|]. rewrite Et, S. apply roundHours_records.
Qed.

Lemma whole_range :
  sumHours (daily_hours s) = whole (hours_total n acts) /\
  TimeUtils.hours (ActivityRangeSummary.grandTotal s) = sumHours (daily_hours s).
Proof.
  destruct (aggregateActivities_inr _ _ _ _ H) as [F Et].
  assert (A : filter (fun _ => true) acts = acts).
  { clear. induction acts as [|a l IH]; cbn; congruence. }
  assert (S : sumHours (daily_hours s) = whole (hours_total n acts)).
  { unfold daily_hours.
    rewrite (map_ext_in (fun d => TimeUtils.hours (DailyActivitySummary.dailyTotal d))
               (fun d => whole (hours_total n
                  (filter (fun a => true && String.eqb (DailyActivitySummary.date d)
                                              (Activity.date a)) acts)))).
    2:{ intros d Hd. destruct (whole_day d Hd) as [S1 S2]. now rewrite S2, S1. }
    rewrite <- (map_map DailyActivitySummary.date
                  (fun k => whole (hours_total n
                     (filter (fun a => true && String.eqb k (Activity.date a)) acts)))).
    transitivity (whole (hours_total n (filter (fun _ => true) acts))); [|now rewrite A].
    apply (sumHours_groups String.eqb String.eqb_eq Activity.date (fun _ => true)).
    - now destruct (leaf_unique _ _ _ _ H).
    - intros a Ha. rewrite A in Ha. rewrite (dailySummaries_dates _ _ _ _ H).
      apply sort_In, groupByDate_keys, in_map, Ha. }
  split; [exact S|]. rewrite Et, S.
  rewrite <- A. apply roundHours_records.
Qed.

End WholeHours.

(** X17: on whole hours the totals are exact.  When the hours of every
    record are a whole number that is not negative and 100 times their sum
    is below [2^53], [aggregateActivities] returns a summary in which every
    total is the sum of the totals below it, no rounding taking place (it is
    [additive]), and the grand total is the sum of the hours of all the
    records. *)
Theorem aggregateActivities_whole_hours_additive (n : Activity.t -> Z)
    (acts : list Activity.t) (sd ed : string) :
  whole_hours n acts -> small (100 * hours_total n acts) ->
  exists s,
    aggregateActivities acts sd ed = inr s /\
    additive s /\
    TimeUtils.hours (ActivityRangeSummary.grandTotal s) = whole (hours_total n acts).
Proof.
  intros W B.
  destruct (aggregateActivities_accepts_leaves acts sd ed) as [s H].
  { intros a _. apply leaf_hours_not_negative.
    eapply Forall_impl; [|exact W]. intros a' [Hn ->]. now apply Z2F_not_negative. }
  exists s. split; [exact H|].
  destruct (whole_range n acts W B sd ed s H) as [S G]. split; [|now rewrite G].
  split; [exact G|].
  apply Forall_forall. intros d Hd. split.
  - now destruct (whole_day n acts W B sd ed s H d Hd).
  - apply Forall_forall. intros p Hp.
    now destruct (whole_project n acts W B sd ed s H d p Hd Hp).
Qed.

Lemma aggregateActivities_whole_hours_additive_witness :
  exists s,
    aggregateActivities whole_days "2024-01-15" "2024-01-16" = inr s /\
    additive s /\
    TimeUtils.hours (ActivityRangeSummary.grandTotal s) = whole 15.
Proof.
  apply (aggregateActivities_whole_hours_additive whole_days_hours whole_days).
  - repeat constructor; cbn; lia.
  - apply small_below. vm_compute. reflexivity.
Defined.

End ActivitiesWholeFacts.

(* ================================================================== *)
(** ** Facts about tools/userPresencesTools.ts *)
(* ================================================================== *)

Module PresencesFacts.
Import JS TimeUtils Presences TraversalFacts JsMapFacts TimeUtilsFacts.
Import Binary64 Binary64Facts SignFacts.

Local Open Scope string_scope.
Local Open Scope float_scope.

(** *** Open presences *)

Lemma open_not_completed (p : UserPresence.t) :
  UserPresence.to p = None -> completed p = false.
Proof. intros H. unfold completed. rewrite H. apply andb_false_r. Qed.

Lemma filter_completed_idem (ps : list UserPresence.t) :
  filter completed (filter completed ps) = filter completed ps.
Proof.
  rewrite filter_filter. apply filter_ext. intros p. now destruct (completed p).
Qed.

Lemma createDailyPresenceSummary_completed (date : string) (ps : list UserPresence.t) :
  createDailyPresenceSummary date ps
  = createDailyPresenceSummary date (filter completed ps).
Proof. unfold createDailyPresenceSummary. now rewrite filter_completed_idem. Qed.

Lemma createDailyPresenceSummary_inr (date : string) (ps : list UserPresence.t)
    (d : DailyPresenceSummary.t) :
  createDailyPresenceSummary date ps = inr d ->
  DailyPresenceSummary.date d = date /\
  DailyPresenceSummary.totalHours d
    = roundHours (sumHours (map elapsed (filter completed ps))).
Proof.
  unfold createDailyPresenceSummary.
  destruct (createTimeFormat _) as [e|tf]; cbn; [discriminate|].
  intros [= <-]. cbn. split; [reflexivity|].
  unfold sumHours. now rewrite fold_left_map.
Qed.

(** C8: the total of a daily presence summary is [roundHours] of the sum of
    the hours of the completed presences alone (those with both a start and
    an end); a presence whose end is unset changes nothing, wherever it
    stands in the list: neither the total nor whether a summary is returned.
    Scenario C gives 8.5 hours, shown as 8:30. *)
Theorem open_presences_are_excluded :
  (forall date ps d,
     createDailyPresenceSummary date ps = inr d ->
     DailyPresenceSummary.totalHours d
       = roundHours (sumHours (map elapsed (filter completed ps)))) /\
  (forall date before p after,
     UserPresence.to p = None ->
     createDailyPresenceSummary date (before ++ p :: after)
       = createDailyPresenceSummary date (before ++ after)) /\
  createDailyPresenceSummary "2024-01-15" [worked; still_open]
    = inr (DailyPresenceSummary.mk "2024-01-15" 8.5 "8:30").
Proof.
  split; [|split].
  - intros date ps d H. now destruct (createDailyPresenceSummary_inr _ _ _ H).
  - intros date before p after H.
    rewrite createDailyPresenceSummary_completed.
    rewrite (createDailyPresenceSummary_completed date (before ++ after)).
    rewrite !filter_app. cbn [filter]. now rewrite (open_not_completed _ H).
  - vm_compute. reflexivity.
Qed.

(** *** Clock times *)

Lemma two_digits_number (n : nat) :
  (n < 100)%nat -> Number_of_string (two_digits n) = Z2F false (Z.of_nat n).
Proof.
  intros H.
  assert (A : forallb (fun n => Leibniz.eqb (Number_of_string (two_digits n))
                                  (Z2F false (Z.of_nat n))) (seq 0 100) = true)
    by (vm_compute; reflexivity).
  rewrite forallb_forall in A. apply Leibniz.eqb_spec, A, in_seq. lia.
Qed.

Lemma digit_char_not_colon (n : nat) : Ascii.eqb (digit_char n) ":" = false.
Proof.
  unfold digit_char.
  assert (H : (n mod 10 < 10)%nat) by (apply Nat.mod_upper_bound; lia).
  assert (A : forallb (fun k => negb (Ascii.eqb (ascii_of_nat (48 + k)) ":")) (seq 0 10) = true)
    by reflexivity.
  rewrite forallb_forall in A. apply negb_true_iff, A, in_seq. lia.
Qed.

Lemma split_clock (hh mm : nat) : split ":" (clock hh mm) = [two_digits hh; two_digits mm].
Proof.
  unfold clock, two_digits. cbn [append split].
  rewrite !digit_char_not_colon. cbn [Ascii.eqb Bool.eqb]. reflexivity.
Qed.

Lemma total_minutes (hh mm : nat) :
  (hh < 100)%nat -> (mm < 100)%nat ->
  Z2F false (Z.of_nat hh) * 60 + Z2F false (Z.of_nat mm)
  = Z2F false (Z.of_nat (hh * 60 + mm)).
Proof.
  intros Hh Hm. change 60 with (Z2F false 60).
  rewrite mul_exact, add_exact; try (apply small_below; lia); try lia.
  f_equal. lia.
Qed.

(** C9: for clock times of two-digit fields the hours are the minutes from
    start to end divided by 60, a day being added when the end is before the
    start; from 09:00 to 17:30 that is 8.5 hours, shown as 8:30. *)
Theorem calculateHoursFromTimes_wraps_midnight :
  (forall fh fm th tm : nat,
     (fh < 100)%nat -> (fm < 100)%nat -> (th < 100)%nat -> (tm < 100)%nat ->
     calculateHoursFromTimes (clock fh fm) (clock th tm)
     = Z2F false (wrapped_minutes (Z.of_nat (fh * 60 + fm)) (Z.of_nat (th * 60 + tm)))
       / 60) /\
  calculateHoursFromTimes "09:00" "17:30" = 8.5 /\
  formatHoursToHHMM 8.5 = inr "8:30" /\
  calculateHoursFromTimes "22:00" "06:00" = 8.
Proof.
  split; [|vm_compute; repeat split].
  intros fh fm th tm H1 H2 H3 H4. unfold calculateHoursFromTimes.
  rewrite !split_clock. cbn [map nth].
  rewrite !two_digits_number by assumption.
  rewrite !total_minutes by assumption.
  set (f := Z.of_nat (fh * 60 + fm)). set (t := Z.of_nat (th * 60 + tm)).
  assert (Hf : (0 <= f < 10000)%Z) by lia. assert (Ht : (0 <= t < 10000)%Z) by lia.
  rewrite leb_exact by (try apply small_below; lia).
  change (24 * 60) with (Z2F false 1440).
  unfold wrapped_minutes. destruct (f <=? t)%Z.
  - rewrite sub_exact by (apply small_below; lia). reflexivity.
  - rewrite sub_exact, add_exact by (apply small_below; lia).
    do 2 f_equal. lia.
Qed.

(** *** The days of the range *)

Lemma presencesByDate_keys (ps : list UserPresence.t) (date : string) :
  In date (JsMap.keys (groupByDate ps)) <-> In date (map UserPresence.date ps).
Proof.
  change (groupByDate ps)
    with (fold_left (JsMap.step String.eqb UserPresence.date (fun _ => [])
                       (fun a l => (l ++ [a])%list)) ps JsMap.empty).
  rewrite (keys_group String.eqb String.eqb_eq). cbn. tauto.
Qed.

Lemma presencesByDate_NoDup (ps : list UserPresence.t) :
  NoDup (JsMap.keys (groupByDate ps)).
Proof.
  change (groupByDate ps)
    with (fold_left (JsMap.step String.eqb UserPresence.date (fun _ => [])
                       (fun a l => (l ++ [a])%list)) ps JsMap.empty).
  apply (NoDup_keys_group String.eqb String.eqb_eq). constructor.
Qed.

Lemma aggregatePresences_inr (ps : list UserPresence.t) (sd ed : string)
    (s : PresenceRangeSummary.t) :
  aggregatePresences ps sd ed = inr s ->
  List.length (PresenceRangeSummary.dailySummaries s)
    = List.length (JsMap.keys (groupByDate ps)) /\
  hours (PresenceRangeSummary.grandTotal s)
    = roundHours (sumHours (map DailyPresenceSummary.totalHours
                              (PresenceRangeSummary.dailySummaries s))).
Proof.
  unfold aggregatePresences.
  destruct (mapM _ _) as [e|ds] eqn:Hds; cbn; [discriminate|].
  destruct (createTimeFormat _) as [e|tf] eqn:Htf; cbn; [discriminate|].
  intros [= <-]. cbn. split.
  - rewrite (Forall2_length_eq _ _ _ (mapM_inr _ _ _ Hds)). apply sort_length.
  - now apply createTimeFormat_hours.
Qed.

Lemma workingDays_recorded (ps : list UserPresence.t) (sd ed : string)
    (s : PresenceRangeSummary.t) :
  aggregatePresences ps sd ed = inr s ->
  workingDays s = List.length (recorded_dates ps).
Proof.
  intros H. unfold workingDays. rewrite (proj1 (aggregatePresences_inr _ _ _ _ H)).
  apply Permutation_length, NoDup_Permutation.
  - apply presencesByDate_NoDup.
  - apply NoDup_nodup.
  - intros d. unfold recorded_dates. rewrite nodup_In. apply presencesByDate_keys.
Qed.

(** *** The report *)

Lemma formatPresencesSummary_head (s : PresenceRangeSummary.t) :
  formatPresencesSummary s
  = (lines <-
       (if (0 <? List.length (PresenceRangeSummary.dailySummaries s))%nat then
          tf <- createTimeFormat (averageHoursPerDay s) ;;
          inr (List.app (report_head s)
                 [ "" ; "Statistics:" ;
                   "- Working days: "
                     ++ Number_toString (Z2F false (Z.of_nat (workingDays s))) ;
                   "- Average per day: " ++ Number_toString (averageHoursPerDay s)
                     ++ "h (" ++ hoursFormatted tf ++ ")" ])
        else inr (report_head s)) ;;
     inr (join "\n" lines)).
Proof.
  unfold formatPresencesSummary, report_head.
  destruct (0 <? List.length (PresenceRangeSummary.dailySummaries s))%nat;
    cbn [List.app]; rewrite ?app_nil_r; reflexivity.
Qed.

(** C7, as stated, fails: a date whose only presence is still open is a
    working day of the statistics, though it has no completed presence. *)
Lemma workingDays_counts_open_days :
  ~ (forall ps sd ed s,
       aggregatePresences ps sd ed = inr s ->
       workingDays s = List.length (qualifying_dates ps)).
Proof.
  intros H.
  specialize (H [still_open] "2024-01-15" "2024-01-15" _ eq_refl).
  vm_compute in H. discriminate H.
Qed.

(** C7, amended: the working days of the statistics are the distinct dates
    that carry a presence record, completed or not; when there is a daily
    summary the report ends with the statistics lines, the average being
    [roundHours] of the grand total's hours divided by the working days;
    when there is none the report stops at the grand total and no average
    is computed. *)
Theorem presence_statistics :
  (forall ps sd ed s,
     aggregatePresences ps sd ed = inr s ->
     workingDays s = List.length (recorded_dates ps)) /\
  (forall s,
     PresenceRangeSummary.dailySummaries s <> [] ->
     formatPresencesSummary s
     = (tf <- createTimeFormat
                (roundHours (hours (PresenceRangeSummary.grandTotal s)
                             / Z2F false (Z.of_nat (workingDays s)))) ;;
        inr (join "\n"
               (List.app (report_head s)
                  [ "" ; "Statistics:" ;
                    "- Working days: "
                      ++ Number_toString (Z2F false (Z.of_nat (workingDays s))) ;
                    "- Average per day: "
                      ++ Number_toString
                           (roundHours (hours (PresenceRangeSummary.grandTotal s)
                                        / Z2F false (Z.of_nat (workingDays s))))
                      ++ "h (" ++ hoursFormatted tf ++ ")" ])))) /\
  (forall s,
     PresenceRangeSummary.dailySummaries s = [] ->
     formatPresencesSummary s
     = inr (join "\n"
              [ "Presences from " ++ PresenceRangeSummary.startDate s ++ " to "
                  ++ PresenceRangeSummary.endDate s ++ ":" ; "" ;
                "Grand total: "
                  ++ Number_toString (hours (PresenceRangeSummary.grandTotal s))
                  ++ "h (" ++ hoursFormatted (PresenceRangeSummary.grandTotal s) ++ ")" ])).
Proof.
  split; [|split].
  - apply workingDays_recorded.
  - intros s Hne. rewrite formatPresencesSummary_head.
    destruct (PresenceRangeSummary.dailySummaries s) eqn:E; [contradiction|].
    cbn [List.length Nat.ltb Nat.leb]. unfold averageHoursPerDay.
    destruct (createTimeFormat _); reflexivity.
  - intros s E. rewrite formatPresencesSummary_head. unfold report_head.
    rewrite E. reflexivity.
Qed.

(** *** The days of the range, one by one *)

Lemma presencesByDate_get (ps : list UserPresence.t) (date : string) :
  JsMap.get String.eqb date (groupByDate ps)
  = match date_presences ps date with
    | [] => None
    | l => Some l
    end.
Proof.
  change (groupByDate ps)
    with (fold_left (JsMap.step String.eqb UserPresence.date (fun _ => [])
                       (fun a l => (l ++ [a])%list)) ps JsMap.empty).
  rewrite (get_group String.eqb String.eqb_eq). cbn [JsMap.get JsMap.empty].
  change (JsMap.selected String.eqb UserPresence.date date ps) with (date_presences ps date).
  destruct (date_presences ps date) as [|a0 sel]; [reflexivity|].
  now rewrite fold_left_snoc.
Qed.

Lemma dayPresences_date (ps : list UserPresence.t) (date : string) :
  dayPresences ps date = date_presences ps date.
Proof.
  unfold dayPresences. rewrite presencesByDate_get.
  now destruct (date_presences ps date).
Qed.

Lemma aggregatePresences_days (ps : list UserPresence.t) (sd ed : string)
    (s : PresenceRangeSummary.t) :
  aggregatePresences ps sd ed = inr s ->
  Forall2 (fun date d => createDailyPresenceSummary date (date_presences ps date) = inr d)
    (sort (JsMap.keys (groupByDate ps))) (PresenceRangeSummary.dailySummaries s).
Proof.
  unfold aggregatePresences.
  change (mapM _ ?l) with (mapM (fun date => createDailyPresenceSummary date (dayPresences ps date)) l).
  destruct (mapM _ _) as [e|ds] eqn:Hds; cbn [bind]; [discriminate|].
  destruct (createTimeFormat _) as [e|tf] eqn:Htf; cbn; [discriminate|].
  intros [= <-]. cbn. apply mapM_inr in Hds.
  eapply Forall2_impl; [|exact Hds]. cbn. intros date d. now rewrite dayPresences_date.
Qed.




(** *** What the presence summaries accept *)

Lemma createDailyPresenceSummary_accepts (date : string) (ps : list UserPresence.t) :
  Forall (fun p => not_negative (elapsed p)) (filter completed ps) ->
  exists d, createDailyPresenceSummary date ps = inr d.
Proof.
  intros H. unfold createDailyPresenceSummary.
  rewrite createTimeFormat_not_negative; [cbn; eauto|].
  rewrite <- (fold_left_map (fun total current => total + current) elapsed).
  apply (sumHours_not_negative (map elapsed (filter completed ps))), Forall_map, H.
Qed.

Lemma createDailyPresenceSummary_accepted (date : string) (ps : list UserPresence.t)
    (d : DailyPresenceSummary.t) :
  createDailyPresenceSummary date ps = inr d ->
  not_negative (DailyPresenceSummary.totalHours d).
Proof.
  unfold createDailyPresenceSummary.
  destruct (createTimeFormat _) as [e|tf] eqn:E; cbn; [discriminate|].
  intros [= <-]. cbn. apply roundHours_not_negative.
  now destruct (createTimeFormat_accepted _ _ E).
Qed.

Lemma aggregatePresences_accepts (ps : list UserPresence.t) (sd ed : string) :
  Forall (fun p => not_negative (elapsed p)) (filter completed ps) ->
  exists s, aggregatePresences ps sd ed = inr s.
Proof.
  intros H. unfold aggregatePresences.
  change (mapM _ ?l) with (mapM (fun date => createDailyPresenceSummary date (dayPresences ps date)) l).
  destruct (mapM_accepts (fun date => createDailyPresenceSummary date (dayPresences ps date))
              (sort (JsMap.keys (groupByDate ps)))) as [ds Hds].
  { apply Forall_forall. intros date _. apply createDailyPresenceSummary_accepts.
    rewrite dayPresences_date. unfold date_presences.
    apply Forall_forall. intros p Hp. rewrite Forall_forall in H. apply H.
    apply filter_In in Hp as [Hp Hc]. apply filter_In in Hp as [Hp _].
    apply filter_In. auto. }
  rewrite Hds. cbn [bind].
  rewrite createTimeFormat_not_negative; [cbn; eauto|].
  apply sumHours_not_negative, Forall_map. apply mapM_inr in Hds.
  clear H. induction Hds as [|date d l ds Hd _ IH]; constructor; [|exact IH].
  exact (createDailyPresenceSummary_accepted _ _ _ Hd).
Qed.

Lemma aggregatePresences_accepted (ps : list UserPresence.t) (sd ed : string)
    (s : PresenceRangeSummary.t) :
  aggregatePresences ps sd ed = inr s ->
  not_negative (hours (PresenceRangeSummary.grandTotal s)).
Proof.
  unfold aggregatePresences.
  destruct (mapM _ _) as [e|ds] eqn:Hds; cbn [bind]; [discriminate|].
  destruct (createTimeFormat _) as [e|tf] eqn:Htf; cbn; [discriminate|].
  intros [= <-]. cbn. now destruct (createTimeFormat_accepted _ _ Htf).
Qed.

(** X6: [formatPresencesSummary] returns a report, it does not throw, for
    every summary [aggregatePresences] returns: the average per day is never
    below zero. *)
Theorem formatPresencesSummary_accepts_aggregate (ps : list UserPresence.t)
    (sd ed : string) (s : PresenceRangeSummary.t) :
  aggregatePresences ps sd ed = inr s ->
  not_negative (averageHoursPerDay s) /\
  exists report, formatPresencesSummary s = inr report.
Proof.
  intros H.
  assert (A : not_negative (averageHoursPerDay s)).
  { apply roundHours_not_negative, div_not_negative.
    - exact (aggregatePresences_accepted _ _ _ _ H).
    - apply Z2F_sign_clear. lia. }
  split; [exact A|].
  rewrite formatPresencesSummary_head.
  destruct (0 <? _)%nat; cbn [bind]; [|eauto].
  rewrite (createTimeFormat_not_negative _ A). cbn. eauto.
Qed.

Lemma formatPresencesSummary_accepts_aggregate_witness :
  not_negative (averageHoursPerDay worked_summary) /\
  exists report, formatPresencesSummary worked_summary = inr report.
Proof.
  apply (formatPresencesSummary_accepts_aggregate [worked; still_open]
           "2024-01-15" "2024-01-15").
  vm_compute. reflexivity.
Defined.

(** *** Times of the day *)

Lemma calculateHoursFromTimes_clock (fh fm th tm : nat) :
  (fh < 100)%nat -> (fm < 100)%nat -> (th < 100)%nat -> (tm < 100)%nat ->
  calculateHoursFromTimes (clock fh fm) (clock th tm)
  = Z2F false (wrapped_minutes (Z.of_nat (fh * 60 + fm)) (Z.of_nat (th * 60 + tm))) / 60.
Proof.
  intros H1 H2 H3 H4. unfold calculateHoursFromTimes.
  rewrite !split_clock. cbn [map nth].
  rewrite !two_digits_number by assumption.
  rewrite !total_minutes by assumption.
  set (f := Z.of_nat (fh * 60 + fm)). set (t := Z.of_nat (th * 60 + tm)).
  assert (Hf : (0 <= f < 10000)%Z) by lia. assert (Ht : (0 <= t < 10000)%Z) by lia.
  rewrite leb_exact by (try apply small_below; lia).
  change (24 * 60) with (Z2F false 1440).
  unfold wrapped_minutes. destruct (f <=? t)%Z.
  - rewrite sub_exact by (apply small_below; lia). reflexivity.
  - rewrite sub_exact, add_exact by (apply small_below; lia).
    do 2 f_equal. lia.
Qed.

Lemma elapsed_well_timed (p : UserPresence.t) :
  well_timed p -> completed p = true ->
  exists minutes : Z,
    (0 <= minutes < 1440)%Z /\ elapsed p = Z2F false minutes / 60.
Proof.
  intros W C. destruct (W C) as [(fh & fm & Hfh & Hfm & Ef) (th & tm & Hth & Htm & Et)].
  unfold elapsed. rewrite Ef, Et.
  rewrite calculateHoursFromTimes_clock by lia.
  eexists. split; [|reflexivity].
  unfold wrapped_minutes.
  match goal with |- context [(?a <=? ?b)%Z] => destruct (Z.leb_spec a b) end; lia.
Qed.

(** X8: when every completed presence runs between two times of the day
    ([00:00] to [23:59]), the hours of each are a whole number of minutes
    from 0 to 1439 divided by 60, and [aggregatePresences] returns a summary;
    it does not throw. *)
Theorem aggregatePresences_accepts_times_of_day (ps : list UserPresence.t)
    (sd ed : string) :
  Forall well_timed ps ->
  (forall p, In p ps -> completed p = true ->
     exists minutes : Z,
       (0 <= minutes < 1440)%Z /\ elapsed p = Z2F false minutes / 60) /\
  exists s, aggregatePresences ps sd ed = inr s.
Proof.
  intros H. rewrite Forall_forall in H. split.
  - intros p Hp. now apply elapsed_well_timed, H.
  - apply aggregatePresences_accepts, Forall_forall. intros p Hp.
    apply filter_In in Hp as [Hp Hc].
    destruct (elapsed_well_timed p (H _ Hp) Hc) as (m & Hm & ->).
    apply div_not_negative; [|reflexivity]. apply Z2F_not_negative. lia.
Qed.

Lemma aggregatePresences_accepts_times_of_day_witness :
  exists s, aggregatePresences [worked; still_open] "2024-01-15" "2024-01-15" = inr s.
Proof.
  apply (aggregatePresences_accepts_times_of_day [worked; still_open]).
  constructor; [|constructor; [|constructor]].
  - intros _. split.
    + exists 9%nat, 0%nat. repeat split; lia.
    + exists 17%nat, 30%nat. repeat split; lia.
  - intros C. discriminate C.
Defined.

(** *** NaN *)

Lemma is_nan (x : number) : Prim2SF x = S754_nan -> x = nan.
Proof. intros H. now apply Prim2SF_inj. Qed.

Lemma add_nan_r (x : number) : x + nan = nan.
Proof.
  apply is_nan. rewrite add_spec. change (Prim2SF nan) with S754_nan.
  now destruct (Prim2SF x) as [[]|[]| |[]].
Qed.

Lemma add_nan_l (x : number) : nan + x = nan.
Proof.
  apply is_nan. rewrite add_spec. change (Prim2SF nan) with S754_nan. reflexivity.
Qed.

Lemma sub_nan_r (x : number) : x - nan = nan.
Proof.
  apply is_nan. rewrite sub_spec. change (Prim2SF nan) with S754_nan.
  now destruct (Prim2SF x) as [[]|[]| |[]].
Qed.

Lemma leb_nan_r (x : number) : (x <=? nan) = false.
Proof.
  rewrite leb_spec. change (Prim2SF nan) with S754_nan.
  now destruct (Prim2SF x) as [[]|[]| |[]].
Qed.

Lemma leb_nan_l (x : number) : (nan <=? x) = false.
Proof. rewrite leb_spec. reflexivity. Qed.

Lemma sum_nan {A : Type} (f : A -> number) (l : list A) (acc : number) (x : A) :
  In x l -> f x = nan ->
  fold_left (fun total a => total + f a) l acc = nan.
Proof.
  intros Hin Hx.
  assert (N : forall l, fold_left (fun total a => total + f a) l nan = nan).
  { intros l0. induction l0 as [|a l0 IH]; cbn; [reflexivity|].
    now rewrite add_nan_l. }
  revert acc. induction l as [|a l IH]; intros acc; [contradiction|].
  cbn. destruct Hin as [->|Hin]; [|now apply IH].
  rewrite Hx, add_nan_r. apply N.
Qed.

(** *** Times without a colon *)

Lemma split_no_colon (s : string) : includes ":" s = false -> split ":" s = [s].
Proof.
  induction s as [|c s IH]; [reflexivity|].
  cbn [includes split]. intros H. apply orb_false_elim in H as [H1 H2].
  rewrite (IH H2).
  destruct (Ascii.eqb c ":") eqn:E; [|reflexivity].
  apply Ascii.eqb_eq in E. subst c. cbn [prefix] in H1.
  destruct (ascii_dec ":" ":") as [_|N]; [|now elim N].
  destruct s; discriminate H1.
Qed.

Lemma calculateHoursFromTimes_no_colon (fromTime toTime : string) :
  includes ":" fromTime = false \/ includes ":" toTime = false ->
  calculateHoursFromTimes fromTime toTime = nan.
Proof.
  unfold calculateHoursFromTimes. intros [H|H]; rewrite (split_no_colon _ H); cbn [map nth].
  - rewrite add_nan_r, leb_nan_l, sub_nan_r, add_nan_l. reflexivity.
  - rewrite add_nan_r, leb_nan_r, add_nan_r. reflexivity.
Qed.

(** X9: a time without a colon raises no error: when a completed presence of
    the day has such a start or end, the hours of the day are NaN and are
    shown as "NaN:NaN", whatever the other presences of the day. *)
Theorem createDailyPresenceSummary_malformed_time (date : string)
    (ps : list UserPresence.t) (p : UserPresence.t) :
  In p ps -> malformed p ->
  createDailyPresenceSummary date ps = inr (not_a_number_day date).
Proof.
  intros Hin [Hc Hm]. unfold createDailyPresenceSummary.
  cbv zeta.
  change (fold_left _ (filter completed ps) 0)
    with (fold_left (fun total a => total + elapsed a) (filter completed ps) 0).
  rewrite (sum_nan elapsed (filter completed ps) 0 p).
  - reflexivity.
  - apply filter_In. auto.
  - now apply calculateHoursFromTimes_no_colon.
Qed.

Lemma createDailyPresenceSummary_malformed_time_witness :
  createDailyPresenceSummary "2024-01-15" [worked; no_colon_start]
  = inr (not_a_number_day "2024-01-15").
Proof.
  apply (createDailyPresenceSummary_malformed_time _ _ no_colon_start).
  - right. left. reflexivity.
  - split; [reflexivity|]. left. reflexivity.
Defined.

(** *** Which presences are accepted *)

Lemma createDailyPresenceSummary_total (date : string) (ps : list UserPresence.t) :
  createDailyPresenceSummary date ps
  = (tf <- createTimeFormat (sumHours (map elapsed (filter completed ps))) ;;
     inr (DailyPresenceSummary.mk date
            (roundHours (sumHours (map elapsed (filter completed ps))))
            (hoursFormatted tf))).
Proof.
  unfold createDailyPresenceSummary, sumHours. now rewrite fold_left_map.
Qed.

Lemma createDailyPresenceSummary_error (date : string) (ps : list UserPresence.t)
    (e : Error) :
  createDailyPresenceSummary date ps = inl e -> e = negative_hours.
Proof.
  rewrite createDailyPresenceSummary_total.
  destruct (createTimeFormat _) as [e'|tf] eqn:E; cbn; [|discriminate].
  intros [= <-]. exact (createTimeFormat_error _ _ E).
Qed.

Lemma aggregatePresences_error (ps : list UserPresence.t) (sd ed : string) (e : Error) :
  aggregatePresences ps sd ed = inl e -> e = negative_hours.
Proof.
  unfold aggregatePresences.
  destruct (mapM _ _) as [e'|ds] eqn:Hds; cbn [bind].
  - intros [= <-]. destruct (mapM_inl _ _ _ Hds) as (date & _ & Hd).
    exact (createDailyPresenceSummary_error _ _ _ Hd).
  - destruct (createTimeFormat _) as [e'|tf] eqn:E; cbn; [|discriminate].
    intros [= <-]. exact (createTimeFormat_error _ _ E).
Qed.

Lemma aggregatePresences_accepts_days (ps : list UserPresence.t) (sd ed : string) :
  (forall p, In p ps -> day_not_negative ps p) ->
  exists s, aggregatePresences ps sd ed = inr s.
Proof.
  intros H. unfold aggregatePresences.
  change (mapM _ ?l)
    with (mapM (fun date => createDailyPresenceSummary date (dayPresences ps date)) l).
  destruct (mapM_accepts (fun date => createDailyPresenceSummary date (dayPresences ps date))
              (sort (JsMap.keys (groupByDate ps)))) as [ds Hds].
  { apply Forall_forall. intros date Hdate.
    apply sort_In, presencesByDate_keys, in_map_iff in Hdate as (p & <- & Hp).
    rewrite dayPresences_date, createDailyPresenceSummary_total.
    rewrite (createTimeFormat_not_negative _ (H p Hp)). cbn. eauto. }
  rewrite Hds. cbn [bind].
  rewrite createTimeFormat_not_negative; [cbn; eauto|].
  apply sumHours_not_negative, Forall_map. apply mapM_inr in Hds.
  clear H. induction Hds as [|date d l ds Hd _ IH]; constructor; [|exact IH].
  exact (createDailyPresenceSummary_accepted _ _ _ Hd).
Qed.

Lemma aggregatePresences_accepted_days (ps : list UserPresence.t) (sd ed : string)
    (s : PresenceRangeSummary.t) (p : UserPresence.t) :
  aggregatePresences ps sd ed = inr s -> In p ps -> day_not_negative ps p.
Proof.
  intros H Hp. assert (F := aggregatePresences_days _ _ _ _ H).
  assert (Hk : In (UserPresence.date p) (sort (JsMap.keys (groupByDate ps)))).
  { apply sort_In, presencesByDate_keys, in_map, Hp. }
  destruct (Forall2_In_left _ _ _ _ F Hk) as (d & _ & Hd).
  rewrite createDailyPresenceSummary_total in Hd.
  destruct (createTimeFormat _) as [e|tf] eqn:E; [discriminate|].
  now destruct (createTimeFormat_accepted _ _ E).
Qed.

(** X18: [aggregatePresences] returns a summary exactly when, for every date
    of the input, the hours of the completed presences of that date add up
    to a number that is not below zero; when it does not, the error is
    "Hours cannot be negative".  A start after the end of the day can make
    the hours negative: a single presence from 25:00 to 00:30 is refused. *)
Theorem aggregatePresences_throws_iff_negative_day :
  (forall ps sd ed,
     ((exists s, aggregatePresences ps sd ed = inr s)
      <-> forall p, In p ps -> day_not_negative ps p) /\
     (forall e, aggregatePresences ps sd ed = inl e ->
        e = mkError false "Hours cannot be negative")) /\
  aggregatePresences [late_start] "2024-01-15" "2024-01-15"
  = throw "Hours cannot be negative".
Proof.
  split; [|vm_compute; reflexivity].
  intros ps sd ed. split; [split|].
  - intros [s H] p Hp. exact (aggregatePresences_accepted_days _ _ _ _ _ H Hp).
  - apply aggregatePresences_accepts_days.
  - intros e. apply aggregatePresences_error.
Qed.

End PresencesFacts.

(* ================================================================== *)
(** ** Facts about utils/errorHandler.ts and services/mocoApi.ts *)
(* ================================================================== *)

Module MocoApiFacts.
Import JS ErrorHandler MocoApiService.

Local Open Scope string_scope.











(** *** Page numbers *)

Import Binary64 Binary64Facts SignFacts.
Local Open Scope float_scope.

Lemma SFltb_canon (a b : Z) :
  (0 <= a)%Z -> (0 <= b)%Z -> small a -> small b ->
  SFltb (canon a) (canon b) = (a <? b)%Z.
Proof.
  intros Ha Hb Hsa Hsb.
  destruct (Z.eq_dec b 0) as [->|Hb0]; [|destruct (Z.eq_dec a 0) as [->|Ha0]].
  - change (canon 0) with (S754_zero false).
    replace (a <? 0)%Z with false by (symmetry; apply Z.ltb_ge; lia).
    unfold canon. destruct (a =? 0)%Z eqn:E; [reflexivity|].
    unfold SFltb. cbn [SFcompare].
    now replace (a <? 0)%Z with false by (symmetry; apply Z.ltb_ge; lia).
  - change (canon 0) with (S754_zero false).
    replace (0 <? b)%Z with true by (symmetry; apply Z.ltb_lt; lia).
    rewrite (canon_nonzero b Hb0). unfold SFltb. cbn [SFcompare].
    now replace (b <? 0)%Z with false by (symmetry; apply Z.ltb_ge; lia).
  - rewrite (canon_nonzero a Ha0), (canon_nonzero b Hb0).
    replace (a <? 0)%Z with false by (symmetry; apply Z.ltb_ge; lia).
    replace (b <? 0)%Z with false by (symmetry; apply Z.ltb_ge; lia).
    unfold SFltb. cbn [SFcompare].
    assert (Wa := width_bounds a Ha0 Hsa). assert (Wb := width_bounds b Hb0 Hsb).
    destruct (Z.compare_spec (width a - 53) (width b - 53)) as [E|E|E].
    + change (Pos.compare_cont Eq (canonM a) (canonM b))
        with (Z.compare (Zpos (canonM a)) (Zpos (canonM b))).
      rewrite !canonM_spec by assumption. rewrite !Z.abs_eq by lia.
      replace (width b) with (width a) by lia.
      assert (P : (0 < 2 ^ (53 - width a))%Z) by (apply Z.pow_pos_nonneg; lia).
      destruct (Z.compare_spec (a * 2 ^ (53 - width a)) (b * 2 ^ (53 - width a)))
        as [C|C|C]; symmetry; [apply Z.ltb_ge|apply Z.ltb_lt|apply Z.ltb_ge]; nia.
    + symmetry. apply Z.ltb_lt. apply width_lt; lia.
    + symmetry. apply Z.ltb_ge.
      assert (b < a)%Z by (apply width_lt; lia). lia.
Qed.

Lemma ltb_exact (a b : Z) :
  (0 <= a)%Z -> (0 <= b)%Z -> small a -> small b ->
  (Z2F false a <? Z2F false b) = (a <? b)%Z.
Proof.
  intros Ha Hb Hsa Hsb. rewrite ltb_spec, !Prim2SF_Z2F by assumption.
  now apply SFltb_canon.
Qed.

Lemma ltb_infinity (k : Z) : (0 <= k)%Z -> small k -> (Z2F false k <? infinity) = true.
Proof.
  intros Hk Hs. rewrite ltb_spec, Prim2SF_Z2F by assumption.
  unfold canon. destruct (k =? 0)%Z; [reflexivity|].
  now replace (k <? 0)%Z with false by (symmetry; apply Z.ltb_ge; lia).
Qed.

Lemma next_page (k : Z) : (0 <= k)%Z -> small (k + 1) -> Z2F false k + 1 = Z2F false (k + 1).
Proof.
  intros Hk Hs. change 1 with (Z2F false 1). apply add_exact; [| |exact Hs].
  - unfold small in *. lia.
  - apply small_below. lia.
Qed.

(** *** Pagination *)

Lemma arrives_request {T : Type} (fetch : number -> FetchedPage (list T)) (k : Z)
    (data : list T) (headers : Headers) :
  arrives fetch k data headers ->
  makeRequestWithHeaders (fetch (Z2F false k)) = inr (data, headers).
Proof. intros (st & tx & E). rewrite E. reflexivity. Qed.

Lemma tells_pages_more (headers : Headers) (pages k : Z) :
  tells_pages headers pages ->
  (0 <= k)%Z -> small k -> (0 <= pages)%Z -> small pages ->
  hasMorePages (Z2F false k) headers = (k <? pages)%Z.
Proof.
  intros [Ht Hp] Hk Hsk Hn Hsn. unfold hasMorePages. rewrite Ht, Hp.
  now apply ltb_exact.
Qed.

Lemma seq_concat_first {T : Type} (data : Z -> list T) (j m : nat) :
  List.concat (map (fun k => data (Z.of_nat k)) (seq j (S m)))
  = (data (Z.of_nat j) ++ List.concat (map (fun k => data (Z.of_nat k)) (seq (S j) m)))%list.
Proof. reflexivity. Qed.

Lemma fetchPages_collects {T : Type} (fetch : number -> FetchedPage (list T))
    (data : Z -> list T) (headers : Z -> Headers) (pages : Z) (n : nat) :
  (0 <= pages)%Z -> small (Z.of_nat n + 1) ->
  Z.of_nat n = Z.max 1 pages ->
  (forall k, (1 <= k <= Z.of_nat n)%Z ->
     arrives fetch k (data k) (headers k) /\ tells_pages (headers k) pages) ->
  forall (m j fuel : nat) (acc : list T),
    (j + S m = n)%nat -> (S m <= fuel)%nat ->
    fetchPages fuel fetch (Z2F false (Z.of_nat (S j))) acc
    = Some (inr (acc ++ List.concat (map (fun k => data (Z.of_nat k)) (seq (S j) (S m))))%list).
Proof.
  intros Hp Hs Hn H. unfold small in Hs.
  induction m as [|m IH]; intros j fuel acc Hj Hf;
    (destruct fuel as [|fuel]; [lia|]); cbn [fetchPages];
    destruct (H (Z.of_nat (S j)) ltac:(lia)) as [Ha Ht];
    rewrite (arrives_request _ _ _ _ Ha);
    rewrite (tells_pages_more _ _ _ Ht) by (unfold small; lia).
  - replace (Z.of_nat (S j) <? pages)%Z with false by (symmetry; apply Z.ltb_ge; lia).
    cbn [seq map List.concat]. now rewrite app_nil_r.
  - replace (Z.of_nat (S j) <? pages)%Z with true by (symmetry; apply Z.ltb_lt; lia).
    rewrite next_page by (unfold small; lia).
    replace (Z.of_nat (S j) + 1)%Z with (Z.of_nat (S (S j))) by lia.
    rewrite (IH (S j) fuel) by lia.
    rewrite (seq_concat_first data (S j) (S m)), app_assoc. reflexivity.
Qed.

Lemma fetchPages_no_end {T : Type} (fetch : number -> FetchedPage (list T))
    (data : Z -> list T) (headers : Z -> Headers) (limit : Z) :
  small limit ->
  (forall k, (1 <= k < limit)%Z ->
     arrives fetch k (data k) (headers k) /\ tells_empty_pages (headers k)) ->
  forall (fuel : nat) (k : Z) (acc : list T),
    (1 <= k)%Z -> (k + Z.of_nat fuel <= limit)%Z ->
    fetchPages fuel fetch (Z2F false k) acc = None.
Proof.
  intros Hs H. unfold small in Hs.
  induction fuel as [|fuel IH]; intros k acc Hk Hl; [reflexivity|].
  cbn [fetchPages]. destruct (H k ltac:(lia)) as [Ha (Ht & (m & e & Hm) & Hz)].
  rewrite (arrives_request _ _ _ _ Ha).
  assert (E : hasMorePages (Z2F false k) (headers k) = true).
  { unfold hasMorePages. rewrite Ht, Hz.
    assert (I : parseInt10 (header_text (X_Total (headers k))) / 0 = infinity).
    { apply Prim2SF_inj. rewrite div_spec, Hm. reflexivity. }
    rewrite I. apply ltb_infinity; unfold small; lia. }
  rewrite E, next_page by (unfold small; lia).
  apply IH; lia.
Qed.

(** X10: [fetchAllPages] asks for the pages one after the other and returns
    their items in page order.  When every page comes with headers that tell
    the same number of pages (the ceiling of X-Total by X-Per-Page), the
    pages 1 to that number are fetched, at least the first; when the first
    page comes without one of the headers X-Page, X-Total and X-Per-Page, or
    with an empty one, it is the only page fetched.  With 250 items, 100 to
    a page, three pages are fetched. *)
Theorem fetchAllPages_collects_pages :
  (forall (T : Type) (fetch : number -> FetchedPage (list T))
          (data : Z -> list T) (headers : Z -> Headers) (pages : Z) (fuel : nat),
     (0 <= pages < 2 ^ 52)%Z ->
     (forall k, (1 <= k <= Z.max 1 pages)%Z ->
        arrives fetch k (data k) (headers k) /\ tells_pages (headers k) pages) ->
     (Z.max 1 pages <= Z.of_nat fuel)%Z ->
     fetchAllPages fuel fetch
     = Some (inr (pages_items data (Z.to_nat (Z.max 1 pages))))) /\
  (forall (T : Type) (fetch : number -> FetchedPage (list T))
          (data : list T) (headers : Headers) (fuel : nat),
     arrives fetch 1 data headers ->
     truthy (X_Page headers) && truthy (X_Total headers) && truthy (X_Per_Page headers)
       = false ->
     fetchAllPages (S fuel) fetch = Some (inr data)) /\
  fetchAllPages 3 three_pages = Some (inr [1; 2; 3]).
Proof.
  split; [|split].
  - intros T fetch data headers pages fuel Hp H Hf.
    set (n := Z.to_nat (Z.max 1 pages)).
    assert (Hn : Z.of_nat n = Z.max 1 pages) by (unfold n; lia).
    destruct n as [|m] eqn:En; [lia|].
    unfold fetchAllPages, pages_items.
    change 1 with (Z2F false (Z.of_nat 1)).
    rewrite (fetchPages_collects fetch data headers pages (S m)) with (m := m);
      try lia; try reflexivity.
    + unfold small. lia.
    + intros k Hk. apply H. lia.
  - intros T fetch data headers fuel Ha Hh. unfold fetchAllPages. cbn [fetchPages].
    change 1 with (Z2F false 1). rewrite (arrives_request _ _ _ _ Ha).
    unfold hasMorePages. rewrite Hh. reflexivity.
  - vm_compute. reflexivity.
Qed.

(** X11: when the pages come with headers that tell a positive number of
    items and zero items to a page (X-Per-Page "0"), [fetchAllPages] does not
    end: after any number of requests it is still asking for the next page. *)
Theorem fetchAllPages_zero_per_page_never_ends {T : Type}
    (fetch : number -> FetchedPage (list T)) (data : Z -> list T)
    (headers : Z -> Headers) (fuel : nat) :
  (Z.of_nat fuel < 2 ^ 52)%Z ->
  (forall k, (1 <= k <= Z.of_nat fuel)%Z ->
     arrives fetch k (data k) (headers k) /\ tells_empty_pages (headers k)) ->
  fetchAllPages fuel fetch = None.
Proof.
  intros Hf H. unfold fetchAllPages. change 1 with (Z2F false 1).
  apply (fetchPages_no_end fetch data headers (Z.of_nat fuel + 1)); try lia.
  - unfold small. lia.
  - intros k Hk. apply H. lia.
Qed.

Lemma fetchAllPages_zero_per_page_never_ends_witness :
  fetchAllPages 25 zero_per_page = None.
Proof.
  apply (fetchAllPages_zero_per_page_never_ends zero_per_page
           (fun k => [Z2F false k])
           (fun _ => mkHeaders (Some "1") (Some "10") (Some "0"))).
  - lia.
  - intros k _. split.
    + exists 200%Z, "OK". reflexivity.
    + split; [reflexivity|]. split; [|reflexivity].
      eexists _, _. vm_compute. reflexivity.
Defined.

(** *** Errors that pass through [makeRequest] *)

Lemma includes_app_r (sub p s : string) :
  includes sub s = true -> includes sub (p ++ s) = true.
Proof.
  intros H. induction p as [|c p IH]; [exact H|].
  cbn [append includes]. rewrite IH. apply orb_true_r.
Qed.

Lemma includes_nonempty (sub s : string) :
  sub <> "" -> includes sub s = true -> s <> "".
Proof.
  intros Hs H ->. destruct sub as [|c sub]; [now apply Hs|]. discriminate H.
Qed.

Lemma handleMocoApiError_passed_on (error : Error) :
  passed_on error -> message error <> "" ->
  handleMocoApiError error = "MoCo API error: " ++ message error.
Proof.
  intros [H1 H2] Hne. unfold handleMocoApiError. rewrite H1, H2.
  apply String.eqb_neq in Hne. rewrite Hne.
  destruct (includes "HTTP" (message error)); reflexivity.
Qed.

Lemma makeRequest_failure {T : Type} (fetched : Fetched T) (error : Error) :
  failure fetched = Some error ->
  makeRequest fetched = throw (handleMocoApiError error).
Proof.
  unfold failure, makeRequest. destruct fetched as [reason|response].
  - now intros [= ->].
  - destruct (negb (ok response)); [now intros [= <-]|].
    destruct (json response); [now intros [= ->]|discriminate].
Qed.

(** X12: [getUserHolidays] tells "not found" by the text of the message
    alone: whenever the request fails with an error that [handleMocoApiError]
    passes on (not a fetch [TypeError], no status in the message) and whose
    message contains "Resource not found", be it a rejected [fetch] or a body
    that does not parse, the empty list is returned and the error is lost. *)
Theorem getUserHolidays_tells_by_text (fetched : Fetched (list UserHoliday.t))
    (error : Error) :
  failure fetched = Some error ->
  passed_on error ->
  includes "Resource not found" (message error) = true ->
  getUserHolidays fetched = inr [].
Proof.
  intros Hf Hp Hi. unfold getUserHolidays.
  rewrite (makeRequest_failure _ _ Hf).
  rewrite (handleMocoApiError_passed_on _ Hp).
  - cbn [throw message]. now rewrite (includes_app_r _ "MoCo API error: " _ Hi).
  - apply (includes_nonempty "Resource not found"); [discriminate|exact Hi].
Qed.

Lemma getUserHolidays_tells_by_text_witness :
  getUserHolidays
    (Resolved (mkResponse true 200 "OK"
                 (inl (mkError false "Unexpected token: Resource not found page"))))
  = inr [].
Proof.
  apply (getUserHolidays_tells_by_text _
           (mkError false "Unexpected token: Resource not found page")).
  - reflexivity.
  - split; reflexivity.
  - reflexivity.
Defined.

Lemma createHttpErrorMessage_nonempty (statusCode : number) :
  createHttpErrorMessage statusCode <> "".
Proof.
  unfold createHttpErrorMessage.
  repeat match goal with |- context [if ?b then _ else _] => destruct b end;
    discriminate.
Qed.

Lemma handleMocoApiError_nonempty (error : Error) : handleMocoApiError error <> "".
Proof.
  unfold handleMocoApiError.
  destruct (is_TypeError error && _)%bool; [discriminate|].
  destruct (if negb (String.eqb (message error) "") && _ then _ else _).
  - apply createHttpErrorMessage_nonempty.
  - destruct (negb (String.eqb (message error) "")); discriminate.
Qed.

(** X13: [makeRequest] returns data only for a response that is ok and whose
    body parses, and then it returns that body; every failure is thrown as a
    plain [Error] (never a [TypeError]) whose message is the one
    [handleMocoApiError] gives for what went wrong, and that message is never
    empty. *)
Theorem makeRequest_contract {T : Type} (fetched : Fetched T) :
  match makeRequest fetched with
  | inr data =>
      failure fetched = None /\
      exists status statusText,
        fetched = Resolved (mkResponse true status statusText (inr data))
  | inl error =>
      is_TypeError error = false /\ message error <> "" /\
      exists cause, failure fetched = Some cause /\
                    message error = handleMocoApiError cause
  end.
Proof.
  unfold makeRequest, failure.
  destruct fetched as [reason|[[|] st tx [e|data]]];
    cbn [ok json MocoApiService.status MocoApiService.statusText negb];
    unfold throw; cbn [is_TypeError message];
    try (repeat split; [apply handleMocoApiError_nonempty|eauto]).
  split; [reflexivity|eauto].
Qed.

End MocoApiFacts.
